(** * Kanban board: Board Service and File Service

    A shallow embedding of the two services of the kanban backend
    (task CRUD with real-time notifications, and file attachments kept in
    an S3-compatible object store), together with the properties their
    specification states about them.

    Conventions of the embedding:
    - a Python [int] is a [Z]; a [str] is a [string]; [bytes] is a list of
      bytes; [Optional[T]] is [option T];
    - a [set] is a [gset]; the insertion-ordered [dict] of the WebSocket
      manager is an association list without duplicate keys; a message
      dictionary, of which only the content matters, is a [gmap];
    - a database table is the list of its rows in storage order, next to
      the sequence that hands out primary keys and the engine that serves
      it, which is free where a statement leaves the order of rows open;
    - code that can raise returns a [Result]; code that also changes the
      database or the object store threads that state explicitly, and the
      state reached when an exception leaves a function is kept (what was
      written to the object store before the exception stays written);
    - the clock, the UUID generator and the behaviour of the remote ends
      (HTTP peer, object store, WebSocket peers) are inputs. *)

From Stdlib Require Import ZArith List Ascii String Bool Lia.
From stdpp Require Import base tactics option list sorting gmap strings pretty.

Local Open Scope string_scope.
Local Open Scope Z_scope.

(** ** Python runtime: exceptions, strings, dictionaries *)

Module Py.

(** The exception classes that the two services name or can meet.  All of
    them derive from [Exception]; signals outside that hierarchy (task
    cancellation, interpreter exit) are not part of the model. *)
Inductive Exn : Type :=
  | ValueError (msg : string)
  | RuntimeError (msg : string)
  | WebSocketDisconnect
  | ClientError (msg : string)            (* botocore: error answer of the store *)
  | EndpointConnectionError (msg : string) (* botocore: store unreachable; a
                                              BotoCoreError, not a ClientError *)
  | ConnectError (msg : string)           (* httpx: peer unreachable *)
  | TimeoutException                      (* httpx: no answer within the timeout *)
  | HTTPStatusError (status_code : Z)     (* httpx: raise_for_status *)
  | MultipleResultsFound                  (* sqlalchemy: scalar_one_or_none *)
  | IntegrityError (msg : string)         (* sqlalchemy: constraint violated *)
  | DBAPIError (msg : string)             (* sqlalchemy: statement refused *)
  | RequestValidationError (msg : string) (* fastapi: request refused, 422 *)
  | HTTPException (status_code : Z) (detail : string).

Definition is_ClientError (e : Exn) : bool :=
  match e with ClientError _ => true | _ => false end.

Definition is_ValueError (e : Exn) : bool :=
  match e with ValueError _ => true | _ => false end.

(** [except (WebSocketDisconnect, RuntimeError)] *)
Definition is_WebSocketDisconnect_or_RuntimeError (e : Exn) : bool :=
  match e with WebSocketDisconnect | RuntimeError _ => true | _ => false end.

(** [str(e)] for the exceptions whose text the services forward. *)
Definition str_exn (e : Exn) : string :=
  match e with
  | ValueError m | RuntimeError m | ClientError m | EndpointConnectionError m
  | ConnectError m | IntegrityError m | DBAPIError m
  | RequestValidationError m => m
  | WebSocketDisconnect => "WebSocketDisconnect"
  | TimeoutException => "TimeoutException"
  | HTTPStatusError c => "HTTPStatusError " +:+ pretty c
  | MultipleResultsFound => "Multiple rows were found when one or none was required"
  | HTTPException _ d => d
  end.

(** The outcome of a call: a value, or an exception on its way out. *)
Inductive Result (A : Type) : Type :=
  | Return (a : A)
  | Raise (e : Exn).
Arguments Return {A} a.
Arguments Raise {A} e.

Definition bind {A B} (r : Result A) (k : A → Result B) : Result B :=
  match r with Return a => k a | Raise e => Raise e end.

(** *** Strings *)

(** [s.rfind(c)]: the highest index holding [c], or [-1]. *)
Fixpoint rfind_from (c : ascii) (s : string) (i last : Z) : Z :=
  match s with
  | EmptyString => last
  | String a s' => rfind_from c s' (i + 1) (if Ascii.eqb a c then i else last)
  end.

Definition rfind (s : string) (c : ascii) : Z := rfind_from c s 0 (-1).

(** [s[:k]] and [s[k:]] for [0 <= k]. *)
Definition slice_to (s : string) (k : Z) : string :=
  String.substring 0 (Z.to_nat k) s.

Fixpoint drop_string (n : nat) (s : string) : string :=
  match n, s with
  | O, _ => s
  | S n', String _ s' => drop_string n' s'
  | S _, EmptyString => EmptyString
  end.

Definition slice_from (s : string) (k : Z) : string :=
  drop_string (Z.to_nat k) s.

(** [s[i:i+1]]: one character, or the empty string past the end. *)
Definition slice_one (s : string) (i : Z) : string :=
  match String.get (Z.to_nat i) s with
  | Some a => String a EmptyString
  | None => EmptyString
  end.

(** [str.lower] on the ASCII range; other byte values are left alone. *)
Definition lower_ascii (a : ascii) : ascii :=
  let n := nat_of_ascii a in
  if ((65 <=? n) && (n <=? 90))%nat then ascii_of_nat (n + 32) else a.

Fixpoint lower (s : string) : string :=
  match s with
  | EmptyString => EmptyString
  | String a s' => String (lower_ascii a) (lower s')
  end.

(** The one-character string holding a double quote. *)
Definition dquote : string := String (ascii_of_nat 34) EmptyString.

(** [sep.join(parts)] *)
Fixpoint join (sep : string) (parts : list string) : string :=
  match parts with
  | [] => EmptyString
  | [p] => p
  | p :: rest => p +:+ sep +:+ join sep rest
  end.

(** [c in s] for a character. *)
Fixpoint contains (c : ascii) (s : string) : bool :=
  match s with
  | EmptyString => false
  | String a s' => Ascii.eqb a c || contains c s'
  end.

(** [len(b)] *)
Definition len {A} (l : list A) : Z := Z.of_nat (length l).

(** [s.split(c)] for a one-character separator: the pieces between the
    separators, one more than there are separators. *)
Fixpoint split_on (c : ascii) (s : string) : list string :=
  match s with
  | EmptyString => [EmptyString]
  | String a s' =>
      if Ascii.eqb a c then EmptyString :: split_on c s'
      else match split_on c s' with
           | first :: rest => String a first :: rest
           | [] => [String a EmptyString]
           end
  end.

(** [s.count(c)] *)
Fixpoint count_char (c : ascii) (s : string) : nat :=
  match s with
  | EmptyString => O
  | String a s' => (if Ascii.eqb a c then 1 else 0) + count_char c s'
  end.

(** The whitespace of the ASCII range, as [str.isspace] has it. *)
Definition is_space (a : ascii) : bool :=
  let n := nat_of_ascii a in
  (((9 <=? n) && (n <=? 13)) || ((28 <=? n) && (n <=? 32)))%nat.

Fixpoint lstrip (s : string) : string :=
  match s with
  | EmptyString => EmptyString
  | String a s' => if is_space a then lstrip s' else s
  end.

Fixpoint rstrip (s : string) : string :=
  match s with
  | EmptyString => EmptyString
  | String a s' =>
      match rstrip s' with
      | EmptyString => if is_space a then EmptyString else String a EmptyString
      | r => String a r
      end
  end.

(** [s.strip()] on the ASCII range. *)
Definition strip (s : string) : string := rstrip (lstrip s).

(** [s.startswith(c)] for a character. *)
Definition startswith (s : string) (c : ascii) : bool :=
  match s with
  | String a _ => Ascii.eqb a c
  | EmptyString => false
  end.

(** *** [os.path.splitext] (posixpath: separator [/], no alternative
    separator, extension separator [.]) *)

(** The [while filenameIndex < dotIndex] loop of [genericpath._splitext]:
    [Some] is the [return] from inside the loop, [None] is the loop running
    to its end.  The counter grows by one per iteration, so
    [dotIndex - filenameIndex] iterations are all it can make. *)
Fixpoint splitext_loop (p : string) (dotIndex : Z) (iterations : nat)
    (filenameIndex : Z) : option (string * string) :=
  match iterations with
  | O => None
  | S n =>
      if filenameIndex <? dotIndex then
        if negb (String.eqb (slice_one p filenameIndex) ".") then
          Some (slice_to p dotIndex, slice_from p dotIndex)
        else splitext_loop p dotIndex n (filenameIndex + 1)
      else None
  end.

Definition splitext (p : string) : string * string :=
  let sepIndex := rfind p "/" in
  let dotIndex := rfind p "." in
  let found :=
    if dotIndex >? sepIndex then
      let filenameIndex := sepIndex + 1 in
      splitext_loop p dotIndex (Z.to_nat (dotIndex - filenameIndex)) filenameIndex
    else None in
  match found with
  | Some r => r
  | None => (p, slice_to p 0)
  end.

(** *** Insertion-ordered dictionaries

    A [dict] keeps its keys in insertion order: assigning to a key that is
    present replaces the value where it stands, assigning to a new key
    appends it, [pop] removes the entry. *)
Section Dict.
Context {K V : Type} `{EqDecision K}.

Definition dict_get (k : K) (d : list (K * V)) : option V :=
  snd <$> List.find (λ kv, bool_decide (kv.1 = k)) d.

Fixpoint dict_set (k : K) (v : V) (d : list (K * V)) : list (K * V) :=
  match d with
  | [] => [(k, v)]
  | (k', v') :: d' =>
      if decide (k' = k) then (k, v) :: d' else (k', v') :: dict_set k v d'
  end.

(** [d.pop(k, None)] *)
Definition dict_pop (k : K) (d : list (K * V)) : list (K * V) :=
  List.filter (λ kv, negb (bool_decide (kv.1 = k))) d.

Definition dict_items (d : list (K * V)) : list (K * V) := d.

(** The keys of a dictionary are distinct. *)
Definition dict_wf (d : list (K * V)) : Prop := NoDup (d.*1).
End Dict.

(** *** Code with effects: a state that survives exceptions *)

Definition M (S A : Type) : Type := S → Result A * S.

Definition mret {S A} (a : A) : M S A := λ s, (Return a, s).

Definition mraise {S A} (e : Exn) : M S A := λ s, (Raise e, s).

Definition mbind {S A B} (c : M S A) (k : A → M S B) : M S B :=
  λ s, match c s with
       | (Return a, s') => k a s'
       | (Raise e, s') => (Raise e, s')
       end.

(** [try: body  except <catch> as e: handler e] with the state the body
    had reached when it raised. *)
Definition mtry {S A} (body : M S A) (catch : Exn → bool)
    (handler : Exn → M S A) : M S A :=
  λ s, match body s with
       | (Return a, s') => (Return a, s')
       | (Raise e, s') => if catch e then handler e s' else (Raise e, s')
       end.

(** The same with two [except] clauses: the first that matches handles the
    exception, and what a handler raises is not offered to the other. *)
Definition mtry2 {S A} (body : M S A)
    (catch1 : Exn → bool) (handler1 : Exn → M S A)
    (catch2 : Exn → bool) (handler2 : Exn → M S A) : M S A :=
  λ s, match body s with
       | (Return a, s') => (Return a, s')
       | (Raise e, s') =>
           if catch1 e then handler1 e s'
           else if catch2 e then handler2 e s'
           else (Raise e, s')
       end.

Definition mmodify {S} (f : S → S) : M S unit := λ s, (Return tt, f s).

(** [for x in xs: body x] *)
Fixpoint mfor {S A} (xs : list A) (body : A → M S unit) : M S unit :=
  match xs with
  | [] => mret tt
  | x :: rest => mbind (body x) (λ _, mfor rest body)
  end.

End Py.

Notation "'let*' x ':=' c 'in' k" := (Py.mbind c (λ x, k))
  (at level 10, x name, c at level 100, k at level 200).
Notation "c1 '>>' c2" := (Py.mbind c1 (λ _, c2))
  (at level 99, right associativity).

(** ** The relational store behind both services (SQLAlchemy over SQL) *)

Module Sql.

(** A mapped class: its rows carry an integer primary key [id]. *)
Class Model (R : Type) := {
  pk : R → Z;
  with_pk : Z → R → R
}.

(** An INTEGER column holds 32 bits, and so does a parameter that is
    compared with one: the driver of the configured database (asyncpg, for
    [postgresql+asyncpg://]) refuses to encode any other value. *)
Definition is_int32 (k : Z) : bool :=
  (-2147483648 <=? k) && (k <=? 2147483647).

Record OrderClause (R : Type) := mkOrder {
  order_key : R → Z;
  order_desc : bool
}.
Arguments mkOrder {R} order_key order_desc.
Arguments order_key {R} o.
Arguments order_desc {R} o.

(** A [select(R)] statement under construction.  The generative methods
    [where], [offset], [limit] and [order_by] each fill in one clause of
    the statement, whatever the order they are called in.  The values that
    a WHERE compares with INTEGER columns travel as parameters. *)
Record Select (R : Type) := mkSelect {
  whereclause : list (R → bool);
  integer_parameters : list Z;
  offset_clause : option Z;
  limit_clause : option Z;
  order_by_clauses : list (OrderClause R)
}.
Arguments mkSelect {R} whereclause integer_parameters offset_clause limit_clause
  order_by_clauses.
Arguments whereclause {R} s.
Arguments integer_parameters {R} s.
Arguments offset_clause {R} s.
Arguments limit_clause {R} s.
Arguments order_by_clauses {R} s.

Section Statements.
Context {R : Type}.

Definition select : Select R := mkSelect [] [] None None [].

(** [.where(criterion)] for a criterion without an INTEGER parameter. *)
Definition where_ (p : R → bool) (q : Select R) : Select R :=
  mkSelect (whereclause q ++ [p]) (integer_parameters q) (offset_clause q)
           (limit_clause q) (order_by_clauses q).

(** [.where(column == value)] for an INTEGER column. *)
Definition where_integer (column : R → Z) (value : Z) (q : Select R) : Select R :=
  mkSelect (whereclause q ++ [λ r, column r =? value])
           (integer_parameters q ++ [value]) (offset_clause q)
           (limit_clause q) (order_by_clauses q).

Definition offset (k : Z) (q : Select R) : Select R :=
  mkSelect (whereclause q) (integer_parameters q) (Some k) (limit_clause q)
           (order_by_clauses q).

Definition limit (k : Z) (q : Select R) : Select R :=
  mkSelect (whereclause q) (integer_parameters q) (offset_clause q) (Some k)
           (order_by_clauses q).

Definition order_by (c : OrderClause R) (q : Select R) : Select R :=
  mkSelect (whereclause q) (integer_parameters q) (offset_clause q) (limit_clause q)
           (order_by_clauses q ++ [c]).

(** [a] may come before [b] under the ORDER BY list (lexicographic). *)
Fixpoint order_leb (cs : list (OrderClause R)) (a b : R) : bool :=
  match cs with
  | [] => true
  | c :: cs' =>
      if order_key c a =? order_key c b then order_leb cs' a b
      else if order_desc c then order_key c b <? order_key c a
           else order_key c a <? order_key c b
  end.

Definition order_le (cs : list (OrderClause R)) (a b : R) : Prop :=
  order_leb cs a b = true.

Global Instance order_le_dec cs a b : Decision (order_le cs a b).
Proof. unfold order_le. apply _. Defined.

Global Instance order_le_total (cs : list (OrderClause R)) : Total (order_le cs).
Proof.
  unfold order_le. intros a b. induction cs as [|c cs IH]; simpl; [by left |].
  rewrite (Z.eqb_sym (order_key c b)).
  destruct (order_key c a =? order_key c b) eqn:Heq; [exact IH |].
  apply Z.eqb_neq in Heq.
  destruct (order_desc c); rewrite !Z.ltb_lt; lia.
Qed.

Global Instance order_le_trans (cs : list (OrderClause R)) : Transitive (order_le cs).
Proof.
  unfold order_le. intros a b c. induction cs as [|o cs IH]; simpl; [done |].
  destruct (order_key o a =? order_key o b) eqn:Hab,
           (order_key o b =? order_key o c) eqn:Hbc,
           (order_key o a =? order_key o c) eqn:Hac;
    rewrite ?Z.eqb_eq, ?Z.eqb_neq in *; try lia; try exact IH;
    destruct (order_desc o); rewrite ?Z.ltb_lt; try lia; try congruence.
Qed.

Definition matches (q : Select R) (r : R) : bool :=
  forallb (λ p, p r) (whereclause q).

(** A sort that leaves the rows that compare equal in the order they
    came in. *)
Fixpoint insert_sorted (cs : list (OrderClause R)) (x : R) (l : list R) : list R :=
  match l with
  | [] => [x]
  | y :: l' => if order_leb cs x y then x :: l else y :: insert_sorted cs x l'
  end.

Definition stable_sort (cs : list (OrderClause R)) (l : list R) : list R :=
  foldr (insert_sorted cs) [] l.

Lemma insert_sorted_Permutation cs x l : insert_sorted cs x l ≡ₚ x :: l.
Proof.
  induction l as [|y l IH]; simpl; [done |].
  destruct (order_leb cs x y); [done |]. rewrite IH. apply Permutation_swap.
Qed.

Lemma insert_sorted_StronglySorted cs x l :
  StronglySorted (order_le cs) l → StronglySorted (order_le cs) (insert_sorted cs x l).
Proof.
  induction 1 as [|y l Hsorted IH Hall]; simpl.
  - repeat constructor.
  - destruct (order_leb cs x y) eqn:Hxy.
    + constructor; [by constructor |]. constructor; [exact Hxy |].
      eapply Forall_impl; [exact Hall |]. intros z Hyz. by transitivity y.
    + constructor; [exact IH |]. rewrite insert_sorted_Permutation.
      constructor; [| exact Hall].
      destruct (total (order_le cs) x y) as [Hle | Hle]; [| exact Hle].
      unfold order_le in Hle. congruence.
Qed.

Lemma stable_sort_Permutation cs l : stable_sort cs l ≡ₚ l.
Proof.
  induction l as [|x l IH]; simpl; [done |].
  by rewrite insert_sorted_Permutation, IH.
Qed.

Lemma stable_sort_StronglySorted cs l : StronglySorted (order_le cs) (stable_sort cs l).
Proof.
  induction l as [|x l IH]; simpl; [constructor |].
  by apply insert_sorted_StronglySorted.
Qed.

End Statements.

(** What the engine decides.  A statement fixes the order of its result
    only as far as its ORDER BY tells the rows apart: rows with equal keys,
    and all rows when there is no ORDER BY, come in an order of the
    engine's choosing, and the engine may choose differently for another
    statement (another WHERE, OFFSET or LIMIT) and for another content of
    the table.  An engine is any way of arranging the selected rows, given
    the statement and the stored rows, that respects the ORDER BY of the
    statement. *)
Record Engine (R : Type) := mkEngine {
  arrange : Select R → list R → list R → list R;
  arrange_Permutation : ∀ q stored l, arrange q stored l ≡ₚ l;
  arrange_StronglySorted :
    ∀ q stored l, StronglySorted (order_le (order_by_clauses q)) (arrange q stored l)
}.
Arguments mkEngine {R} arrange arrange_Permutation arrange_StronglySorted.
Arguments arrange {R} e q stored l.
Arguments arrange_Permutation {R} e q stored l.
Arguments arrange_StronglySorted {R} e q stored l.

(** The engine that leaves rows with equal keys in storage order, as a
    sequential scan of a small table does. *)
Definition storage_order_engine {R : Type} : Engine R :=
  mkEngine (λ q _ l, stable_sort (order_by_clauses q) l)
    (λ q _ l, stable_sort_Permutation (order_by_clauses q) l)
    (λ q _ l, stable_sort_StronglySorted (order_by_clauses q) l).

(** An engine that scans the table backwards for the statements that skip
    rows, and forwards for the others: it respects every ORDER BY as well
    as the first. *)
Definition scan {R : Type} (q : Select R) (l : list R) : list R :=
  match offset_clause q with
  | Some k => if 0 <? k then rev l else l
  | None => l
  end.

Lemma scan_Permutation {R : Type} (q : Select R) (l : list R) : scan q l ≡ₚ l.
Proof.
  unfold scan. destruct (offset_clause q) as [k |]; [| done].
  destruct (0 <? k); [apply Permutation_sym, Permutation_rev | done].
Qed.

Definition backward_scan_engine {R : Type} : Engine R :=
  mkEngine (λ q _ l, stable_sort (order_by_clauses q) (scan q l))
    (λ q _ l, perm_trans (stable_sort_Permutation (order_by_clauses q) (scan q l))
                (scan_Permutation q l))
    (λ q _ l, stable_sort_StronglySorted (order_by_clauses q) (scan q l)).

(** A table: its rows in storage order, the sequence behind [id], and the
    engine that serves it. *)
Record Table (R : Type) := mkTable {
  rows : list R;
  sequence : Z;
  engine : Engine R
}.
Arguments mkTable {R} rows sequence engine.
Arguments rows {R} t.
Arguments sequence {R} t.
Arguments engine {R} t.

Section Execution.
Context {R : Type}.

(** The rows a statement selects, in the order the engine gives them. *)
Definition ordered_rows (q : Select R) (t : Table R) : list R :=
  arrange (engine t) q (rows t) (List.filter (matches q) (rows t)).

Definition window (A : Type) (off lim : option Z) (l : list A) : list A :=
  let after := match off with Some k => drop (Z.to_nat k) l | None => l end in
  match lim with Some k => take (Z.to_nat k) after | None => after end.

Definition negative (k : option Z) : bool :=
  match k with Some z => z <? 0 | None => false end.

(** The statements that are refused: an INTEGER parameter that does not
    fit 32 bits is refused by the driver before the statement is sent;
    PostgreSQL refuses a negative OFFSET or LIMIT.  The parameters of
    OFFSET and LIMIT are otherwise taken as they come. *)
Definition refused (q : Select R) : option Py.Exn :=
  if negb (forallb is_int32 (integer_parameters q))
  then Some (Py.DBAPIError "value out of int32 range")
  else if negative (offset_clause q)
  then Some (Py.DBAPIError "OFFSET must not be negative")
  else if negative (limit_clause q)
  then Some (Py.DBAPIError "LIMIT must not be negative")
  else None.

(** [session.execute(q)] followed by [.scalars().all()]: WHERE, then
    ORDER BY, then OFFSET, then LIMIT. *)
Definition execute (q : Select R) (t : Table R) : Py.Result (list R) :=
  match refused q with
  | Some e => Py.Raise e
  | None => Py.Return (window R (offset_clause q) (limit_clause q) (ordered_rows q t))
  end.

(** [select(func.count(R.id))] with the same WHERE, then [.scalar()]. *)
Definition execute_count (q : Select R) (t : Table R) : Py.Result Z :=
  match refused q with
  | Some e => Py.Raise e
  | None => Py.Return (Py.len (List.filter (matches q) (rows t)))
  end.

Definition scalar_one_or_none (l : list R) : Py.Result (option R) :=
  match l with
  | [] => Py.Return None
  | [r] => Py.Return (Some r)
  | _ => Py.Raise Py.MultipleResultsFound
  end.

Context `{Model R}.

(** [session.add(r); flush; refresh]: INSERT with the next [id]. *)
Definition insert (r : R) (t : Table R) : R * Table R :=
  let new_id := sequence t + 1 in
  let row := with_pk new_id r in
  (row, mkTable (rows t ++ [row]) new_id (engine t)).

(** [session.delete(r); flush]: DELETE ... WHERE id = r.id. *)
Definition delete (r : R) (t : Table R) : Table R :=
  mkTable (List.filter (λ x, negb (pk x =? pk r)) (rows t)) (sequence t) (engine t).

(** flush of a changed object: UPDATE ... WHERE id = r.id. *)
Definition update (r : R) (t : Table R) : Table R :=
  mkTable (List.map (λ x, if pk x =? pk r then r else x) (rows t)) (sequence t)
          (engine t).

(** The primary-key constraint. *)
Definition pk_unique (t : Table R) : Prop := NoDup (pk <$> rows t).

(** The sequence has handed out every key in use. *)
Definition sequence_covers (t : Table R) : Prop :=
  Forall (λ r, pk r ≤ sequence t) (rows t).

Definition well_formed (t : Table R) : Prop :=
  pk_unique t ∧ sequence_covers t.
End Execution.

End Sql.

(** ** FastAPI: how the outcome of an endpoint becomes a response *)

Module FastAPI.

Record Response (B : Type) := mkResponse {
  status_code : Z;
  headers : list (string * string);
  body : B + string   (* the payload, or the [detail] of an error *)
}.
Arguments mkResponse {B} status_code headers body.
Arguments status_code {B} r.
Arguments headers {B} r.
Arguments body {B} r.

(** An endpoint that returns answers with its declared status code; an
    [HTTPException] answers with its own code and detail, a request that
    fails validation with 422, any other exception with 500. *)
Definition respond {B} (declared : Z) (hdrs : B → list (string * string))
    (r : Py.Result B) : Response B :=
  match r with
  | Py.Return b => mkResponse declared (hdrs b) (inl b)
  | Py.Raise (Py.HTTPException code detail) => mkResponse code [] (inr detail)
  | Py.Raise (Py.RequestValidationError msg) => mkResponse 422 [] (inr msg)
  | Py.Raise _ => mkResponse 500 [] (inr "Internal Server Error")
  end.

Definition no_headers {B} (_ : B) : list (string * string) := [].

End FastAPI.

(** ** Board Service *)

Module Board.

(** *** models/task.py *)

Inductive TaskStatus : Type := TODO | IN_PROGRESS | DONE.

Global Instance TaskStatus_eq_dec : EqDecision TaskStatus.
Proof. solve_decision. Defined.

Definition status_value (s : TaskStatus) : string :=
  match s with TODO => "todo" | IN_PROGRESS => "in_progress" | DONE => "done" end.

Definition status_of_value (v : string) : option TaskStatus :=
  if String.eqb v "todo" then Some TODO
  else if String.eqb v "in_progress" then Some IN_PROGRESS
  else if String.eqb v "done" then Some DONE
  else None.

Record Task := mkTask {
  id : Z;
  title : string;
  description : option string;
  status : TaskStatus;
  created_at : Z;
  updated_at : Z
}.

Global Instance Task_eq_dec : EqDecision Task.
Proof. solve_decision. Defined.

Global Instance Task_model : Sql.Model Task := {
  Sql.pk := id;
  Sql.with_pk := λ k t,
    mkTask k (title t) (description t) (status t) (created_at t) (updated_at t)
}.

Definition set_title (v : string) (t : Task) : Task :=
  mkTask (id t) v (description t) (status t) (created_at t) (updated_at t).
Definition set_description (v : option string) (t : Task) : Task :=
  mkTask (id t) (title t) v (status t) (created_at t) (updated_at t).
Definition set_status (v : TaskStatus) (t : Task) : Task :=
  mkTask (id t) (title t) (description t) v (created_at t) (updated_at t).
Definition set_updated_at (v : Z) (t : Task) : Task :=
  mkTask (id t) (title t) (description t) (status t) (created_at t) v.

(** *** schemas/task.py *)

(** A member of a JSON request body: the key is missing, or it is there
    with [null], or it is there with a value. *)
Inductive Member (A : Type) : Type :=
  | Absent
  | Null
  | Value (a : A).
Arguments Absent {A}.
Arguments Null {A}.
Arguments Value {A} a.

(** The body of [PUT /tasks/{id}] as it arrives. *)
Record TaskUpdateBody := mkBody {
  body_title : Member string;
  body_description : Member string;
  body_status : Member string
}.

(** [TaskUpdate]: every field is [Optional] with [default=None]. *)
Record TaskUpdate := mkTaskUpdate {
  tu_title : option string;
  tu_description : option string;
  tu_status : option TaskStatus
}.

(** An [Optional] field with [default=None]: a missing key takes the
    default, [null] is the value [None]. *)
Definition optional_field {A} (m : Member A) : option A :=
  match m with
  | Absent => None
  | Null => None
  | Value a => Some a
  end.

(** Validation of the body against [TaskUpdate]: the length bounds of
    [title] and the enumeration of [status] bear on values only. *)
Definition validate_TaskUpdate (b : TaskUpdateBody) : Py.Result TaskUpdate :=
  let title_ok :=
    match optional_field (body_title b) with
    | Some s => (1 <=? Z.of_nat (String.length s)) && (Z.of_nat (String.length s) <=? 200)
    | None => true
    end in
  if negb title_ok then Py.Raise (Py.RequestValidationError "title")
  else
    match optional_field (body_status b) with
    | None =>
        Py.Return (mkTaskUpdate (optional_field (body_title b))
                                (optional_field (body_description b)) None)
    | Some v =>
        match status_of_value v with
        | Some st =>
            Py.Return (mkTaskUpdate (optional_field (body_title b))
                                    (optional_field (body_description b)) (Some st))
        | None => Py.Raise (Py.RequestValidationError "status")
        end
    end.

(** The body of [POST /tasks] as it arrives. *)
Record TaskCreateBody := mkCreateBody {
  create_title : Member string;
  create_description : Member string;
  create_status : Member string
}.

(** [TaskCreate]: [title] is required, [description] is [Optional],
    [status] defaults to [TaskStatus.TODO]. *)
Record TaskCreate := mkTaskCreate {
  tc_title : string;
  tc_description : option string;
  tc_status : TaskStatus
}.

(** Validation of the body against [TaskCreate]: a [title] of 1 to 200
    characters must be there; [status], when there, must be one of the
    three values ([null] is none of them). *)
Definition validate_TaskCreate (b : TaskCreateBody) : Py.Result TaskCreate :=
  match create_title b with
  | Absent | Null => Py.Raise (Py.RequestValidationError "title")
  | Value t =>
      if negb ((1 <=? Z.of_nat (String.length t)) && (Z.of_nat (String.length t) <=? 200))
      then Py.Raise (Py.RequestValidationError "title")
      else
        match create_status b with
        | Absent =>
            Py.Return (mkTaskCreate t (optional_field (create_description b)) TODO)
        | Null => Py.Raise (Py.RequestValidationError "status")
        | Value v =>
            match status_of_value v with
            | Some st =>
                Py.Return (mkTaskCreate t (optional_field (create_description b)) st)
            | None => Py.Raise (Py.RequestValidationError "status")
            end
        end
  end.




(** *** core/config.py *)

Record Settings := mkSettings {
  file_service_url : string
}.

Definition default_settings : Settings := mkSettings "http://localhost:8001".

(** *** The state of the service and its surroundings *)

(** What the File Service (or the network in front of it) does with a
    request. *)
Inductive HttpOutcome : Type :=
  | Responds (code : Z)
  | Fails (e : Py.Exn).

Record World := mkWorld {
  db : Sql.Table Task;
  requests : list string;    (* the URLs of the DELETE requests sent *)
  stdout : list string       (* what [print] wrote *)
}.

Definition with_db (f : Sql.Table Task → Sql.Table Task) (w : World) : World :=
  mkWorld (f (db w)) (requests w) (stdout w).

(** *** repositories/task_repository.py *)

Module TaskRepository.

Definition get_by_id (task_id : Z) : Py.M World (option Task) :=
  λ w,
    let result := Sql.execute (Sql.where_integer id task_id Sql.select) (db w) in
    (Py.bind result Sql.scalar_one_or_none, w).

Definition status_filter (st : option TaskStatus) (q : Sql.Select Task)
    : Sql.Select Task :=
  match st with
  | Some s => Sql.where_ (λ t, bool_decide (status t = s)) q
  | None => q
  end.

Definition created_at_desc : Sql.OrderClause Task := Sql.mkOrder created_at true.

Definition get_all (st : option TaskStatus) (skip limit : Z)
    : Py.M World (list Task) :=
  λ w,
    let query := Sql.select in
    let query := status_filter st query in
    let query := Sql.order_by created_at_desc (Sql.limit limit (Sql.offset skip query)) in
    (Sql.execute query (db w), w).

Definition count (st : option TaskStatus) : Py.M World Z :=
  λ w,
    let query := Sql.select in
    let query := status_filter st query in
    (Sql.execute_count query (db w), w).

(** [title] is a VARCHAR(200): a longer value is refused.  Lengths are
    counted on the string as the model holds it. *)
Definition fits_title (v : string) : bool := (String.length v <=? 200)%nat.

(** [flush] writes the object back when one of its columns differs from
    the stored row, setting the columns that differ, and the UPDATE then
    refreshes [updated_at] ([onupdate=datetime.utcnow]); [refresh] reloads
    the row. *)
Definition update (now : Z) (task : Task) : Py.M World Task :=
  λ w,
    match List.find (λ t, id t =? id task) (Sql.rows (db w)) with
    | Some stored =>
        if decide (stored = task) then (Py.Return stored, w)
        else if negb (String.eqb (title stored) (title task)) && negb (fits_title (title task))
        then (Py.Raise (Py.DBAPIError "value too long for type character varying(200)"), w)
        else
          let written := set_updated_at now task in
          (Py.Return written, with_db (Sql.update written) w)
    | None => (Py.Return task, w)
    end.

Definition delete (task : Task) : Py.M World unit :=
  Py.mmodify (with_db (Sql.delete task)).

(** [session.add(task); flush; refresh]: the INSERT hands out the [id] and
    fills [created_at] and [updated_at], each with its own reading of the
    clock.  The sequence behind an INTEGER key ends with the INTEGERs. *)
Definition create (created updated : Z) (task : Task) : Py.M World Task :=
  λ w,
    let task := mkTask (id task) (title task) (description task) (status task)
                       created updated in
    if negb (fits_title (title task))
    then (Py.Raise (Py.DBAPIError "value too long for type character varying(200)"), w)
    else if negb (Sql.is_int32 (Sql.sequence (db w) + 1))
    then (Py.Raise (Py.DBAPIError "nextval: reached maximum value of sequence"), w)
    else
      let '(row, t) := Sql.insert task (db w) in
      (Py.Return row, with_db (λ _, t) w).


End TaskRepository.

(** *** services/task_service.py *)

Module TaskService.

Definition update_task (now : Z) (task_id : Z) (task_data : TaskUpdate)
    : Py.M World (option Task) :=
  let* task := TaskRepository.get_by_id task_id in
  match task with
  | None => Py.mret None
  | Some task =>
      (* Update only provided fields *)
      let task :=
        match tu_title task_data with
        | Some v => set_title v task
        | None => task
        end in
      let task :=
        match tu_description task_data with
        | Some v => set_description (Some v) task
        | None => task
        end in
      let task :=
        match tu_status task_data with
        | Some v => set_status v task
        | None => task
        end in
      let* updated := TaskRepository.update now task in
      Py.mret (Some updated)
  end.

(** [response.raise_for_status()] *)
Definition raise_for_status (code : Z) : Py.Result unit :=
  if (200 <=? code) && (code <=? 299) then Py.Return tt
  else Py.Raise (Py.HTTPStatusError code).

Definition files_url (s : Settings) (task_id : Z) : string :=
  file_service_url s +:+ "/api/v1/files/task/" +:+ pretty task_id.

(** [client.delete(url, timeout=10.0)] then [raise_for_status]. *)
Definition delete_request (peer : string → HttpOutcome) (url : string)
    : Py.M World unit :=
  λ w,
    let w' := mkWorld (db w) (requests w ++ [url]) (stdout w) in
    match peer url with
    | Responds code => (raise_for_status code, w')
    | Fails e => (Py.Raise e, w')
    end.

Definition print (line : string) : Py.M World unit :=
  Py.mmodify (λ w, mkWorld (db w) (requests w) (stdout w ++ [line])).

Definition _delete_task_files (s : Settings) (peer : string → HttpOutcome)
    (task_id : Z) : Py.M World unit :=
  Py.mtry (delete_request peer (files_url s task_id))
    (λ _, true)   (* except Exception *)
    (λ e, print ("Warning: Failed to delete files for task " +:+ pretty task_id
                 +:+ ": " +:+ Py.str_exn e)).

Definition delete_task (s : Settings) (peer : string → HttpOutcome)
    (task_id : Z) : Py.M World bool :=
  let* task := TaskRepository.get_by_id task_id in
  match task with
  | None => Py.mret false
  | Some task =>
      (* Delete associated files from file service *)
      _delete_task_files s peer task_id >>
      (* Delete the task *)
      TaskRepository.delete task >>
      Py.mret true
  end.


Definition create_task (created updated : Z) (task_data : TaskCreate)
    : Py.M World Task :=
  let task := mkTask 0 (tc_title task_data) (tc_description task_data)
                     (tc_status task_data) 0 0 in
  TaskRepository.create created updated task.

Definition get_task (task_id : Z) : Py.M World (option Task) :=
  TaskRepository.get_by_id task_id.

Definition update_task_status (now : Z) (task_id : Z) (new_status : TaskStatus)
    : Py.M World (option Task) :=
  let* task := TaskRepository.get_by_id task_id in
  match task with
  | None => Py.mret None
  | Some task =>
      let task := set_status new_status task in
      let* updated := TaskRepository.update now task in
      Py.mret (Some updated)
  end.


End TaskService.

(** *** services/websocket_manager.py *)

Module WebSocketManager.

(** A [WebSocket] object, known by its identity. *)
Definition WebSocket : Type := nat.

(** JSON values of a message. *)
Local Unset Elimination Schemes.
Inductive Json : Type :=
  | JNull
  | JBool (b : bool)
  | JInt (z : Z)
  | JStr (s : string)
  | JList (l : list Json)
  | JObject (members : list (string * Json)).
Local Set Elimination Schemes.

(** A message dictionary, and the heap the dictionaries live in: the
    caller and [broadcast] hold the same object through its address. *)
Definition Loc : Type := nat.

Record Manager := mkManager {
  active_connections : gset WebSocket;
  connection_ids : list (string * WebSocket)
}.

(** [WebSocketManager()] *)
Definition init : Manager := mkManager ∅ [].

(** What the remote ends do: whether the handshake of a connection goes
    through, and whether a message can be delivered to it. *)
Record Peers := mkPeers {
  accept : WebSocket → Py.Result unit;
  send_json : WebSocket → gmap string Json → Py.Result unit
}.

Definition connect (peers : Peers) (websocket : WebSocket) (client_id : string)
    : Py.M Manager unit :=
  λ m,
    match accept peers websocket with
    | Py.Raise e => (Py.Raise e, m)
    | Py.Return _ =>
        (Py.Return tt,
         mkManager ({[websocket]} ∪ active_connections m)
                   (Py.dict_set client_id websocket (connection_ids m)))
    end.

Definition disconnect (websocket : WebSocket) (client_id : string)
    : Py.M Manager unit :=
  λ m,
    (Py.Return tt,
     mkManager (active_connections m ∖ {[websocket]})
               (Py.dict_pop client_id (connection_ids m))).

(** [len(self.active_connections)] *)
Definition connection_count (m : Manager) : Z :=
  Z.of_nat (size (active_connections m)).

(** Add timestamp if not present *)
Definition stamp (now : string) (message : gmap string Json) : gmap string Json :=
  if decide ("timestamp" ∈ dom message) then message
  else <["timestamp" := JStr now]> message.

(** The delivery loop over the snapshot of the connections: the
    connections that failed with [WebSocketDisconnect] or [RuntimeError],
    or the first exception of another class. *)
Fixpoint deliver (peers : Peers) (message : gmap string Json)
    (snapshot : list WebSocket) (disconnected : list WebSocket)
    : Py.Result (list WebSocket) :=
  match snapshot with
  | [] => Py.Return disconnected
  | connection :: rest =>
      match send_json peers connection message with
      | Py.Return _ => deliver peers message rest disconnected
      | Py.Raise e =>
          if Py.is_WebSocketDisconnect_or_RuntimeError e
          then deliver peers message rest (disconnected ++ [connection])
          else Py.Raise e
      end
  end.

(** The inner loop of the cleanup: the first identifier registered for
    [conn] is popped. *)
Definition forget_id (conn : WebSocket) (ids : list (string * WebSocket))
    : list (string * WebSocket) :=
  match List.find (λ kv, bool_decide (kv.2 = conn)) (Py.dict_items ids) with
  | Some (cid, _) => Py.dict_pop cid ids
  | None => ids
  end.

Fixpoint remove_disconnected (disconnected : list WebSocket) (m : Manager)
    : Manager :=
  match disconnected with
  | [] => m
  | conn :: rest =>
      remove_disconnected rest
        (mkManager (active_connections m ∖ {[conn]})
                   (forget_id conn (connection_ids m)))
  end.

(** [broadcast(message)]: [message] is the address of the dictionary;
    the state is the manager together with the heap. *)
Definition broadcast (peers : Peers) (now : string) (message : Loc)
    : Py.M (Manager * gmap Loc (gmap string Json)) unit :=
  λ '(m, heap),
    let heap := alter (stamp now) message heap in
    let content := default ∅ (heap !! message) in
    match deliver peers content (elements (active_connections m)) [] with
    | Py.Raise e => (Py.Raise e, (m, heap))
    | Py.Return disconnected =>
        (* Remove disconnected clients *)
        (Py.Return tt, (remove_disconnected disconnected m, heap))
    end.

(** [send_personal_message(message, client_id)]; a [WebSocket] object is
    never falsy, so [if websocket] asks whether the identifier is known. *)
Definition send_personal_message (peers : Peers) (message : gmap string Json)
    (client_id : string) : Py.M Manager bool :=
  λ m,
    match Py.dict_get client_id (connection_ids m) with
    | Some websocket =>
        match send_json peers websocket message with
        | Py.Return _ => (Py.Return true, m)
        | Py.Raise e =>
            if Py.is_WebSocketDisconnect_or_RuntimeError e
            then (disconnect websocket client_id >> Py.mret false) m
            else (Py.Raise e, m)
        end
    | None => (Py.Return false, m)
    end.

End WebSocketManager.

(** *** api/tasks.py *)

Module Api.



End Api.

End Board.

(** ** File Service *)

Module Files.

Definition bytes : Type := list Byte.byte.

(** *** core/config.py *)

Record Settings := mkSettings {
  max_file_size_mb : Z;
  allowed_extensions : list string;
  minio_bucket_name : string;
  presigned_url_expiry_seconds : Z
}.

Definition default_settings : Settings :=
  mkSettings 10
    [".pdf"; ".doc"; ".docx"; ".txt"; ".jpg"; ".jpeg"; ".png"; ".gif";
     ".zip"; ".rar"; ".xlsx"; ".xls"]
    "kanban-files" 3600.

Definition max_file_size_bytes (s : Settings) : Z :=
  max_file_size_mb s * 1024 * 1024.

(** [parse_allowed_extensions]: a list is taken as it is; a string that
    starts with a bracket goes to [json.loads], here an input; any other
    string is cut at its commas and each piece stripped. *)
Definition parse_allowed_extensions
    (json_loads : string → Py.Result (list string)) (v : string + list string)
    : Py.Result (list string) :=
  match v with
  | inl text =>
      if Py.startswith text "[" then json_loads text
      else Py.Return (Py.strip <$> Py.split_on "," text)
  | inr exts => Py.Return exts
  end.

(** *** models/file.py *)

Record File := mkFile {
  id : Z;
  task_id : Z;
  filename : string;
  file_key : string;
  content_type : string;
  size_bytes : Z;
  uploaded_at : Z;
  uploaded_by : option string
}.

Global Instance File_model : Sql.Model File := {
  Sql.pk := id;
  Sql.with_pk := λ k f,
    mkFile k (task_id f) (filename f) (file_key f) (content_type f)
           (size_bytes f) (uploaded_at f) (uploaded_by f)
}.

(** *** The state of the service and its surroundings *)

(** The calls that leave the process, in the order they are made. *)
Inductive Call : Type :=
  | ReadUpload                     (* [await upload_file.read()] *)
  | PutObject (key : string)
  | GetObject (key : string)
  | DeleteObject (key : string).

Record World := mkWorld {
  db : Sql.Table File;
  objects : gmap string bytes;     (* the bucket *)
  calls : list Call;
  stdout : list string
}.

Definition with_db (f : Sql.Table File → Sql.Table File) (w : World) : World :=
  mkWorld (f (db w)) (objects w) (calls w) (stdout w).
Definition with_objects (f : gmap string bytes → gmap string bytes) (w : World)
    : World :=
  mkWorld (db w) (f (objects w)) (calls w) (stdout w).
Definition record_call (c : Call) (w : World) : World :=
  mkWorld (db w) (objects w) (calls w ++ [c]) (stdout w).
Definition print (line : string) : Py.M World unit :=
  Py.mmodify (λ w, mkWorld (db w) (objects w) (calls w) (stdout w ++ [line])).

(** The object store seen through its client: for each operation and key,
    the exception the client raises instead of carrying it out, if any. *)
Record S3Client := mkS3Client {
  put_object_raises : string → option Py.Exn;
  get_object_raises : string → option Py.Exn;
  delete_object_raises : string → option Py.Exn
}.

Definition healthy_client : S3Client :=
  mkS3Client (λ _, None) (λ _, None) (λ _, None).

Definition put_object (client : S3Client) (key : string) (content : bytes)
    : Py.M World unit :=
  λ w,
    let w := record_call (PutObject key) w in
    match put_object_raises client key with
    | Some e => (Py.Raise e, w)
    | None => (Py.Return tt, with_objects (insert key content) w)
    end.

Definition get_object (client : S3Client) (key : string) : Py.M World bytes :=
  λ w,
    let w := record_call (GetObject key) w in
    match get_object_raises client key with
    | Some e => (Py.Raise e, w)
    | None =>
        match objects w !! key with
        | Some content => (Py.Return content, w)
        | None => (Py.Raise (Py.ClientError "NoSuchKey"), w)
        end
    end.

Definition delete_object (client : S3Client) (key : string) : Py.M World unit :=
  λ w,
    let w := record_call (DeleteObject key) w in
    match delete_object_raises client key with
    | Some e => (Py.Raise e, w)
    | None => (Py.Return tt, with_objects (delete key) w)
    end.

(** The multipart part handed to the upload endpoint. *)
Record UploadFile := mkUploadFile {
  up_filename : string;
  up_content_type : option string;
  up_content : bytes
}.

Definition read (u : UploadFile) : Py.M World bytes :=
  λ w, (Py.Return (up_content u), record_call ReadUpload w).

(** *** services/s3_service.py *)

Module S3Service.

(** [filename.replace(" ", "_")] *)
Fixpoint replace_spaces (s : string) : string :=
  match s with
  | EmptyString => EmptyString
  | String a s' =>
      String (if Ascii.eqb a " " then "_"%char else a) (replace_spaces s')
  end.

Definition _generate_file_key (unique_id : string) (task_id : Z)
    (filename : string) : string :=
  let safe_filename := replace_spaces filename in
  "tasks/" +:+ pretty task_id +:+ "/" +:+ unique_id +:+ "_" +:+ safe_filename.

Definition upload_file (client : S3Client) (unique_id : string)
    (file_content : bytes) (task_id : Z) (filename content_type : string)
    : Py.M World string :=
  let file_key := _generate_file_key unique_id task_id filename in
  put_object client file_key file_content >>
  Py.mret file_key.

Definition download_file (client : S3Client) (file_key : string)
    : Py.M World bytes :=
  get_object client file_key.

Definition delete_file (client : S3Client) (file_key : string)
    : Py.M World bool :=
  Py.mtry (delete_object client file_key >> Py.mret true)
    Py.is_ClientError
    (λ e, print ("Error deleting file " +:+ file_key +:+ ": " +:+ Py.str_exn e) >>
          Py.mret false).

End S3Service.

(** *** repositories/file_repository.py *)

Module FileRepository.

(** What the columns of [files] take: [task_id] is an INTEGER,
    [filename] a VARCHAR(255), [file_key] a VARCHAR(500), [content_type]
    and [uploaded_by] a VARCHAR(100) each.  [size_bytes] is a BIGINT, which
    the length of a [bytes] object always fits.  Lengths are counted on
    the string as the model holds it. *)
Definition fits_columns (file : File) : bool :=
  Sql.is_int32 (task_id file)
  && (String.length (filename file) <=? 255)%nat
  && (String.length (file_key file) <=? 500)%nat
  && (String.length (content_type file) <=? 100)%nat
  && match uploaded_by file with
     | Some u => (String.length u <=? 100)%nat
     | None => true
     end.

(** INSERT; a value that a column does not take is refused, and so is
    the INSERT when the sequence behind [id] has no INTEGER left; the table
    is then left as it was (whether the sequence moved in the first case
    is not looked at by anything here); [file_key] is declared unique;
    [uploaded_at] takes its default, the time of the insertion. *)
Definition create (now : Z) (file : File) : Py.M World File :=
  λ w,
    let file := mkFile (id file) (task_id file) (filename file) (file_key file)
                       (content_type file) (size_bytes file) now (uploaded_by file) in
    if negb (fits_columns file)
    then (Py.Raise (Py.DBAPIError "value refused by a column of files"), w)
    else if negb (Sql.is_int32 (Sql.sequence (db w) + 1))
    then (Py.Raise (Py.DBAPIError "nextval: reached maximum value of sequence"), w)
    else if existsb (λ f, String.eqb (file_key f) (file_key file)) (Sql.rows (db w))
    then (Py.Raise (Py.IntegrityError "files.file_key"),
          with_db (λ t, Sql.mkTable (Sql.rows t) (Sql.sequence t + 1) (Sql.engine t)) w)
    else
      let '(row, t) := Sql.insert file (db w) in
      (Py.Return row, with_db (λ _, t) w).

Definition get_by_id (file_id : Z) : Py.M World (option File) :=
  λ w,
    let result := Sql.execute (Sql.where_integer id file_id Sql.select) (db w) in
    (Py.bind result Sql.scalar_one_or_none, w).

Definition uploaded_at_desc : Sql.OrderClause File := Sql.mkOrder uploaded_at true.

Definition get_by_task_id (tid : Z) : Py.M World (list File) :=
  λ w,
    (Sql.execute
       (Sql.order_by uploaded_at_desc (Sql.where_integer task_id tid Sql.select))
       (db w), w).

Definition delete (file : File) : Py.M World unit :=
  Py.mmodify (with_db (Sql.delete file)).

Definition delete_by_task_id (tid : Z) : Py.M World Z :=
  let* files := get_by_task_id tid in
  let count := Py.len files in
  Py.mfor files (λ file, Py.mmodify (with_db (Sql.delete file))) >>
  Py.mret count.

Definition get_by_key (key : string) : Py.M World (option File) :=
  λ w,
    let result :=
      Sql.execute (Sql.where_ (λ f, String.eqb (file_key f) key) Sql.select) (db w) in
    (Py.bind result Sql.scalar_one_or_none, w).

Definition get_all (skip limit : Z) : Py.M World (list File) :=
  λ w,
    (Sql.execute
       (Sql.order_by uploaded_at_desc (Sql.limit limit (Sql.offset skip Sql.select)))
       (db w), w).

Definition count (tid : option Z) : Py.M World Z :=
  λ w,
    let query := Sql.select in
    let query :=
      match tid with
      | Some k => Sql.where_integer task_id k query
      | None => query
      end in
    (Sql.execute_count query (db w), w).

End FileRepository.

(** A filename whose only dot is its leading character, as in [.pdf]. *)
Definition only_leading_dot (name : string) : bool :=
  match name with
  | String c rest => Ascii.eqb c "." && negb (Py.contains "." rest)
  | EmptyString => false
  end.

(** *** services/file_service.py *)

Module FileService.

Definition _validate_file_extension (s : Settings) (filename : string) : bool :=
  let ext := Py.lower (Py.splitext filename).2 in
  bool_decide (ext ∈ allowed_extensions s).

Definition _validate_file_size (s : Settings) (size_bytes : Z) : bool :=
  size_bytes <=? max_file_size_bytes s.

Definition extension_error (s : Settings) : string :=
  "File extension not allowed. Allowed extensions: "
  +:+ Py.join ", " (allowed_extensions s).

Definition size_error (s : Settings) : string :=
  "File size exceeds maximum limit of " +:+ pretty (max_file_size_mb s) +:+ " MB".

(** [upload_file.content_type or "application/octet-stream"] *)
Definition content_type_or_default (u : UploadFile) : string :=
  match up_content_type u with
  | Some ct => if String.eqb ct EmptyString then "application/octet-stream" else ct
  | None => "application/octet-stream"
  end.

Definition upload_file (s : Settings) (client : S3Client) (now : Z)
    (unique_id : string) (upload : UploadFile) (tid : Z)
    (uploaded_by : option string) : Py.M World (File * string) :=
  (* Validate file extension *)
  if negb (_validate_file_extension s (up_filename upload)) then
    Py.mraise (Py.ValueError (extension_error s))
  else
    (* Read file content *)
    let* file_content := read upload in
    let file_size := Py.len file_content in
    (* Validate file size *)
    if negb (_validate_file_size s file_size) then
      Py.mraise (Py.ValueError (size_error s))
    else
      (* Upload to S3 *)
      let* key := S3Service.upload_file client unique_id file_content tid
                    (up_filename upload) (content_type_or_default upload) in
      (* Create database record *)
      let file_record :=
        mkFile 0 tid (up_filename upload) key (content_type_or_default upload)
               file_size 0 uploaded_by in
      let* file_record := FileRepository.create now file_record in
      Py.mret (file_record, "File uploaded successfully").

Definition get_file := FileRepository.get_by_id.

Definition get_files_by_task := FileRepository.get_by_task_id.

Definition download_file (client : S3Client) (file_id : Z)
    : Py.M World (option (bytes * File)) :=
  let* file_record := FileRepository.get_by_id file_id in
  match file_record with
  | None => Py.mret None
  | Some file_record =>
      (* Download from S3 *)
      let* file_content := S3Service.download_file client (file_key file_record) in
      Py.mret (Some (file_content, file_record))
  end.

Definition delete_file (client : S3Client) (file_id : Z) : Py.M World bool :=
  let* file_record := FileRepository.get_by_id file_id in
  match file_record with
  | None => Py.mret false
  | Some file_record =>
      (* Delete from S3 *)
      S3Service.delete_file client (file_key file_record) >>
      (* Delete from database *)
      FileRepository.delete file_record >>
      Py.mret true
  end.

Definition delete_files_by_task (client : S3Client) (tid : Z) : Py.M World Z :=
  let* files := FileRepository.get_by_task_id tid in
  (* Delete from S3 *)
  Py.mfor files (λ file_record,
    S3Service.delete_file client (file_key file_record) >> Py.mret tt) >>
  (* Delete from database *)
  let* count := FileRepository.delete_by_task_id tid in
  Py.mret count.

Definition count_files (tid : option Z) : Py.M World Z :=
  FileRepository.count tid.

End FileService.

(** *** api/files.py *)

Module Api.

Record FileUploadResponse := mkFileUploadResponse {
  u_id : Z;
  u_task_id : Z;
  u_filename : string;
  u_content_type : string;
  u_size_bytes : Z;
  u_uploaded_at : Z;
  u_message : string
}.

Record FileListResponse := mkFileListResponse {
  files : list File;
  total : Z
}.

Record DeleteByTaskResponse := mkDeleteByTaskResponse {
  d_task_id : Z;
  d_files_deleted : Z;
  d_message : string
}.

(** The status of a response that carries an [HTTPException]. *)
Definition HTTP_400_BAD_REQUEST : Z := 400.
Definition HTTP_404_NOT_FOUND : Z := 404.
Definition HTTP_500_INTERNAL_SERVER_ERROR : Z := 500.

Definition upload_file (s : Settings) (client : S3Client) (now : Z)
    (unique_id : string) (file : UploadFile) (tid : Z)
    (uploaded_by : option string) : Py.M World FileUploadResponse :=
  Py.mtry2
    (let* r := FileService.upload_file s client now unique_id file tid uploaded_by in
     let '(file_record, message) := r in
     Py.mret (mkFileUploadResponse (id file_record) (task_id file_record)
                (filename file_record) (content_type file_record)
                (size_bytes file_record) (uploaded_at file_record) message))
    Py.is_ValueError
    (λ e, Py.mraise (Py.HTTPException HTTP_400_BAD_REQUEST (Py.str_exn e)))
    (λ _, true)   (* except Exception *)
    (λ e, Py.mraise (Py.HTTPException HTTP_500_INTERNAL_SERVER_ERROR
                       ("Failed to upload file: " +:+ Py.str_exn e))).

Definition not_found (file_id : Z) : Py.Exn :=
  Py.HTTPException HTTP_404_NOT_FOUND
    ("File with id " +:+ pretty file_id +:+ " not found").

(** The [StreamingResponse] of the download endpoint: the body it
    streams, and the headers it is built with. *)
Record Download := mkDownload {
  dl_body : bytes;
  dl_media_type : string;
  dl_headers : list (string * string)
}.

Definition download_file (client : S3Client) (file_id : Z)
    : Py.M World Download :=
  let* result := FileService.download_file client file_id in
  match result with
  | None => Py.mraise (not_found file_id)
  | Some (file_content, file_record) =>
      Py.mret (mkDownload file_content (content_type file_record)
        [("Content-Disposition",
          "attachment; filename=" +:+ Py.dquote +:+ filename file_record
          +:+ Py.dquote);
         ("Content-Length", pretty (size_bytes file_record))])
  end.

(** What goes on the wire for the outcome of [download_file]: the headers
    given to the [StreamingResponse], then the content type. *)
Definition download_response (r : Py.Result Download) : FastAPI.Response Download :=
  FastAPI.respond 200
    (λ d, (dl_headers d ++ [("content-type", dl_media_type d)])%list) r.

Definition get_files_by_task (tid : Z) : Py.M World FileListResponse :=
  let* fs := FileService.get_files_by_task tid in
  let total := Py.len fs in
  Py.mret (mkFileListResponse fs total).

Definition delete_file (client : S3Client) (file_id : Z) : Py.M World unit :=
  let* deleted := FileService.delete_file client file_id in
  if negb deleted then Py.mraise (not_found file_id) else Py.mret tt.

Definition delete_files_by_task (client : S3Client) (tid : Z)
    : Py.M World DeleteByTaskResponse :=
  let* count := FileService.delete_files_by_task client tid in
  Py.mret (mkDeleteByTaskResponse tid count
             ("Deleted " +:+ pretty count +:+ " file(s) for task " +:+ pretty tid)).

End Api.

End Files.

(** ** Notions the properties are stated with *)


(** The calls made on the WebSocket manager by the endpoint. *)
Inductive WsCall : Type :=
  | Connect (websocket : Board.WebSocketManager.WebSocket) (client_id : string)
  | Disconnect (websocket : Board.WebSocketManager.WebSocket) (client_id : string).

Definition ws_step (peers : Board.WebSocketManager.Peers) (call : WsCall)
    (m : Board.WebSocketManager.Manager) : Board.WebSocketManager.Manager :=
  match call with
  | Connect ws cid => (Board.WebSocketManager.connect peers ws cid m).2
  | Disconnect ws cid => (Board.WebSocketManager.disconnect ws cid m).2
  end.

Definition ws_run (peers : Board.WebSocketManager.Peers) (calls : list WsCall)
    (m : Board.WebSocketManager.Manager) : Board.WebSocketManager.Manager :=
  fold_left (λ m call, ws_step peers call m) calls m.

(** [connection_ids[client_id] is websocket] *)
Definition registered_under (m : Board.WebSocketManager.Manager)
    (client_id : string) (ws : Board.WebSocketManager.WebSocket) : Prop :=
  Py.dict_get client_id (Board.WebSocketManager.connection_ids m) = Some ws.

(** Every connection of the set has exactly one entry in the mapping, and
    every entry of the mapping is a connection of the set. *)
Definition registry_consistent (m : Board.WebSocketManager.Manager) : Prop :=
  (∀ ws, ws ∈ Board.WebSocketManager.active_connections m →
     ∃ cid, registered_under m cid ws ∧
            ∀ cid', registered_under m cid' ws → cid' = cid)
  ∧
  (∀ cid ws, registered_under m cid ws →
     ws ∈ Board.WebSocketManager.active_connections m).

(** A call that respects the pairing of connections and identifiers: a
    connection is registered once, under an identifier that is free; a
    disconnection names a connection with the identifier it is registered
    under, or a pair that is not registered at all. *)
Definition well_paired (m : Board.WebSocketManager.Manager) (call : WsCall) : Prop :=
  match call with
  | Connect ws cid =>
      (ws ∉ Board.WebSocketManager.active_connections m) ∧
      Py.dict_get cid (Board.WebSocketManager.connection_ids m) = None
  | Disconnect ws cid =>
      registered_under m cid ws ∨
      ((ws ∉ Board.WebSocketManager.active_connections m) ∧
       Py.dict_get cid (Board.WebSocketManager.connection_ids m) = None)
  end.

(** The states of the manager along runs of well-paired calls. *)
Inductive ws_reachable (peers : Board.WebSocketManager.Peers)
    : Board.WebSocketManager.Manager → Prop :=
  | reach_init : ws_reachable peers Board.WebSocketManager.init
  | reach_step m call :
      ws_reachable peers m → well_paired m call →
      ws_reachable peers (ws_step peers call m).

(** Peers whose handshakes and deliveries all go through. *)
Definition willing_peers : Board.WebSocketManager.Peers :=
  Board.WebSocketManager.mkPeers (λ _, Py.Return tt) (λ _ _, Py.Return tt).

(** The message of the manager's own test, before it is broadcast. *)
Definition test_message : gmap string Board.WebSocketManager.Json :=
  <["type" := Board.WebSocketManager.JStr "test"]>
    (<["data" := Board.WebSocketManager.JObject
                   [("value", Board.WebSocketManager.JInt 123)]]> ∅).

(** The files table with its constraints: the primary key, the sequence
    behind it, and the uniqueness of [file_key]. *)
Definition files_table_ok (t : Sql.Table Files.File) : Prop :=
  Sql.well_formed t ∧ NoDup (Files.file_key <$> Sql.rows t).

(** An upper-case letter of the ASCII range, and a string holding one. *)
Definition is_upper_ascii (a : ascii) : bool :=
  let n := nat_of_ascii a in ((65 <=? n) && (n <=? 90))%nat.

Fixpoint has_upper (s : string) : bool :=
  match s with
  | EmptyString => false
  | String a s' => is_upper_ascii a || has_upper s'
  end.

(** What the lower-cased extension of a path can be: nothing at all, or a
    dot followed by characters among which there is no further dot, no
    separator and no upper-case letter. *)
Definition reachable_extension (e : string) : bool :=
  match e with
  | EmptyString => true
  | String c rest =>
      Ascii.eqb c "." && negb (Py.contains "." rest)
      && negb (Py.contains "/" rest) && negb (has_upper rest)
  end.

(** ** Sample states *)

(** One task, and three tasks created at different times. *)
Definition one_task : Board.Task := Board.mkTask 1 "Write report" (Some "draft") Board.TODO 10 10.

Definition one_task_world : Board.World :=
  Board.mkWorld (Sql.mkTable [one_task] 1 Sql.storage_order_engine) [] [].

Definition three_tasks_world : Board.World :=
  Board.mkWorld
    (Sql.mkTable
       [Board.mkTask 1 "a" None Board.TODO 10 10;
        Board.mkTask 2 "b" None Board.DONE 30 30;
        Board.mkTask 3 "c" None Board.TODO 20 20] 3 Sql.storage_order_engine) [] [].

(** Three tasks created at the same time, behind an engine that scans
    backwards when it skips; and a table whose sequence has handed out the
    last INTEGER. *)
Definition same_time_world : Board.World :=
  Board.mkWorld
    (Sql.mkTable
       [Board.mkTask 1 "a" None Board.TODO 10 10;
        Board.mkTask 2 "b" None Board.TODO 10 10;
        Board.mkTask 3 "c" None Board.TODO 10 10] 3 Sql.backward_scan_engine) [] [].

Definition exhausted_sequence_world : Board.World :=
  Board.mkWorld (Sql.mkTable [] 2147483647 Sql.storage_order_engine) [] [].

(** An empty File Service. *)
Definition empty_files_world : Files.World :=
  Files.mkWorld (Sql.mkTable [] 0 Sql.storage_order_engine) ∅ [] [].

(** A configuration that admits text files of at most 0 MB. *)
Definition tiny_settings : Files.Settings :=
  Files.mkSettings 0 [".txt"] "kanban-files" 3600.

(** A configuration that admits PDF files and files without extension. *)
Definition extensionless_settings : Files.Settings :=
  Files.mkSettings 10 [".pdf"; EmptyString] "kanban-files" 3600.

(** A configuration whose allow-list was written without the dots, in
    upper case, or as patterns. *)
Definition dotless_settings : Files.Settings :=
  Files.mkSettings 10 ["pdf"; ".PDF"; "*.txt"; ".tar.gz"] "kanban-files" 3600.

(** The metadata row of the service's own test fixture, and a bucket that
    holds an object under its key. *)
Definition sample_file : Files.File :=
  Files.mkFile 1 1 "test.pdf" "tasks/1/test-uuid_test.pdf" "application/pdf"
               1024 0 (Some "test_user").

Definition test_content : Files.bytes :=
  String.list_byte_of_string "test content".

Definition sample_file_world : Files.World :=
  Files.mkWorld (Sql.mkTable [sample_file] 1 Sql.storage_order_engine)
                {["tasks/1/test-uuid_test.pdf" := test_content]} [] [].

(** A store that answers every deletion with an error ([ClientError]), and
    one that cannot be reached at all. *)
Definition refusing_store : Files.S3Client :=
  Files.mkS3Client (λ _, None) (λ _, None) (λ _, Some (Py.ClientError "AccessDenied")).

Definition unreachable_store : Files.S3Client :=
  Files.mkS3Client
    (λ _, Some (Py.EndpointConnectionError "Could not connect to the endpoint URL"))
    (λ _, Some (Py.EndpointConnectionError "Could not connect to the endpoint URL"))
    (λ _, Some (Py.EndpointConnectionError "Could not connect to the endpoint URL")).

(** The ten rows of the service's own test fixture: five files under task
    1 and five under task 2, uploaded one after the other. *)
Definition fixture_file (i : Z) : Files.File :=
  let tid := if i <? 5 then 1 else 2 in
  Files.mkFile (i + 1) tid ("file" +:+ pretty i +:+ ".txt")
    ("tasks/" +:+ pretty tid +:+ "/uuid" +:+ pretty i +:+ "_file" +:+ pretty i +:+ ".txt")
    "text/plain" (100 * i) i None.

Definition multiple_files_world : Files.World :=
  Files.mkWorld
    (Sql.mkTable (fixture_file <$> [0; 1; 2; 3; 4; 5; 6; 7; 8; 9]) 10
       Sql.storage_order_engine) ∅ [] [].

(** Two clients connected one after the other, and peers of which the
    first has gone away. *)
Definition two_clients : Board.WebSocketManager.Manager :=
  ws_run willing_peers [Connect 1%nat "a"; Connect 2%nat "b"]
    Board.WebSocketManager.init.

Definition first_gone_peers : Board.WebSocketManager.Peers :=
  Board.WebSocketManager.mkPeers (λ _, Py.Return tt)
    (λ ws _, if Nat.eqb ws 1 then Py.Raise Py.WebSocketDisconnect else Py.Return tt).

(** * Properties *)

Example splitext_document : Py.splitext "report.final.PDF" = ("report.final", ".PDF").
Proof. reflexivity. Qed.

Example splitext_hidden : Py.splitext ".bashrc" = (".bashrc", EmptyString).
Proof. reflexivity. Qed.

Example splitext_dots : Py.splitext "dir.d/..a.b" = ("dir.d/..a", ".b").
Proof. reflexivity. Qed.

Example str_of_int : pretty (10 : Z) = "10" ∧ pretty (-3 : Z) = "-3".
Proof. split; reflexivity. Qed.


(** ** Strings and paths *)

Lemma rfind_from_absent c s i last :
  Py.contains c s = false → Py.rfind_from c s i last = last.
Proof.
  revert i last. induction s as [|a s IH]; intros i last Hc; simpl in *.
  - reflexivity.
  - apply orb_false_iff in Hc as [Ha Hs]. rewrite Ha. by apply IH.
Qed.

Lemma rfind_from_range c s i last :
  Py.rfind_from c s i last = last ∨ i ≤ Py.rfind_from c s i last.
Proof.
  revert i last. induction s as [|a s IH]; intros i last; simpl.
  - by left.
  - destruct (Ascii.eqb a c).
    + destruct (IH (i + 1) i) as [-> | Hle]; right; lia.
    + destruct (IH (i + 1) last) as [-> | Hle]; [by left | right; lia].
Qed.

Lemma slice_to_0 p : Py.slice_to p 0 = EmptyString.
Proof. unfold Py.slice_to. by destruct p. Qed.

(** A name with no dot but a leading one has no extension: the scan for
    the last dot stops at index 0, which is not past the last separator,
    or is skipped as a leading dot. *)
Lemma splitext_only_leading_dot name :
  Files.only_leading_dot name = true → Py.splitext name = (name, EmptyString).
Proof.
  destruct name as [|c rest]; [done |]. simpl.
  intros [Hc Hrest]%andb_true_iff.
  apply Ascii.eqb_eq in Hc as ->. apply negb_true_iff in Hrest.
  unfold Py.splitext, Py.rfind. simpl.
  rewrite (rfind_from_absent _ _ _ _ Hrest).
  destruct (rfind_from_range "/" rest (0 + 1) (-1)) as [-> | Hle].
  - simpl. by rewrite slice_to_0.
  - destruct (0 >? _) eqn:Hgt; [lia |]. by rewrite slice_to_0.
Qed.

(** ** File Service: upload validation *)

Section Upload.
Variables (s : Files.Settings) (client : Files.S3Client) (now : Z)
  (unique_id : string) (upload : Files.UploadFile) (tid : Z)
  (uploaded_by : option string).

Let service_upload :=
  Files.FileService.upload_file s client now unique_id upload tid uploaded_by.
Let api_upload :=
  Files.Api.upload_file s client now unique_id upload tid uploaded_by.

Lemma upload_bad_extension w :
  Files.FileService._validate_file_extension s (Files.up_filename upload) = false →
  service_upload w
  = (Py.Raise (Py.ValueError (Files.FileService.extension_error s)), w).
Proof.
  intros Hext. unfold service_upload, Files.FileService.upload_file.
  by rewrite Hext.
Qed.

Lemma upload_bad_size w :
  Files.FileService._validate_file_extension s (Files.up_filename upload) = true →
  Files.FileService._validate_file_size s (Py.len (Files.up_content upload)) = false →
  service_upload w
  = (Py.Raise (Py.ValueError (Files.FileService.size_error s)),
     Files.record_call Files.ReadUpload w).
Proof.
  intros Hext Hsize. unfold service_upload, Files.FileService.upload_file.
  rewrite Hext. simpl. unfold Py.mbind, Files.read. by rewrite Hsize.
Qed.

(** A request that passes both validations reads the stream and then
    calls the store, whatever the store and the database answer. *)
Lemma upload_valid_calls w :
  Files.FileService._validate_file_extension s (Files.up_filename upload) = true →
  Files.FileService._validate_file_size s (Py.len (Files.up_content upload)) = true →
  ∃ key, Files.calls (service_upload w).2
         = (Files.calls w ++ [Files.ReadUpload; Files.PutObject key])%list.
Proof.
  intros Hext Hsize. unfold service_upload, Files.FileService.upload_file.
  rewrite Hext. simpl. unfold Py.mbind at 1. simpl. rewrite Hsize. simpl.
  eexists. unfold Py.mbind, Files.S3Service.upload_file, Files.put_object. simpl.
  destruct (Files.put_object_raises client _); simpl.
  - by rewrite <- app_assoc.
  - unfold Files.FileRepository.create. cbv zeta.
    destruct (negb (Files.FileRepository.fits_columns _));
      [simpl; by rewrite <- app_assoc |].
    destruct (negb (Sql.is_int32 _)); [simpl; by rewrite <- app_assoc |].
    destruct (existsb _ _); simpl; by rewrite <- app_assoc.
Qed.

(** The endpoint turns the [ValueError] of the service into a 400 whose
    detail is the text of the error. *)
Lemma api_upload_value_error w w' msg :
  service_upload w = (Py.Raise (Py.ValueError msg), w') →
  api_upload w = (Py.Raise (Py.HTTPException 400 msg), w').
Proof.
  intros Hs. unfold api_upload, Files.Api.upload_file, Py.mtry2, Py.mbind.
  fold service_upload. by rewrite Hs.
Qed.

End Upload.

(** C4. Extension validation runs before the content of the upload is
    read, and size validation runs on the measured byte count before any
    write to the object store.  A request refused for its extension
    leaves the world as it was: no read of the stream, no call to the
    store, no metadata row; its error carries the allow-list, joined by
    commas.  A request refused for its size has read the stream and done
    nothing else; its error carries the configured limit in megabytes.
    The endpoint answers 400 with that text in both cases.  A request
    that passes both reads the stream first and calls the store next. *)
Theorem C4_upload_validated_before_any_write
    (s : Files.Settings) (client : Files.S3Client) (now : Z) (unique_id : string)
    (upload : Files.UploadFile) (tid : Z) (uploaded_by : option string)
    (w : Files.World) :
  let service := Files.FileService.upload_file s client now unique_id upload tid uploaded_by in
  let endpoint := Files.Api.upload_file s client now unique_id upload tid uploaded_by in
  let ext_ok := Files.FileService._validate_file_extension s (Files.up_filename upload) in
  let size_ok :=
    Files.FileService._validate_file_size s (Py.len (Files.up_content upload)) in
  let ext_msg := "File extension not allowed. Allowed extensions: "
                 +:+ Py.join ", " (Files.allowed_extensions s) in
  let size_msg := "File size exceeds maximum limit of "
                  +:+ pretty (Files.max_file_size_mb s) +:+ " MB" in
  (ext_ok = false →
     service w = (Py.Raise (Py.ValueError ext_msg), w) ∧
     endpoint w = (Py.Raise (Py.HTTPException 400 ext_msg), w) ∧
     FastAPI.status_code (FastAPI.respond 201 FastAPI.no_headers (endpoint w).1) = 400)
  ∧
  (ext_ok = true → size_ok = false →
     service w = (Py.Raise (Py.ValueError size_msg), Files.record_call Files.ReadUpload w) ∧
     endpoint w = (Py.Raise (Py.HTTPException 400 size_msg),
                   Files.record_call Files.ReadUpload w) ∧
     FastAPI.status_code (FastAPI.respond 201 FastAPI.no_headers (endpoint w).1) = 400 ∧
     Files.calls (service w).2 = (Files.calls w ++ [Files.ReadUpload])%list ∧
     Files.objects (service w).2 = Files.objects w ∧
     Files.db (service w).2 = Files.db w)
  ∧
  (ext_ok = true → size_ok = true →
     ∃ key, Files.calls (service w).2
            = (Files.calls w ++ [Files.ReadUpload; Files.PutObject key])%list).
Proof.
  intros service endpoint ext_ok size_ok ext_msg size_msg. split; [| split].
  - intros Hext.
    pose proof (upload_bad_extension s client now unique_id upload tid uploaded_by w Hext) as Hs.
    pose proof (api_upload_value_error _ _ _ _ _ _ _ _ _ _ Hs) as Ha.
    unfold endpoint. rewrite Ha. repeat split; done.
  - intros Hext Hsize.
    pose proof (upload_bad_size s client now unique_id upload tid uploaded_by w Hext Hsize) as Hs.
    pose proof (api_upload_value_error _ _ _ _ _ _ _ _ _ _ Hs) as Ha.
    unfold endpoint, service. rewrite Ha, Hs. repeat split; done.
  - intros Hext Hsize. unfold service. by apply upload_valid_calls.
Qed.

Lemma C4_witness :
  Files.FileService.upload_file tiny_settings Files.healthy_client 0 "u1"
    (Files.mkUploadFile "run.exe" None [Byte.x00]) 1 None empty_files_world
  = (Py.Raise (Py.ValueError "File extension not allowed. Allowed extensions: .txt"),
     empty_files_world)
  ∧
  Files.FileService.upload_file tiny_settings Files.healthy_client 0 "u1"
    (Files.mkUploadFile "notes.txt" None [Byte.x00]) 1 None empty_files_world
  = (Py.Raise (Py.ValueError "File size exceeds maximum limit of 0 MB"),
     Files.record_call Files.ReadUpload empty_files_world).
Proof.
  split.
  - apply (C4_upload_validated_before_any_write tiny_settings Files.healthy_client
             0 "u1" (Files.mkUploadFile "run.exe" None [Byte.x00]) 1 None
             empty_files_world).
    vm_compute. reflexivity.
  - apply (C4_upload_validated_before_any_write tiny_settings Files.healthy_client
             0 "u1" (Files.mkUploadFile "notes.txt" None [Byte.x00]) 1 None
             empty_files_world).
    + vm_compute. reflexivity.
    + vm_compute. reflexivity.
Defined.

(** C10 (as the code has it). A filename whose only dot is its leading
    character has, for [os.path.splitext], no extension at all: the
    validator looks up the empty string, whatever the filename and whether
    or not the filename itself is listed.  The upload is refused with the
    extension error, before anything is read or written, when the
    allow-list does not hold the empty string; an allow-list that holds
    it admits the name, and the upload goes on to read the stream. *)
Theorem C10_leading_dot_name_has_no_extension
    (s : Files.Settings) (client : Files.S3Client) (now : Z) (unique_id : string)
    (upload : Files.UploadFile) (tid : Z) (uploaded_by : option string)
    (w : Files.World) :
  Files.only_leading_dot (Files.up_filename upload) = true →
  let service :=
    Files.FileService.upload_file s client now unique_id upload tid uploaded_by in
  Py.splitext (Files.up_filename upload) = (Files.up_filename upload, EmptyString) ∧
  Files.FileService._validate_file_extension s (Files.up_filename upload)
  = bool_decide (EmptyString ∈ Files.allowed_extensions s) ∧
  ((EmptyString ∉ Files.allowed_extensions s) →
   Files.FileService._validate_file_extension s (Files.up_filename upload) = false ∧
   service w = (Py.Raise (Py.ValueError (Files.FileService.extension_error s)), w) ∧
   Files.Api.upload_file s client now unique_id upload tid uploaded_by w
   = (Py.Raise (Py.HTTPException 400 (Files.FileService.extension_error s)), w)) ∧
  (EmptyString ∈ Files.allowed_extensions s →
   Files.FileService._validate_file_extension s (Files.up_filename upload) = true ∧
   ∃ rest, Files.calls (service w).2
           = (Files.calls w ++ Files.ReadUpload :: rest)%list).
Proof.
  intros Hdot service.
  pose proof (splitext_only_leading_dot _ Hdot) as Hsplit.
  assert (Files.FileService._validate_file_extension s (Files.up_filename upload)
          = bool_decide (EmptyString ∈ Files.allowed_extensions s)) as Hlookup.
  { unfold Files.FileService._validate_file_extension. by rewrite Hsplit. }
  split; [exact Hsplit |]. split; [exact Hlookup |]. split.
  - intros Hempty.
    assert (Files.FileService._validate_file_extension s (Files.up_filename upload)
            = false) as Hext.
    { rewrite Hlookup. by apply bool_decide_eq_false. }
    pose proof (upload_bad_extension s client now unique_id upload tid uploaded_by w Hext)
      as Hs.
    split; [exact Hext |]. split; [exact Hs |]. by apply api_upload_value_error.
  - intros Hempty.
    assert (Files.FileService._validate_file_extension s (Files.up_filename upload)
            = true) as Hext.
    { rewrite Hlookup. by apply bool_decide_eq_true. }
    split; [exact Hext |].
    destruct (Files.FileService._validate_file_size s (Py.len (Files.up_content upload)))
      eqn:Hsize.
    + destruct (upload_valid_calls s client now unique_id upload tid uploaded_by w
                  Hext Hsize) as [key Hcalls].
      exists [Files.PutObject key]. exact Hcalls.
    + exists []. unfold service.
      by rewrite (upload_bad_size s client now unique_id upload tid uploaded_by w
                    Hext Hsize).
Qed.

Lemma C10_witness :
  ".pdf" ∈ Files.allowed_extensions Files.default_settings ∧
  Files.FileService.upload_file Files.default_settings Files.healthy_client 0 "u1"
    (Files.mkUploadFile ".pdf" (Some "application/pdf") [Byte.x25]) 1 None
    empty_files_world
  = (Py.Raise (Py.ValueError (Files.FileService.extension_error Files.default_settings)),
     empty_files_world).
Proof.
  split.
  - apply (bool_decide_unpack _). vm_compute. exact I.
  - apply (C10_leading_dot_name_has_no_extension Files.default_settings
             Files.healthy_client 0 "u1"
             (Files.mkUploadFile ".pdf" (Some "application/pdf") [Byte.x25]) 1 None
             empty_files_world).
    + vm_compute. reflexivity.
    + apply (bool_decide_unpack _). vm_compute. exact I.
Defined.

(** C10 as the specification words it fails: with an allow-list that
    holds the empty string beside [.pdf], the upload of a file named
    [.pdf] is not refused. *)
Lemma C10_counterexample :
  ¬ (∀ (s : Files.Settings) (client : Files.S3Client) (now : Z) (unique_id : string)
       (upload : Files.UploadFile) (tid : Z) (uploaded_by : option string)
       (w : Files.World),
       Files.only_leading_dot (Files.up_filename upload) = true →
       Files.FileService.upload_file s client now unique_id upload tid uploaded_by w
       = (Py.Raise (Py.ValueError (Files.FileService.extension_error s)), w)).
Proof.
  intros Hclaim.
  specialize (Hclaim extensionless_settings Files.healthy_client 0 "u1"
                (Files.mkUploadFile ".pdf" (Some "application/pdf") [Byte.x25]) 1 None
                empty_files_world eq_refl).
  vm_compute in Hclaim. discriminate Hclaim.
Qed.

Example leading_dot_name_accepted :
  ".pdf" ∈ Files.allowed_extensions extensionless_settings ∧
  ∃ f w',
    Files.FileService.upload_file extensionless_settings Files.healthy_client 0 "u1"
      (Files.mkUploadFile ".pdf" (Some "application/pdf") [Byte.x25]) 1 None
      empty_files_world
    = (Py.Return (f, "File uploaded successfully"), w') ∧
    Files.filename f = ".pdf".
Proof.
  split; [apply (bool_decide_unpack _); vm_compute; exact I |].
  eexists _, _. split; [vm_compute; reflexivity | reflexivity].
Qed.

(** ** The relational store *)

Section SqlFacts.
Context {R : Type} `{Sql.Model R}.

Lemma matches_where (p : R → bool) (r : R) :
  Sql.matches (Sql.where_ p Sql.select) r = p r.
Proof. unfold Sql.matches. simpl. apply andb_true_r. Qed.

Lemma matches_where_integer (column : R → Z) (value : Z) (r : R) :
  Sql.matches (Sql.where_integer column value Sql.select) r = (column r =? value).
Proof. unfold Sql.matches. simpl. apply andb_true_r. Qed.

(** [scalar_one_or_none] does not look at the order of the rows. *)
Lemma scalar_one_or_none_Permutation (l l' : list R) :
  l ≡ₚ l' → Sql.scalar_one_or_none l = Sql.scalar_one_or_none l'.
Proof.
  intros Hperm. pose proof (Permutation_length Hperm) as Hlen.
  destruct l as [|a [|b l]], l' as [|a' [|b' l']]; simpl in Hlen; try lia; try done.
  by apply Permutation_singleton_inj in Hperm as ->.
Qed.

(** A statement with a WHERE and nothing else, read with
    [scalar_one_or_none]: whatever order the engine gives the rows, the
    outcome is that of the rows that pass the WHERE. *)
Lemma execute_where (p : R → bool) (t : Sql.Table R) :
  Py.bind (Sql.execute (Sql.where_ p Sql.select) t) Sql.scalar_one_or_none
  = Sql.scalar_one_or_none (List.filter p (Sql.rows t)).
Proof.
  unfold Sql.execute, Sql.ordered_rows. simpl.
  rewrite (scalar_one_or_none_Permutation _ _ (Sql.arrange_Permutation _ _ _ _)).
  f_equal. apply List.filter_ext. intros r. apply matches_where.
Qed.

(** The same for a WHERE that compares an INTEGER column with a value:
    a value outside 32 bits is refused. *)
Lemma execute_where_integer (column : R → Z) (value : Z) (t : Sql.Table R) :
  Py.bind (Sql.execute (Sql.where_integer column value Sql.select) t)
    Sql.scalar_one_or_none
  = if Sql.is_int32 value
    then Sql.scalar_one_or_none (List.filter (λ r, column r =? value) (Sql.rows t))
    else Py.Raise (Py.DBAPIError "value out of int32 range").
Proof.
  unfold Sql.execute, Sql.refused, Sql.ordered_rows. cbn [Sql.integer_parameters
    Sql.where_integer Sql.select Sql.offset_clause Sql.limit_clause app forallb
    Sql.negative]. rewrite andb_true_r.
  destruct (Sql.is_int32 value); [| done]. cbn [negb Py.bind Sql.window].
  rewrite (scalar_one_or_none_Permutation _ _ (Sql.arrange_Permutation _ _ _ _)).
  f_equal. apply List.filter_ext. intros r. apply matches_where_integer.
Qed.

Lemma filter_singleton_find (p : R → bool) (l : list R) (x : R) :
  List.filter p l = [x] → List.find p l = Some x.
Proof.
  induction l as [|a l IH]; simpl; [done |].
  destruct (p a); [congruence | done].
Qed.

Lemma filter_singleton_In (p : R → bool) (l : list R) (x : R) :
  List.filter p l = [x] → In x l ∧ p x = true.
Proof.
  intros Hf. apply List.filter_In. rewrite Hf. by left.
Qed.

Lemma filter_map_preserved (p : R → bool) (f : R → R) (l : list R) :
  (∀ x, p (f x) = p x) →
  List.filter p (List.map f l) = List.map f (List.filter p l).
Proof.
  intros Hp. induction l as [|a l IH]; simpl; [done |].
  rewrite Hp. destruct (p a); simpl; by rewrite IH.
Qed.

(** After DELETE ... WHERE id = r.id no row answers to that id. *)
Lemma filter_pk_delete (r : R) (t : Sql.Table R) :
  List.filter (λ x, Sql.pk x =? Sql.pk r) (Sql.rows (Sql.delete r t)) = [].
Proof.
  unfold Sql.delete. simpl. induction (Sql.rows t) as [|a l IH]; simpl; [done |].
  destruct (Sql.pk a =? Sql.pk r) eqn:Ha; simpl; [done |]. by rewrite Ha.
Qed.

Lemma filter_pk_delete_other (r : R) (t : Sql.Table R) (k : Z) :
  k ≠ Sql.pk r →
  List.filter (λ x, Sql.pk x =? k) (Sql.rows (Sql.delete r t))
  = List.filter (λ x, Sql.pk x =? k) (Sql.rows t).
Proof.
  intros Hk. unfold Sql.delete. simpl.
  induction (Sql.rows t) as [|a l IH]; simpl; [done |].
  destruct (Sql.pk a =? Sql.pk r) eqn:Ha; simpl.
  - apply Z.eqb_eq in Ha. destruct (Sql.pk a =? k) eqn:Hak; [lia | done].
  - destruct (Sql.pk a =? k); by rewrite IH.
Qed.

End SqlFacts.

(** ** Board Service: tasks *)

(** The lookup by identifier: an identifier that is no INTEGER is
    refused; otherwise the outcome is that of the rows under it. *)
Lemma task_get_by_id_cases task_id w :
  Board.TaskRepository.get_by_id task_id w
  = (if Sql.is_int32 task_id
     then Sql.scalar_one_or_none
            (List.filter (λ t, Board.id t =? task_id) (Sql.rows (Board.db w)))
     else Py.Raise (Py.DBAPIError "value out of int32 range"), w).
Proof.
  unfold Board.TaskRepository.get_by_id. cbv zeta.
  by rewrite (execute_where_integer Board.id).
Qed.

Lemma task_get_by_id_eq task_id w :
  Sql.is_int32 task_id = true →
  Board.TaskRepository.get_by_id task_id w
  = (Sql.scalar_one_or_none
       (List.filter (λ t, Board.id t =? task_id) (Sql.rows (Board.db w))), w).
Proof. intros Hfits. by rewrite task_get_by_id_cases, Hfits. Qed.

(** A lookup that returned was given an INTEGER. *)
Lemma task_lookup_int32 task_id w found :
  Board.TaskRepository.get_by_id task_id w = (Py.Return found, w) →
  Sql.is_int32 task_id = true.
Proof. rewrite task_get_by_id_cases. by destruct (Sql.is_int32 task_id). Qed.

Lemma scalar_one_or_none_Some {R} (l : list R) (x : R) :
  Sql.scalar_one_or_none l = Py.Return (Some x) → l = [x].
Proof. destruct l as [|a [|b l]]; simpl; congruence. Qed.

Lemma task_exists_rows task_id w task :
  Board.TaskRepository.get_by_id task_id w = (Py.Return (Some task), w) →
  List.filter (λ t, Board.id t =? task_id) (Sql.rows (Board.db w)) = [task]
  ∧ Board.id task = task_id.
Proof.
  intros Hget. pose proof (task_lookup_int32 _ _ _ Hget) as Hfits.
  rewrite task_get_by_id_eq in Hget by done. injection Hget as Hs.
  apply scalar_one_or_none_Some in Hs. split; [done |].
  apply filter_singleton_In in Hs as [_ Hid]. by apply Z.eqb_eq.
Qed.

Lemma task_deleted_gone task t :
  List.filter (λ x, Board.id x =? Board.id task) (Sql.rows (Sql.delete task t)) = [].
Proof. exact (filter_pk_delete task t). Qed.

Lemma task_deleted_other task t k :
  k ≠ Board.id task →
  List.filter (λ x, Board.id x =? k) (Sql.rows (Sql.delete task t))
  = List.filter (λ x, Board.id x =? k) (Sql.rows t).
Proof. exact (filter_pk_delete_other task t k). Qed.

(** The cleanup call never lets an exception out, and never touches the
    tasks. *)
Lemma delete_task_files_returns s peer task_id w :
  ∃ w', Board.TaskService._delete_task_files s peer task_id w = (Py.Return tt, w')
        ∧ Board.db w' = Board.db w
        ∧ Board.requests w'
          = (Board.requests w ++ [Board.TaskService.files_url s task_id])%list.
Proof.
  unfold Board.TaskService._delete_task_files, Py.mtry,
    Board.TaskService.delete_request.
  destruct (peer _) as [code | e]; simpl.
  - unfold Board.TaskService.raise_for_status.
    destruct (_ && _); simpl; eauto.
  - eauto.
Qed.

(** C2. For a task that exists, [delete_task] removes its row and returns
    [True] whatever the File Service does with the cleanup request: an
    answer with any status code, an unreachable peer, a timeout or any
    other exception.  Every other task keeps its row. *)
Theorem C2_delete_task_survives_cleanup_failure
    (s : Board.Settings) (peer : string → Board.HttpOutcome) (task_id : Z)
    (w : Board.World) (task : Board.Task) :
  Board.TaskRepository.get_by_id task_id w = (Py.Return (Some task), w) →
  ∃ w',
    Board.TaskService.delete_task s peer task_id w = (Py.Return true, w') ∧
    Board.TaskRepository.get_by_id task_id w' = (Py.Return None, w') ∧
    (∀ other, other ≠ task_id →
       (Board.TaskRepository.get_by_id other w').1
       = (Board.TaskRepository.get_by_id other w).1) ∧
    Board.requests w'
    = (Board.requests w ++ [Board.TaskService.files_url s task_id])%list.
Proof.
  intros Hget. destruct (task_exists_rows _ _ _ Hget) as [_ Hid].
  pose proof (task_lookup_int32 _ _ _ Hget) as Hfits.
  destruct (delete_task_files_returns s peer task_id w) as (w1 & Hfiles & Hdb & Hreq).
  exists (Board.with_db (Sql.delete task) w1).
  split; [| split; [| split]].
  - unfold Board.TaskService.delete_task, Py.mbind. rewrite Hget, Hfiles. done.
  - rewrite task_get_by_id_eq by done. cbn [Board.db Board.with_db].
    rewrite Hdb, <- Hid. by rewrite task_deleted_gone.
  - intros other Hother. rewrite !task_get_by_id_cases.
    cbn [Board.db Board.with_db fst].
    rewrite Hdb. rewrite task_deleted_other; [done | congruence].
  - simpl. exact Hreq.
Qed.

Lemma C2_witness :
  ∃ w',
    Board.TaskService.delete_task Board.default_settings
      (λ _, Board.Fails (Py.ConnectError "connection refused")) 1 one_task_world
    = (Py.Return true, w') ∧
    Board.TaskRepository.get_by_id 1 w' = (Py.Return None, w').
Proof.
  destruct (C2_delete_task_survives_cleanup_failure Board.default_settings
              (λ _, Board.Fails (Py.ConnectError "connection refused")) 1
              one_task_world one_task) as (w' & Hdel & Hgone & _).
  - vm_compute. reflexivity.
  - exists w'. split; assumption.
Defined.

Lemma task_update_stored now changed w task :
  List.filter (λ t, Board.id t =? Board.id task) (Sql.rows (Board.db w)) = [task] →
  Board.id changed = Board.id task →
  Board.title changed = Board.title task
  ∨ Board.TaskRepository.fits_title (Board.title changed) = true →
  ∃ task' w',
    Board.TaskRepository.update now changed w = (Py.Return task', w') ∧
    Board.id task' = Board.id task ∧
    Board.title task' = Board.title changed ∧
    Board.description task' = Board.description changed ∧
    Board.status task' = Board.status changed ∧
    Board.created_at task' = Board.created_at changed ∧
    List.filter (λ t, Board.id t =? Board.id task) (Sql.rows (Board.db w')) = [task'].
Proof.
  intros Hrows Hid Htitle. unfold Board.TaskRepository.update. rewrite Hid.
  rewrite (filter_singleton_find _ _ _ Hrows).
  destruct (decide (task = changed)) as [<- | Hne].
  - exists task, w. repeat split; done.
  - assert (negb (String.eqb (Board.title task) (Board.title changed))
            && negb (Board.TaskRepository.fits_title (Board.title changed)) = false)
      as ->.
    { destruct Htitle as [-> | ->]; [by rewrite String.eqb_refl | apply andb_false_r]. }
    exists (Board.set_updated_at now changed), (Board.with_db (Sql.update (Board.set_updated_at now changed)) w).
    repeat split; try done.
    cbn [Board.db Board.with_db Sql.update Sql.rows].
    rewrite filter_map_preserved.
    + rewrite Hrows. simpl. rewrite Hid. by rewrite Z.eqb_refl.
    + intros x. simpl. rewrite Hid.
      destruct (Board.id x =? Board.id task) eqn:Hx; simpl; [| done].
      apply Z.eqb_eq in Hx. rewrite Hid. by rewrite Z.eqb_refl.
Qed.

(** C1 (as the code has it). In a partial update of an existing task a
    member of the body that is absent, or present with [null], leaves the
    stored column as it was; a member present with a value overwrites it.
    For [description] the empty string is such a value and is stored. An
    explicit [null] is not told apart from a missing key: both arrive as
    [None] and are skipped. The task returned is the one stored. *)
Theorem C1_partial_update_skips_absent_and_null
    (now task_id : Z) (body : Board.TaskUpdateBody) (data : Board.TaskUpdate)
    (w : Board.World) (task : Board.Task) :
  Board.TaskRepository.get_by_id task_id w = (Py.Return (Some task), w) →
  Board.validate_TaskUpdate body = Py.Return data →
  ∃ task' w',
    Board.TaskService.update_task now task_id data w = (Py.Return (Some task'), w') ∧
    Board.TaskRepository.get_by_id task_id w' = (Py.Return (Some task'), w') ∧
    Board.id task' = Board.id task ∧
    Board.created_at task' = Board.created_at task ∧
    Board.title task'
    = match Board.body_title body with
      | Board.Value v => v
      | Board.Null | Board.Absent => Board.title task
      end ∧
    Board.description task'
    = match Board.body_description body with
      | Board.Value v => Some v
      | Board.Null | Board.Absent => Board.description task
      end ∧
    match Board.body_status body with
    | Board.Value v => Board.status_of_value v = Some (Board.status task')
    | Board.Null | Board.Absent => Board.status task' = Board.status task
    end.
Proof.
  intros Hget Hval.
  destruct (task_exists_rows _ _ _ Hget) as [Hrows Hid]. rewrite <- Hid in Hrows.
  unfold Board.TaskService.update_task, Py.mbind. rewrite Hget.
  match goal with
  | |- context [Board.TaskRepository.update now ?c w] => set (changed := c)
  end.
  assert (Board.id changed = Board.id task) as Hcid.
  { unfold changed. by destruct (Board.tu_title data), (Board.tu_description data),
      (Board.tu_status data). }
  assert (Board.title changed = Board.title task
          ∨ Board.TaskRepository.fits_title (Board.title changed) = true) as Hfits.
  { unfold Board.validate_TaskUpdate in Hval.
    destruct (Board.optional_field (Board.body_title body)) as [v |] eqn:Hbt.
    - right.
      destruct ((1 <=? Z.of_nat (String.length v))
                && (Z.of_nat (String.length v) <=? 200)) eqn:Hok; [| done].
      apply andb_true_iff in Hok as [_ Hok].
      assert (Board.tu_title data = Some v) as Hdata.
      { simpl in Hval. destruct (Board.optional_field (Board.body_status body)) as [sv |];
          [destruct (Board.status_of_value sv) |]; try done; by injection Hval as <-. }
      unfold changed. rewrite Hdata.
      assert (Board.title
                match Board.tu_status data with
                | Some st => Board.set_status st
                    match Board.tu_description data with
                    | Some d => Board.set_description (Some d) (Board.set_title v task)
                    | None => Board.set_title v task
                    end
                | None =>
                    match Board.tu_description data with
                    | Some d => Board.set_description (Some d) (Board.set_title v task)
                    | None => Board.set_title v task
                    end
                end = v) as ->
        by (by destruct (Board.tu_status data), (Board.tu_description data)).
      unfold Board.TaskRepository.fits_title. apply Nat.leb_le. lia.
    - left.
      assert (Board.tu_title data = None) as Hdata.
      { simpl in Hval. destruct (Board.optional_field (Board.body_status body)) as [sv |];
          [destruct (Board.status_of_value sv) |]; try done; by injection Hval as <-. }
      unfold changed. rewrite Hdata.
      by destruct (Board.tu_status data), (Board.tu_description data). }
  destruct (task_update_stored now changed w task Hrows Hcid Hfits)
    as (task' & w' & Hupd & Hid' & Htitle & Hdesc & Hstat & Hcreated & Hstored).
  exists task', w'. rewrite Hupd. split; [done |].
  split.
  { rewrite task_get_by_id_eq by exact (task_lookup_int32 _ _ _ Hget).
    rewrite <- Hid. by rewrite Hstored. }
  split; [done |].
  rewrite Hcreated, Htitle, Hdesc, Hstat. clear Hupd Hstored Hcid Hfits.
  unfold Board.validate_TaskUpdate in Hval.
  destruct (negb _); [done |].
  destruct body as [bt bd bs]; simpl in *.
  destruct bs as [| | v]; simpl in Hval.
  1,2: injection Hval as <-; unfold changed; simpl;
       destruct bt, bd; simpl; done.
  destruct (Board.status_of_value v) as [st |] eqn:Hst; [| done].
  injection Hval as <-. unfold changed; simpl.
  destruct bt, bd; simpl; done.
Qed.

Lemma C1_witness :
  ∃ task' w',
    Board.TaskService.update_task 20 1
      (Board.mkTaskUpdate (Some "X") None None) one_task_world
    = (Py.Return (Some task'), w') ∧
    Board.title task' = "X" ∧
    Board.description task' = Some "draft" ∧
    Board.status task' = Board.TODO.
Proof.
  destruct (C1_partial_update_skips_absent_and_null 20 1
              (Board.mkBody (Board.Value "X") Board.Absent Board.Absent)
              (Board.mkTaskUpdate (Some "X") None None) one_task_world one_task)
    as (task' & w' & Hupd & _ & _ & _ & Ht & Hd & Hs).
  - vm_compute. reflexivity.
  - vm_compute. reflexivity.
  - exists task', w'. repeat split; assumption.
Defined.

(** C1 as the specification words it fails: a body whose [description] is
    an explicit [null] does not clear the stored description. *)
Lemma C1_counterexample :
  ¬ (∀ (now task_id : Z) (body : Board.TaskUpdateBody) (data : Board.TaskUpdate)
       (w w' : Board.World) (task task' : Board.Task),
       Board.TaskRepository.get_by_id task_id w = (Py.Return (Some task), w) →
       Board.validate_TaskUpdate body = Py.Return data →
       Board.TaskService.update_task now task_id data w = (Py.Return (Some task'), w') →
       Board.description task'
       = match Board.body_description body with
         | Board.Absent => Board.description task
         | Board.Null => None
         | Board.Value v => Some v
         end).
Proof.
  intros Hclaim.
  specialize (Hclaim 20 1 (Board.mkBody Board.Absent Board.Null Board.Absent)
                (Board.mkTaskUpdate None None None)
                one_task_world one_task_world one_task one_task
                eq_refl eq_refl eq_refl).
  discriminate Hclaim.
Qed.

(** ** Board Service: listing *)

Section Ordering.
Context {R : Type}.

Lemma StronglySorted_weaken (P Q : R → R → Prop) (l : list R) :
  (∀ a b, P a b → Q a b) → StronglySorted P l → StronglySorted Q l.
Proof.
  intros HPQ. induction 1 as [|a l Hs IH Hall]; constructor; [done |].
  eapply Forall_impl; [exact Hall | auto].
Qed.

End Ordering.







Example get_all_page :
  (Board.TaskRepository.get_all None 1 1 three_tasks_world).1
  = Py.Return [Board.mkTask 3 "c" None Board.TODO 20 20].
Proof. vm_compute. reflexivity. Qed.


(** ** Board Service: the WebSocket manager *)

Section DictFacts.
Context {K V : Type} `{EqDecision K}.

Lemma dict_get_set (k k' : K) (v : V) (d : list (K * V)) :
  Py.dict_get k' (Py.dict_set k v d)
  = if decide (k' = k) then Some v else Py.dict_get k' d.
Proof.
  unfold Py.dict_get. induction d as [|[k0 v0] d IH]; simpl.
  - repeat case_bool_decide; case_decide; simpl; congruence.
  - destruct (decide (k0 = k)) as [-> | Hne]; simpl.
    + repeat case_bool_decide; case_decide; simpl; congruence.
    + case_bool_decide; simpl; [| exact IH].
      case_decide; [congruence | done].
Qed.

Lemma dict_get_pop (k k' : K) (d : list (K * V)) :
  Py.dict_get k' (Py.dict_pop k d)
  = if decide (k' = k) then None else Py.dict_get k' d.
Proof.
  unfold Py.dict_get, Py.dict_pop. induction d as [|[k0 v0] d IH]; simpl.
  - by case_decide.
  - repeat (case_bool_decide; simpl); case_decide; simpl in *;
      try congruence; try (rewrite IH; case_decide; congruence).
Qed.

End DictFacts.

Lemma connect_consistent peers ws cid m :
  registry_consistent m → well_paired m (Connect ws cid) →
  registry_consistent (ws_step peers (Connect ws cid) m).
Proof.
  intros [Hone Hback] [Hfresh Hfree]. unfold ws_step, Board.WebSocketManager.connect.
  destruct (Board.WebSocketManager.accept peers ws); [| by split].
  unfold registry_consistent, registered_under in *. simpl. split.
  - intros ws' [Hws' | Hws']%elem_of_union.
    + apply elem_of_singleton in Hws' as ->. exists cid. split.
      * rewrite dict_get_set. by case_decide.
      * intros cid'. rewrite dict_get_set. case_decide; [done |].
        intros Hreg. apply Hback in Hreg. done.
    + destruct (Hone ws' Hws') as (cid0 & Hreg0 & Huniq). exists cid0. split.
      * rewrite dict_get_set. case_decide; [congruence | done].
      * intros cid'. rewrite dict_get_set. case_decide; [| apply Huniq].
        intros [= ->]. done.
  - intros cid' ws'. rewrite dict_get_set. case_decide.
    + intros [= <-]. set_solver.
    + intros Hreg. apply Hback in Hreg. set_solver.
Qed.

Lemma disconnect_consistent peers ws cid m :
  registry_consistent m → well_paired m (Disconnect ws cid) →
  registry_consistent (ws_step peers (Disconnect ws cid) m).
Proof.
  intros [Hone Hback] Hpair. unfold ws_step, Board.WebSocketManager.disconnect.
  unfold registry_consistent, well_paired, registered_under in *. simpl. split.
  - intros ws' [Hws' Hne]%elem_of_difference.
    rewrite elem_of_singleton in Hne.
    destruct (Hone ws' Hws') as (cid0 & Hreg0 & Huniq). exists cid0. split.
    + rewrite dict_get_pop. case_decide; [| done]. subst cid0.
      destruct Hpair as [Hreg | [_ Hnone]]; congruence.
    + intros cid'. rewrite dict_get_pop. case_decide; [done | apply Huniq].
  - intros cid' ws'. rewrite dict_get_pop. case_decide; [done |].
    intros Hreg. apply elem_of_difference. split; [by eapply Hback |].
    rewrite elem_of_singleton. intros ->.
    destruct Hpair as [Hreg' | [Hnot _]].
    + destruct (Hone ws (Hback _ _ Hreg)) as (cid0 & _ & Huniq).
      rewrite (Huniq _ Hreg), (Huniq _ Hreg') in *. done.
    + apply Hnot. by eapply Hback.
Qed.

(** C3 (as the code has it). Along every run of [connect] and
    [disconnect] calls that respect the pairing of connections and client
    identifiers, in every state on the way, each connection of the set has
    exactly one entry in the mapping and each entry of the mapping is a
    connection of the set; and [connection_count] is the size of the
    set. *)
Theorem C3_registry_consistent_along_paired_calls
    (peers : Board.WebSocketManager.Peers) (m : Board.WebSocketManager.Manager) :
  ws_reachable peers m →
  registry_consistent m ∧
  Board.WebSocketManager.connection_count m
  = Z.of_nat (size (Board.WebSocketManager.active_connections m)).
Proof.
  intros Hreach. split; [| reflexivity].
  induction Hreach as [| m call Hreach IH Hpair].
  - split.
    + intros ws Hws. by apply not_elem_of_empty in Hws.
    + intros cid ws Hreg. discriminate Hreg.
  - destruct call as [ws cid | ws cid].
    + by apply connect_consistent.
    + by apply disconnect_consistent.
Qed.

Lemma C3_witness :
  registry_consistent
    (ws_step willing_peers (Disconnect 1%nat "a")
       (ws_step willing_peers (Connect 2%nat "b")
          (ws_step willing_peers (Connect 1%nat "a") Board.WebSocketManager.init))).
Proof.
  apply (C3_registry_consistent_along_paired_calls willing_peers).
  apply reach_step; [apply reach_step; [apply reach_step; [apply reach_init |] |] |].
  - split; [apply (bool_decide_unpack _); vm_compute; exact I | reflexivity].
  - split; [apply (bool_decide_unpack _); vm_compute; exact I | reflexivity].
  - left. reflexivity.
Defined.

(** C3 as the specification words it fails: a second connection under an
    identifier already in use takes over the entry of the first, which
    stays in the set with no entry in the mapping. *)
Lemma C3_counterexample :
  ¬ (∀ (peers : Board.WebSocketManager.Peers) (calls : list WsCall),
       registry_consistent (ws_run peers calls Board.WebSocketManager.init)).
Proof.
  intros Hclaim.
  destruct (Hclaim willing_peers [Connect 1%nat "a"; Connect 2%nat "a"]) as [Hone _].
  destruct (Hone 1%nat) as (cid & Hreg & _).
  - apply (bool_decide_unpack _). vm_compute. exact I.
  - unfold registered_under in Hreg. cbn in Hreg. unfold Py.dict_get in Hreg.
    simpl in Hreg. case_bool_decide; simpl in Hreg; discriminate.
Qed.


(** Whatever the deliveries do, the heap after [broadcast] is the heap
    before with the one dictionary stamped. *)
Lemma broadcast_heap peers now l m heap :
  (Board.WebSocketManager.broadcast peers now l (m, heap)).2.2
  = alter (Board.WebSocketManager.stamp now) l heap.
Proof.
  unfold Board.WebSocketManager.broadcast.
  by destruct (Board.WebSocketManager.deliver _ _ _ _).
Qed.

(** C9. [broadcast] changes the dictionary it is handed, in place: one
    that has no [timestamp] key gets one, holding the time of the call,
    and keeps every other key; one that has the key, whatever its value,
    is left exactly as it is.  No other dictionary of the heap changes.
    This holds whether the deliveries succeed, fail, or raise. *)
Theorem C9_broadcast_stamps_message_in_place
    (peers : Board.WebSocketManager.Peers) (now : string)
    (message : Board.WebSocketManager.Loc) (m : Board.WebSocketManager.Manager)
    (heap : gmap Board.WebSocketManager.Loc (gmap string Board.WebSocketManager.Json))
    (d : gmap string Board.WebSocketManager.Json) :
  heap !! message = Some d →
  let heap' := (Board.WebSocketManager.broadcast peers now message (m, heap)).2.2 in
  (d !! "timestamp" = None →
     heap' !! message = Some (<["timestamp" := Board.WebSocketManager.JStr now]> d)) ∧
  (is_Some (d !! "timestamp") → heap' !! message = Some d) ∧
  (∀ other, other ≠ message → heap' !! other = heap !! other).
Proof.
  intros Hd heap'. unfold heap'. rewrite broadcast_heap.
  split; [| split].
  - intros Hnone. rewrite lookup_alter_eq, Hd. simpl. f_equal.
    unfold Board.WebSocketManager.stamp.
    case_decide as Hin; [| done].
    apply elem_of_dom in Hin as [v Hv]. congruence.
  - intros Hsome. rewrite lookup_alter_eq, Hd. simpl. f_equal.
    unfold Board.WebSocketManager.stamp.
    case_decide as Hin; [done |].
    apply not_elem_of_dom in Hin. rewrite Hin in Hsome. by destruct Hsome.
  - intros other Hother. by rewrite lookup_alter_ne.
Qed.

Lemma C9_witness :
  (Board.WebSocketManager.broadcast willing_peers "2024-01-01T12:00:00" 0%nat
     (Board.WebSocketManager.init, {[0%nat := test_message]})).2.2 !! 0%nat
  = Some (<["timestamp" := Board.WebSocketManager.JStr "2024-01-01T12:00:00"]>
            test_message).
Proof.
  apply (C9_broadcast_stamps_message_in_place willing_peers "2024-01-01T12:00:00"
           0%nat Board.WebSocketManager.init {[0%nat := test_message]} test_message).
  - vm_compute. reflexivity.
  - vm_compute. reflexivity.
Defined.


(** ** File Service: deletion *)

Lemma file_get_by_id_cases file_id w :
  Files.FileRepository.get_by_id file_id w
  = (if Sql.is_int32 file_id
     then Sql.scalar_one_or_none
            (List.filter (λ f, Files.id f =? file_id) (Sql.rows (Files.db w)))
     else Py.Raise (Py.DBAPIError "value out of int32 range"), w).
Proof.
  unfold Files.FileRepository.get_by_id. cbv zeta.
  by rewrite (execute_where_integer Files.id).
Qed.

Lemma file_get_by_id_eq file_id w :
  Sql.is_int32 file_id = true →
  Files.FileRepository.get_by_id file_id w
  = (Sql.scalar_one_or_none
       (List.filter (λ f, Files.id f =? file_id) (Sql.rows (Files.db w))), w).
Proof. intros Hfits. by rewrite file_get_by_id_cases, Hfits. Qed.

Lemma file_lookup_int32 file_id w found :
  Files.FileRepository.get_by_id file_id w = (Py.Return found, w) →
  Sql.is_int32 file_id = true.
Proof. rewrite file_get_by_id_cases. by destruct (Sql.is_int32 file_id). Qed.

Lemma file_exists_rows file_id w f :
  Files.FileRepository.get_by_id file_id w = (Py.Return (Some f), w) →
  List.filter (λ x, Files.id x =? file_id) (Sql.rows (Files.db w)) = [f]
  ∧ Files.id f = file_id.
Proof.
  intros Hget. pose proof (file_lookup_int32 _ _ _ Hget) as Hfits.
  rewrite file_get_by_id_eq in Hget by done. injection Hget as Hs.
  apply scalar_one_or_none_Some in Hs. split; [done |].
  apply filter_singleton_In in Hs as [_ Hid]. by apply Z.eqb_eq.
Qed.

Lemma file_deleted_gone f t :
  List.filter (λ x, Files.id x =? Files.id f) (Sql.rows (Sql.delete f t)) = [].
Proof. exact (filter_pk_delete f t). Qed.

(** [S3Service.delete_file] when the client raises nothing but
    [ClientError]: it returns, with [False] exactly when the client
    raised, and the metadata is not touched. *)
Lemma s3_delete_file_returns client key w :
  (∀ e, Files.delete_object_raises client key = Some e → Py.is_ClientError e = true) →
  ∃ w',
    Files.S3Service.delete_file client key w
    = (Py.Return (bool_decide (Files.delete_object_raises client key = None)), w') ∧
    Files.db w' = Files.db w ∧
    Files.objects w'
    = (if bool_decide (Files.delete_object_raises client key = None)
       then delete key (Files.objects w) else Files.objects w).
Proof.
  intros Hclient.
  unfold Files.S3Service.delete_file, Py.mtry, Py.mbind, Files.delete_object.
  destruct (Files.delete_object_raises client key) as [e |] eqn:Hr.
  - rewrite (Hclient e eq_refl). simpl. eauto.
  - simpl. eauto.
Qed.

(** [S3Service.delete_file] when the client raises an exception of
    another class: the [except ClientError] clause lets it pass. *)
Lemma s3_delete_file_escapes client key w e :
  Files.delete_object_raises client key = Some e →
  Py.is_ClientError e = false →
  Files.S3Service.delete_file client key w
  = (Py.Raise e, Files.record_call (Files.DeleteObject key) w).
Proof.
  intros Hraises Hclass.
  unfold Files.S3Service.delete_file, Py.mtry, Py.mbind, Files.delete_object.
  by rewrite Hraises, Hclass.
Qed.

(** For a file that exists, [delete_file] calls the object deletion,
    ignores the flag it returns, deletes the metadata row and returns
    [True].  A [ClientError] raised by the store does not leave
    [S3Service.delete_file]: it becomes the flag [False], the object stays
    in the bucket, and the metadata row is removed all the same. *)
Theorem delete_file_ignores_deletion_flag
    (client : Files.S3Client) (file_id : Z) (w : Files.World) (f : Files.File) :
  Files.FileRepository.get_by_id file_id w = (Py.Return (Some f), w) →
  (∀ e, Files.delete_object_raises client (Files.file_key f) = Some e →
        Py.is_ClientError e = true) →
  let deleted := bool_decide (Files.delete_object_raises client (Files.file_key f) = None) in
  ∃ w',
    (Files.S3Service.delete_file client (Files.file_key f) w).1 = Py.Return deleted ∧
    Files.FileService.delete_file client file_id w = (Py.Return true, w') ∧
    Files.FileRepository.get_by_id file_id w' = (Py.Return None, w') ∧
    Files.objects w'
    = (if deleted then delete (Files.file_key f) (Files.objects w) else Files.objects w).
Proof.
  intros Hget Hclient deleted.
  destruct (file_exists_rows _ _ _ Hget) as [_ Hid].
  pose proof (file_lookup_int32 _ _ _ Hget) as Hfits.
  destruct (s3_delete_file_returns client (Files.file_key f) w Hclient)
    as (w1 & Hs3 & Hdb & Hobj).
  exists (Files.with_db (Sql.delete f) w1). split; [by rewrite Hs3 |].
  split; [| split].
  - unfold Files.FileService.delete_file, Py.mbind. rewrite Hget, Hs3. done.
  - rewrite file_get_by_id_eq by done. cbn [Files.db Files.with_db].
    rewrite Hdb, <- Hid. by rewrite file_deleted_gone.
  - exact Hobj.
Qed.

Lemma delete_file_ignores_deletion_flag_witness :
  ∃ w',
    Files.FileService.delete_file refusing_store 1 sample_file_world
    = (Py.Return true, w') ∧
    Files.FileRepository.get_by_id 1 w' = (Py.Return None, w') ∧
    Files.objects w' = Files.objects sample_file_world.
Proof.
  destruct (delete_file_ignores_deletion_flag refusing_store 1 sample_file_world
              sample_file) as (w' & _ & Hdel & Hgone & Hobj).
  - vm_compute. reflexivity.
  - intros e [= <-]. reflexivity.
  - exists w'. repeat split; assumption.
Defined.

(** C5. The claim has every storage-level error of the object deletion
    converted to a false return value, as the docstring of
    [S3Service.delete_file] has it ("True if deleted successfully, False
    otherwise").  The code does so for [ClientError] only.  For a file
    that exists and a store whose client raises an exception of any other
    class (a store that cannot be reached raises
    [EndpointConnectionError]), the exception leaves
    [S3Service.delete_file], [FileService.delete_file] and the endpoint,
    after the one call to the store, and the metadata row is still
    there. *)
Theorem C5_store_error_escapes_delete_file
    (client : Files.S3Client) (file_id : Z) (w : Files.World) (f : Files.File)
    (e : Py.Exn) :
  Files.FileRepository.get_by_id file_id w = (Py.Return (Some f), w) →
  Files.delete_object_raises client (Files.file_key f) = Some e →
  Py.is_ClientError e = false →
  let w' := Files.record_call (Files.DeleteObject (Files.file_key f)) w in
  Files.S3Service.delete_file client (Files.file_key f) w = (Py.Raise e, w') ∧
  Files.FileService.delete_file client file_id w = (Py.Raise e, w') ∧
  Files.Api.delete_file client file_id w = (Py.Raise e, w') ∧
  Files.FileRepository.get_by_id file_id w' = (Py.Return (Some f), w') ∧
  Files.db w' = Files.db w.
Proof.
  intros Hget Hraises Hclass w'.
  pose proof (s3_delete_file_escapes client (Files.file_key f) w e Hraises Hclass) as Hs3.
  assert (Files.FileService.delete_file client file_id w = (Py.Raise e, w')) as Hservice.
  { unfold Files.FileService.delete_file, Py.mbind. by rewrite Hget, Hs3. }
  split; [exact Hs3 |]. split; [exact Hservice |]. split; [| split; [| done]].
  - unfold Files.Api.delete_file, Py.mbind. by rewrite Hservice.
  - rewrite file_get_by_id_cases in Hget |- *. cbn [Files.db w' Files.record_call].
    by injection Hget as ->.
Qed.

Lemma C5_witness :
  Files.FileService.delete_file unreachable_store 1 sample_file_world
  = (Py.Raise (Py.EndpointConnectionError "Could not connect to the endpoint URL"),
     Files.record_call (Files.DeleteObject "tasks/1/test-uuid_test.pdf")
       sample_file_world)
  ∧
  Files.FileRepository.get_by_id 1
    (Files.record_call (Files.DeleteObject "tasks/1/test-uuid_test.pdf")
       sample_file_world)
  = (Py.Return (Some sample_file),
     Files.record_call (Files.DeleteObject "tasks/1/test-uuid_test.pdf")
       sample_file_world).
Proof.
  destruct (C5_store_error_escapes_delete_file unreachable_store 1 sample_file_world
              sample_file
              (Py.EndpointConnectionError "Could not connect to the endpoint URL"))
    as (_ & Hservice & _ & Hrow & _).
  - vm_compute. reflexivity.
  - reflexivity.
  - reflexivity.
  - split; [exact Hservice | exact Hrow].
Defined.


(** ** File Service: deletion by task *)

Lemma uploaded_at_desc_le a b :
  Sql.order_le [Files.FileRepository.uploaded_at_desc] a b →
  Files.uploaded_at b ≤ Files.uploaded_at a.
Proof.
  unfold Sql.order_le. simpl.
  destruct (Files.uploaded_at a =? Files.uploaded_at b) eqn:Heq.
  - apply Z.eqb_eq in Heq. lia.
  - rewrite Z.ltb_lt. lia.
Qed.

(** The listing of a task: for an identifier that is an INTEGER, the
    files of the task in an order the engine gives them, newest first;
    the same whatever else of the world differs from the database. *)
Lemma files_get_by_task_id_eq tid w :
  Sql.is_int32 tid = true →
  ∃ fs : list Files.File,
    fs ≡ₚ List.filter (λ f, Files.task_id f =? tid) (Sql.rows (Files.db w)) ∧
    StronglySorted (λ a b, Files.uploaded_at b ≤ Files.uploaded_at a) fs ∧
    ∀ w', Files.db w' = Files.db w →
          Files.FileRepository.get_by_task_id tid w' = (Py.Return fs, w').
Proof.
  intros Hfits.
  set (statement := Sql.order_by Files.FileRepository.uploaded_at_desc
                      (Sql.where_integer Files.task_id tid Sql.select)).
  exists (Sql.ordered_rows statement (Files.db w)). split; [| split].
  - unfold Sql.ordered_rows. rewrite Sql.arrange_Permutation.
    erewrite List.filter_ext; [reflexivity |].
    intros f. exact (matches_where_integer Files.task_id tid f).
  - eapply StronglySorted_weaken; [apply uploaded_at_desc_le |].
    exact (Sql.arrange_StronglySorted (Sql.engine (Files.db w)) statement _ _).
  - intros w' Hdb. unfold Files.FileRepository.get_by_task_id. fold statement.
    rewrite Hdb. unfold Sql.execute, Sql.refused.
    cbn [statement Sql.integer_parameters Sql.order_by Sql.where_integer Sql.select
         Sql.offset_clause Sql.limit_clause app forallb Sql.negative Sql.window].
    by rewrite Hfits.
Qed.

(** An identifier that is no INTEGER is refused. *)
Lemma files_get_by_task_id_refused tid w :
  Sql.is_int32 tid = false →
  Files.FileRepository.get_by_task_id tid w
  = (Py.Raise (Py.DBAPIError "value out of int32 range"), w).
Proof.
  intros Hfits. unfold Files.FileRepository.get_by_task_id, Sql.execute, Sql.refused.
  cbn [Sql.integer_parameters Sql.order_by Sql.where_integer Sql.select app forallb].
  by rewrite Hfits.
Qed.

Lemma mfor_cons {S A} (x : A) (xs : list A) (body : A → Py.M S unit) (s : S) :
  Py.mfor (x :: xs) body s
  = match body x s with
    | (Py.Return _, s') => Py.mfor xs body s'
    | (Py.Raise e, s') => (Py.Raise e, s')
    end.
Proof. reflexivity. Qed.

(** The loop over the objects of a task returns when no deletion raises
    anything but [ClientError], and does not touch the metadata. *)
Lemma s3_delete_loop_returns client (fs : list Files.File) w :
  (∀ f e, In f fs → Files.delete_object_raises client (Files.file_key f) = Some e →
          Py.is_ClientError e = true) →
  ∃ w',
    Py.mfor fs (λ file_record,
      Files.S3Service.delete_file client (Files.file_key file_record) >> Py.mret tt) w
    = (Py.Return tt, w') ∧
    Files.db w' = Files.db w.
Proof.
  revert w. induction fs as [|f fs IH]; intros w Hclient; simpl.
  - by exists w.
  - destruct (s3_delete_file_returns client (Files.file_key f) w) as (w1 & Hs3 & Hdb & _).
    { intros e. apply Hclient. by left. }
    destruct (IH w1) as (w' & Hloop & Hdb').
    { intros f' e Hin. apply Hclient. by right. }
    exists w'. unfold Py.mbind at 1 2. rewrite Hs3. simpl. rewrite Hloop.
    split; [done | congruence].
Qed.

Lemma filter_after_delete (f : Files.File) (fs : list Files.File) (l : list Files.File) :
  List.filter (λ x, forallb (λ f, negb (Files.id x =? Files.id f)) fs)
    (List.filter (λ x, negb (Files.id x =? Files.id f)) l)
  = List.filter (λ x, forallb (λ f, negb (Files.id x =? Files.id f)) (f :: fs)) l.
Proof.
  induction l as [|x l IHl]; [done |]. cbn [List.filter forallb].
  destruct (Files.id x =? Files.id f); cbn [negb andb List.filter]; [exact IHl |].
  destruct (forallb _ fs); by rewrite IHl.
Qed.

(** The loop of [session.delete] removes the rows that share their key
    with one of the objects. *)
Lemma db_delete_loop (fs : list Files.File) w :
  ∃ w',
    Py.mfor fs (λ file, Py.mmodify (Files.with_db (Sql.delete file))) w
    = (Py.Return tt, w') ∧
    Sql.rows (Files.db w')
    = List.filter (λ x, forallb (λ f, negb (Files.id x =? Files.id f)) fs)
        (Sql.rows (Files.db w)) ∧
    Sql.sequence (Files.db w') = Sql.sequence (Files.db w) ∧
    Sql.engine (Files.db w') = Sql.engine (Files.db w).
Proof.
  revert w. induction fs as [|f fs IH]; intros w.
  - exists w. split; [done |]. split; [| done]. simpl.
    induction (Sql.rows (Files.db w)); simpl; congruence.
  - destruct (IH (Files.with_db (Sql.delete f) w)) as (w' & Hloop & Hrows & Hseq & Heng).
    exists w'. rewrite mfor_cons. unfold Py.mmodify at 1. cbv beta iota.
    rewrite Hloop. split; [done |]. split; [| by rewrite Hseq, Heng].
    rewrite Hrows. cbn [Files.db Files.with_db Sql.delete Sql.rows].
    exact (filter_after_delete f fs (Sql.rows (Files.db w))).
Qed.

Lemma pk_unique_inj (l : list Files.File) (x y : Files.File) :
  NoDup (Files.id <$> l) → In x l → In y l → Files.id x = Files.id y → x = y.
Proof.
  induction l as [|a l IH]; simpl; [done |].
  intros [Hnotin Hnd]%NoDup_cons [-> | Hx] [-> | Hy] Hid; try done.
  - exfalso. apply Hnotin. rewrite Hid. apply list_elem_of_fmap.
    exists y. split; [done | by apply list_elem_of_In].
  - exfalso. apply Hnotin. rewrite <- Hid. apply list_elem_of_fmap.
    exists x. split; [done | by apply list_elem_of_In].
  - by apply IH.
Qed.

(** Under the primary key, the rows that share no key with the files of a
    task are the rows of the other tasks. *)
Lemma rows_off_task (tid : Z) (rows fs : list Files.File) :
  NoDup (Files.id <$> rows) →
  fs ≡ₚ List.filter (λ f, Files.task_id f =? tid) rows →
  List.filter (λ x, forallb (λ f, negb (Files.id x =? Files.id f)) fs) rows
  = List.filter (λ x, negb (Files.task_id x =? tid)) rows.
Proof.
  intros Hpk Hfs. apply List.filter_ext_in. intros x Hx.
  destruct (Files.task_id x =? tid) eqn:Htid; simpl.
  - apply not_true_is_false. intros Hall.
    rewrite forallb_forall in Hall.
    assert (In x fs) as Hin.
    { apply list_elem_of_In. rewrite Hfs. apply list_elem_of_In.
      apply List.filter_In. by split. }
    specialize (Hall x Hin). by rewrite Z.eqb_refl in Hall.
  - apply forallb_forall. intros f Hf. apply negb_true_iff, Z.eqb_neq. intros Hid.
    assert (In f (List.filter (λ f, Files.task_id f =? tid) rows)) as Hfin.
    { apply list_elem_of_In. rewrite <- Hfs. by apply list_elem_of_In. }
    apply List.filter_In in Hfin as [Hfrows Hftid].
    assert (x = f) as -> by (eapply pk_unique_inj; eauto).
    congruence.
Qed.

Lemma filter_task_off_task (tid tid' : Z) (rows : list Files.File) :
  List.filter (λ f, Files.task_id f =? tid')
    (List.filter (λ x, negb (Files.task_id x =? tid)) rows)
  = if tid' =? tid then [] else List.filter (λ f, Files.task_id f =? tid') rows.
Proof.
  induction rows as [|x l IH]; simpl; [by destruct (tid' =? tid) |].
  destruct (Files.task_id x =? tid) eqn:Hx, (Files.task_id x =? tid') eqn:Hx',
           (tid' =? tid) eqn:Ht; simpl; rewrite ?Hx'; rewrite ?IH, ?Ht;
    rewrite ?Z.eqb_eq, ?Z.eqb_neq in *; try done; try lia.
Qed.

(** What [delete_files_by_task] does to the rows, for an identifier that
    is an INTEGER and a store whose deletions succeed or raise
    [ClientError]. *)
Lemma delete_files_by_task_rows client tid w :
  Sql.pk_unique (Files.db w) →
  Sql.is_int32 tid = true →
  (∀ f e, In f (Sql.rows (Files.db w)) → Files.task_id f = tid →
          Files.delete_object_raises client (Files.file_key f) = Some e →
          Py.is_ClientError e = true) →
  ∃ w',
    Files.FileService.delete_files_by_task client tid w
    = (Py.Return
         (Py.len (List.filter (λ f, Files.task_id f =? tid) (Sql.rows (Files.db w)))),
       w') ∧
    Sql.rows (Files.db w')
    = List.filter (λ f, negb (Files.task_id f =? tid)) (Sql.rows (Files.db w)) ∧
    Sql.sequence (Files.db w') = Sql.sequence (Files.db w) ∧
    Sql.engine (Files.db w') = Sql.engine (Files.db w).
Proof.
  intros Hpk Hfits Hclient.
  destruct (files_get_by_task_id_eq tid w Hfits) as (fs & Hperm & _ & Hget).
  destruct (s3_delete_loop_returns client fs w) as (w1 & Hs3 & Hdb1).
  { intros f e Hin. apply list_elem_of_In in Hin. rewrite Hperm in Hin.
    apply list_elem_of_In, List.filter_In in Hin as [Hrows Htid].
    apply Hclient; [done | by apply Z.eqb_eq]. }
  destruct (db_delete_loop fs w1) as (w' & Hloop & Hrows & Hseq & Hengine).
  exists w'. split; [| split; [| split]].
  - unfold Files.FileService.delete_files_by_task, Py.mbind at 1 2.
    rewrite (Hget w eq_refl), Hs3.
    unfold Files.FileRepository.delete_by_task_id, Py.mbind.
    rewrite (Hget w1 Hdb1), Hloop.
    unfold Py.mret, Py.len. by rewrite Hperm.
  - rewrite Hrows, Hdb1. by apply rows_off_task.
  - by rewrite Hseq, Hdb1.
  - by rewrite Hengine, Hdb1.
Qed.




Example delete_files_by_task_store_unreachable :
  (Files.FileService.delete_files_by_task unreachable_store 1 multiple_files_world).1
  = Py.Raise (Py.EndpointConnectionError "Could not connect to the endpoint URL")
  ∧ Files.db (Files.FileService.delete_files_by_task unreachable_store 1
                multiple_files_world).2
    = Files.db multiple_files_world.
Proof. split; vm_compute; reflexivity. Qed.

Example delete_files_by_task_beyond_integer :
  Files.FileService.delete_files_by_task Files.healthy_client 2147483648
    multiple_files_world
  = (Py.Raise (Py.DBAPIError "value out of int32 range"), multiple_files_world).
Proof. vm_compute. reflexivity. Qed.

Example delete_files_by_task_fixture :
  (Files.Api.get_files_by_task 2 multiple_files_world).1
  = Py.Return (Files.Api.mkFileListResponse
                 (fixture_file <$> [9; 8; 7; 6; 5]) 5).
Proof. vm_compute. reflexivity. Qed.


(** ** File Service: download *)





Example download_fixture_headers :
  FastAPI.headers
    (Files.Api.download_response
       (Files.Api.download_file Files.healthy_client 1 sample_file_world).1)
  = [("Content-Disposition", "attachment; filename=" +:+ Py.dquote +:+ "test.pdf"
                             +:+ Py.dquote);
     ("Content-Length", "1024");
     ("content-type", "application/pdf")]
  ∧ Py.len test_content = 12.
Proof. split; vm_compute; reflexivity. Qed.

(** * Further properties of the two services *)

(** ** Tables that respect their primary key *)

Section SqlInvariants.
Context {R : Type} `{Sql.Model R}.
Hypothesis pk_with_pk : ∀ (k : Z) (r : R), Sql.pk (Sql.with_pk k r) = k.

Lemma pk_filter_NoDup (p : R → bool) (l : list R) :
  NoDup (Sql.pk <$> l) → NoDup (Sql.pk <$> List.filter p l).
Proof.
  induction l as [|a l IH]; simpl; [done |].
  intros [Hnotin Hnd]%NoDup_cons. destruct (p a); simpl; [| by apply IH].
  apply NoDup_cons. split; [| by apply IH].
  intros (x & Hx & Hin)%list_elem_of_fmap. apply Hnotin.
  apply list_elem_of_fmap. exists x. split; [done |].
  apply list_elem_of_In. apply list_elem_of_In, List.filter_In in Hin. tauto.
Qed.

Lemma filter_Forall (P : R → Prop) (p : R → bool) (l : list R) :
  Forall P l → Forall P (List.filter p l).
Proof.
  induction 1 as [|a l Ha Hl IH]; simpl; [done |].
  destruct (p a); [by constructor | done].
Qed.

Lemma insert_well_formed (r : R) (t : Sql.Table R) :
  Sql.well_formed t → Sql.well_formed (Sql.insert r t).2.
Proof.
  intros [Hpk Hseq]. unfold Sql.well_formed, Sql.pk_unique, Sql.sequence_covers in *.
  simpl. split.
  - rewrite fmap_app. apply NoDup_app. split; [done |]. split.
    + intros k (x & -> & Hx)%list_elem_of_fmap. rewrite Forall_forall in Hseq.
      specialize (Hseq x Hx). simpl. rewrite pk_with_pk.
      rewrite list_elem_of_singleton. lia.
    + simpl. apply NoDup_singleton.
  - apply Forall_app. split.
    + eapply Forall_impl; [exact Hseq |]. simpl. intros; lia.
    + constructor; [| constructor]. rewrite pk_with_pk. lia.
Qed.

Lemma filter_pk_absent (k : Z) (l : list R) :
  Forall (λ r, Sql.pk r ≠ k) l → List.filter (λ x, Sql.pk x =? k) l = [].
Proof.
  induction 1 as [|a l Ha Hl IH]; simpl; [done |].
  destruct (Sql.pk a =? k) eqn:Heq; [| done]. apply Z.eqb_eq in Heq. done.
Qed.

(** The row just inserted is the one row that answers to its key. *)
Lemma insert_lookup (r : R) (t : Sql.Table R) :
  Sql.sequence_covers t →
  List.filter (λ x, Sql.pk x =? Sql.pk (Sql.insert r t).1) (Sql.rows (Sql.insert r t).2)
  = [(Sql.insert r t).1].
Proof.
  intros Hseq. simpl. rewrite pk_with_pk, List.filter_app. simpl.
  rewrite pk_with_pk, Z.eqb_refl, filter_pk_absent; [done |].
  eapply Forall_impl; [exact Hseq |]. simpl. intros; lia.
Qed.

Lemma insert_others (r : R) (t : Sql.Table R) (k : Z) :
  k ≠ Sql.sequence t + 1 →
  List.filter (λ x, Sql.pk x =? k) (Sql.rows (Sql.insert r t).2)
  = List.filter (λ x, Sql.pk x =? k) (Sql.rows t).
Proof.
  intros Hk. simpl. rewrite List.filter_app. simpl. rewrite pk_with_pk.
  destruct (_ =? k) eqn:Heq; [apply Z.eqb_eq in Heq; lia |]. apply app_nil_r.
Qed.

Lemma delete_well_formed (r : R) (t : Sql.Table R) :
  Sql.well_formed t → Sql.well_formed (Sql.delete r t).
Proof.
  intros [Hpk Hseq]. split.
  - by apply pk_filter_NoDup.
  - by apply filter_Forall.
Qed.

Lemma update_keeps_keys (r : R) (l : list R) :
  Sql.pk <$> List.map (λ x, if Sql.pk x =? Sql.pk r then r else x) l = Sql.pk <$> l.
Proof.
  induction l as [|a l IH]; [done |]. cbn [List.map]. rewrite !fmap_cons, IH. f_equal.
  destruct (Sql.pk a =? Sql.pk r) eqn:Heq; [| done]. apply Z.eqb_eq in Heq. done.
Qed.

Lemma update_well_formed (r : R) (t : Sql.Table R) :
  Sql.well_formed t → Sql.well_formed (Sql.update r t).
Proof.
  intros [Hpk Hseq]. unfold Sql.well_formed, Sql.pk_unique, Sql.sequence_covers in *.
  simpl. split.
  - by rewrite update_keeps_keys.
  - apply Forall_forall. intros x Hx.
    apply list_elem_of_In, in_map_iff in Hx as (y & Hy & Hin).
    rewrite Forall_forall in Hseq. specialize (Hseq y).
    rewrite list_elem_of_In in Hseq. specialize (Hseq Hin).
    destruct (Sql.pk y =? Sql.pk r) eqn:Heq; subst x; [| done].
    apply Z.eqb_eq in Heq. by rewrite <- Heq.
Qed.

(** Under the primary key a lookup by key finds no row or one. *)
Lemma pk_unique_lookup (k : Z) (l : list R) :
  NoDup (Sql.pk <$> l) →
  List.filter (λ x, Sql.pk x =? k) l = []
  ∨ ∃ x, List.filter (λ x, Sql.pk x =? k) l = [x].
Proof.
  induction l as [|a l IH]; simpl; [by left |].
  intros [Hnotin Hnd]%NoDup_cons.
  destruct (Sql.pk a =? k) eqn:Heq; [| by apply IH].
  right. exists a. f_equal. apply Z.eqb_eq in Heq. apply filter_pk_absent.
  apply Forall_forall. intros x Hx Hxk. apply Hnotin.
  apply list_elem_of_fmap. exists x. split; [congruence | done].
Qed.

End SqlInvariants.

(** ** Board Service: the other operations on tasks *)

Lemma task_pk_with_pk (k : Z) (t : Board.Task) : Sql.pk (Sql.with_pk k t) = k.
Proof. reflexivity. Qed.

Lemma filter_update_other (written : Board.Task) (other : Z) (l : list Board.Task) :
  other ≠ Board.id written →
  List.filter (λ t, Board.id t =? other)
    (List.map (λ x, if Board.id x =? Board.id written then written else x) l)
  = List.filter (λ t, Board.id t =? other) l.
Proof.
  intros Hother. induction l as [|a l IH]; simpl; [done |].
  destruct (Board.id a =? Board.id written) eqn:Ha.
  - apply Z.eqb_eq in Ha.
    destruct (Board.id written =? other) eqn:H1; [apply Z.eqb_eq in H1; lia |].
    destruct (Board.id a =? other) eqn:H2; [apply Z.eqb_eq in H2; lia | exact IH].
  - destruct (Board.id a =? other); by rewrite IH.
Qed.

(** What [TaskRepository.update] leaves alone: the rows of the other
    tasks, the well-formedness of the table, the requests sent. *)
Lemma task_update_frame now changed w :
  let w' := (Board.TaskRepository.update now changed w).2 in
  (∀ other, other ≠ Board.id changed →
     List.filter (λ t, Board.id t =? other) (Sql.rows (Board.db w'))
     = List.filter (λ t, Board.id t =? other) (Sql.rows (Board.db w))) ∧
  (Sql.well_formed (Board.db w) → Sql.well_formed (Board.db w')) ∧
  Board.requests w' = Board.requests w.
Proof.
  unfold Board.TaskRepository.update.
  destruct (List.find _ _) as [stored |]; [| done].
  destruct (decide (stored = changed)); [done |].
  destruct (negb _ && negb _); [done |]. simpl.
  split; [| split; [| done]].
  - intros other Hother.
    apply (filter_update_other (Board.set_updated_at now changed)). exact Hother.
  - apply (update_well_formed (Board.set_updated_at now changed)).
Qed.

(** Moving a task between columns: any status may follow any other, the
    new status is stored, and nothing else of the task or of the other
    tasks changes. *)
Theorem update_task_status_unconstrained
    (now task_id : Z) (new_status : Board.TaskStatus)
    (w : Board.World) (task : Board.Task) :
  Board.TaskRepository.get_by_id task_id w = (Py.Return (Some task), w) →
  ∃ task' w',
    Board.TaskService.update_task_status now task_id new_status w
    = (Py.Return (Some task'), w') ∧
    Board.TaskService.get_task task_id w' = (Py.Return (Some task'), w') ∧
    Board.status task' = new_status ∧
    Board.id task' = Board.id task ∧
    Board.title task' = Board.title task ∧
    Board.description task' = Board.description task ∧
    Board.created_at task' = Board.created_at task ∧
    (∀ other, other ≠ task_id →
       (Board.TaskService.get_task other w').1 = (Board.TaskService.get_task other w).1).
Proof.
  intros Hget.
  destruct (task_exists_rows _ _ _ Hget) as [Hrows Hid]. rewrite <- Hid in Hrows.
  destruct (task_update_stored now (Board.set_status new_status task) w task Hrows
              eq_refl (or_introl eq_refl))
    as (task' & w' & Hupd & Hid' & Htitle & Hdesc & Hstat & Hcreated & Hstored).
  pose proof (task_update_frame now (Board.set_status new_status task) w) as Hframe.
  rewrite Hupd in Hframe. simpl in Hframe. destruct Hframe as (Hothers & _ & _).
  exists task', w'. split.
  { unfold Board.TaskService.update_task_status, Py.mbind. by rewrite Hget, Hupd. }
  split.
  { unfold Board.TaskService.get_task.
    rewrite task_get_by_id_eq by exact (task_lookup_int32 _ _ _ Hget).
    rewrite <- Hid. by rewrite Hstored. }
  repeat split; try done.
  intros other Hother. unfold Board.TaskService.get_task.
  rewrite !task_get_by_id_cases. simpl. rewrite Hothers; [done | congruence].
Qed.

Lemma update_task_status_witness :
  ∃ task' w',
    Board.TaskService.update_task_status 20 1 Board.DONE one_task_world
    = (Py.Return (Some task'), w') ∧
    Board.status task' = Board.DONE ∧
    Board.title task' = "Write report".
Proof.
  destruct (update_task_status_unconstrained 20 1 Board.DONE one_task_world one_task)
    as (task' & w' & Hupd & _ & Hst & _ & Ht & _).
  - vm_compute. reflexivity.
  - exists task', w'. repeat split; assumption.
Defined.

Lemma task_filter_absent (k : Z) (l : list Board.Task) :
  Forall (λ t, Board.id t ≠ k) l → List.filter (λ t, Board.id t =? k) l = [].
Proof. exact (filter_pk_absent k l). Qed.

Lemma task_insert_lookup (fresh : Board.Task) (t : Sql.Table Board.Task) :
  Sql.sequence_covers t →
  List.filter (λ x, Board.id x =? Board.id (Sql.insert fresh t).1)
    (Sql.rows (Sql.insert fresh t).2)
  = [(Sql.insert fresh t).1].
Proof. exact (insert_lookup task_pk_with_pk fresh t). Qed.

Lemma task_insert_others (fresh : Board.Task) (t : Sql.Table Board.Task) (k : Z) :
  k ≠ Sql.sequence t + 1 →
  List.filter (λ x, Board.id x =? k) (Sql.rows (Sql.insert fresh t).2)
  = List.filter (λ x, Board.id x =? k) (Sql.rows t).
Proof. exact (insert_others task_pk_with_pk fresh t k). Qed.

Lemma task_absent_rows task_id w :
  Sql.is_int32 task_id = true →
  task_id ∉ Board.id <$> Sql.rows (Board.db w) →
  Board.TaskRepository.get_by_id task_id w = (Py.Return None, w).
Proof.
  intros Hfits Habsent. rewrite task_get_by_id_eq by done.
  rewrite task_filter_absent; [done |].
  apply Forall_forall. intros t Ht Hid. apply Habsent.
  apply list_elem_of_fmap. by exists t.
Qed.

(** An identifier, within the INTEGERs, that no task carries: the lookup,
    the update and the status change return [None], the deletion returns
    [False], and none of them changes the tasks or sends a request to the
    File Service. *)
Theorem missing_task_changes_nothing
    (s : Board.Settings) (peer : string → Board.HttpOutcome) (now task_id : Z)
    (data : Board.TaskUpdate) (new_status : Board.TaskStatus) (w : Board.World) :
  Sql.is_int32 task_id = true →
  task_id ∉ Board.id <$> Sql.rows (Board.db w) →
  Board.TaskService.get_task task_id w = (Py.Return None, w) ∧
  Board.TaskService.update_task now task_id data w = (Py.Return None, w) ∧
  Board.TaskService.update_task_status now task_id new_status w = (Py.Return None, w) ∧
  Board.TaskService.delete_task s peer task_id w = (Py.Return false, w).
Proof.
  intros Hfits Habsent. pose proof (task_absent_rows _ _ Hfits Habsent) as Hget.
  unfold Board.TaskService.get_task, Board.TaskService.update_task,
    Board.TaskService.update_task_status, Board.TaskService.delete_task, Py.mbind.
  by rewrite Hget.
Qed.

Lemma missing_task_witness :
  Board.TaskService.delete_task Board.default_settings
    (λ _, Board.Responds 200) 999 one_task_world
  = (Py.Return false, one_task_world).
Proof.
  apply (missing_task_changes_nothing Board.default_settings (λ _, Board.Responds 200)
           0 999 (Board.mkTaskUpdate None None None) Board.TODO one_task_world).
  - reflexivity.
  - apply (bool_decide_unpack _). vm_compute. exact I.
Defined.

(** While the sequence has an INTEGER left, a task that was created is
    found under the identifier it was given, with the title, description
    and status of the request ([todo] when the request names none); the
    tasks that were there are still there. *)
Theorem create_task_then_get_task
    (created updated : Z) (body : Board.TaskCreateBody) (data : Board.TaskCreate)
    (w : Board.World) :
  Sql.sequence_covers (Board.db w) →
  Sql.is_int32 (Sql.sequence (Board.db w) + 1) = true →
  Board.validate_TaskCreate body = Py.Return data →
  ∃ task w',
    Board.TaskService.create_task created updated data w = (Py.Return task, w') ∧
    Board.TaskService.get_task (Board.id task) w' = (Py.Return (Some task), w') ∧
    Board.id task = Sql.sequence (Board.db w) + 1 ∧
    Board.create_title body = Board.Value (Board.title task) ∧
    Board.description task = Board.optional_field (Board.create_description body) ∧
    match Board.create_status body with
    | Board.Absent => Board.status task = Board.TODO
    | Board.Value v => Board.status_of_value v = Some (Board.status task)
    | Board.Null => False
    end ∧
    Board.created_at task = created ∧
    Board.updated_at task = updated ∧
    (∀ other, other ≠ Board.id task →
       (Board.TaskService.get_task other w').1 = (Board.TaskService.get_task other w).1).
Proof.
  intros Hseq Hleft Hval.
  set (fresh := Board.mkTask 0 (Board.tc_title data) (Board.tc_description data)
                  (Board.tc_status data) created updated).
  exists (Sql.insert fresh (Board.db w)).1,
         (Board.with_db (λ _, (Sql.insert fresh (Board.db w)).2) w).
  assert (Board.create_title body = Board.Value (Board.tc_title data) ∧
          Board.TaskRepository.fits_title (Board.tc_title data) = true ∧
          Board.tc_description data = Board.optional_field (Board.create_description body) ∧
          match Board.create_status body with
          | Board.Absent => Board.tc_status data = Board.TODO
          | Board.Value v => Board.status_of_value v = Some (Board.tc_status data)
          | Board.Null => False
          end) as (Ht & Hwidth & Hd & Hs).
  { unfold Board.validate_TaskCreate in Hval.
    destruct (Board.create_title body) as [| | t]; try done.
    destruct ((1 <=? Z.of_nat (String.length t))
              && (Z.of_nat (String.length t) <=? 200)) eqn:Hok; [| done].
    apply andb_true_iff in Hok as [_ Hok].
    assert (Board.TaskRepository.fits_title t = true) as Hfit
      by (unfold Board.TaskRepository.fits_title; apply Nat.leb_le; lia).
    simpl in Hval.
    destruct (Board.create_status body) as [| | v]; try done.
    - by injection Hval as <-.
    - destruct (Board.status_of_value v) eqn:Hv; [| done]. by injection Hval as <-. }
  split.
  { unfold Board.TaskService.create_task, Board.TaskRepository.create. cbv zeta.
    cbn [Board.title]. by rewrite Hwidth, Hleft. }
  split.
  { unfold Board.TaskService.get_task. rewrite task_get_by_id_eq by exact Hleft.
    cbn [Board.db Board.with_db].
    by rewrite (task_insert_lookup fresh (Board.db w) Hseq). }
  split; [done |].
  split; [exact Ht |]. split; [exact Hd |]. split; [exact Hs |].
  split; [done |]. split; [done |].
  intros other Hother. unfold Board.TaskService.get_task. rewrite !task_get_by_id_cases.
  cbn [Board.db Board.with_db fst].
  by rewrite (task_insert_others fresh (Board.db w) other).
Qed.

(** Past the last INTEGER of the sequence nothing is created. *)
Example create_task_sequence_exhausted :
  Sql.sequence_covers (Board.db exhausted_sequence_world) ∧
  Board.TaskService.create_task 5 6 (Board.mkTaskCreate "New" None Board.TODO)
    exhausted_sequence_world
  = (Py.Raise (Py.DBAPIError "nextval: reached maximum value of sequence"),
     exhausted_sequence_world).
Proof. split; [constructor | reflexivity]. Qed.

Lemma create_task_witness :
  ∃ task w',
    Board.TaskService.create_task 5 6 (Board.mkTaskCreate "New" None Board.TODO)
      one_task_world = (Py.Return task, w') ∧
    Board.TaskService.get_task 2 w' = (Py.Return (Some task), w') ∧
    Board.status task = Board.TODO.
Proof.
  destruct (create_task_then_get_task 5 6
              (Board.mkCreateBody (Board.Value "New") Board.Absent Board.Absent)
              (Board.mkTaskCreate "New" None Board.TODO) one_task_world)
    as (task & w' & Hc & Hg & Hid & _ & _ & Hs & _).
  - apply (bool_decide_unpack _). vm_compute. exact I.
  - reflexivity.
  - vm_compute. reflexivity.
  - exists task, w'. split; [exact Hc |]. split; [| exact Hs].
    rewrite Hid in Hg. exact Hg.
Defined.

(** On a table that respects its primary key a lookup by identifier
    returns: it finds no task or one, never several. *)
Lemma task_lookup_returns task_id w :
  Sql.pk_unique (Board.db w) →
  Sql.is_int32 task_id = true →
  ∃ found, Board.TaskService.get_task task_id w = (Py.Return found, w).
Proof.
  intros Hpk Hfits. unfold Board.TaskService.get_task.
  rewrite task_get_by_id_eq by done.
  destruct (pk_unique_lookup task_id (Sql.rows (Board.db w)) Hpk) as [Hnone | [x Hone]].
  - exists None. f_equal.
    change (List.filter (λ t, Board.id t =? task_id) (Sql.rows (Board.db w)) = [])
      in Hnone. by rewrite Hnone.
  - exists (Some x). f_equal.
    change (List.filter (λ t, Board.id t =? task_id) (Sql.rows (Board.db w)) = [x])
      in Hone. by rewrite Hone.
Qed.

(** The four operations that write tasks keep the table well-formed
    (distinct identifiers, none beyond the sequence), whatever they return
    or raise; so the lookups that follow them, by identifiers within the
    INTEGERs, never meet two rows under one identifier. *)
Theorem task_table_stays_well_formed
    (s : Board.Settings) (peer : string → Board.HttpOutcome)
    (created now task_id : Z) (new_task : Board.TaskCreate) (data : Board.TaskUpdate)
    (new_status : Board.TaskStatus) (w : Board.World) :
  Sql.well_formed (Board.db w) →
  (∀ k, Sql.is_int32 k = true →
        ∃ found, Board.TaskService.get_task k w = (Py.Return found, w)) ∧
  Sql.well_formed (Board.db (Board.TaskService.create_task created now new_task w).2) ∧
  Sql.well_formed (Board.db (Board.TaskService.update_task now task_id data w).2) ∧
  Sql.well_formed
    (Board.db (Board.TaskService.update_task_status now task_id new_status w).2) ∧
  Sql.well_formed (Board.db (Board.TaskService.delete_task s peer task_id w).2).
Proof.
  intros Hwf. split.
  { intros k Hk. apply task_lookup_returns; [apply Hwf | exact Hk]. }
  split.
  { unfold Board.TaskService.create_task, Board.TaskRepository.create. cbv zeta.
    destruct (negb (Board.TaskRepository.fits_title _)); [exact Hwf |].
    destruct (negb (Sql.is_int32 _)); [exact Hwf |].
    apply (insert_well_formed task_pk_with_pk). exact Hwf. }
  unfold Board.TaskService.update_task, Board.TaskService.update_task_status,
    Board.TaskService.delete_task, Py.mbind.
  rewrite task_get_by_id_cases.
  destruct (Sql.is_int32 task_id) eqn:Hfits;
    [| split; [exact Hwf | split; exact Hwf]].
  destruct (task_lookup_returns task_id w (proj1 Hwf) Hfits) as [found Hget].
  unfold Board.TaskService.get_task in Hget.
  rewrite task_get_by_id_eq in Hget by done. injection Hget as ->.
  destruct found as [task |].
  2: { unfold Py.mret. simpl. split; [exact Hwf | split; exact Hwf]. }
  split; [| split].
  - match goal with
    | |- context [Board.TaskRepository.update now ?c w] =>
        pose proof (task_update_frame now c w) as (_ & Hkeep & _);
        destruct (Board.TaskRepository.update now c w) as [[u | e] w']; simpl in *;
        by apply Hkeep
    end.
  - pose proof (task_update_frame now (Board.set_status new_status task) w)
      as (_ & Hkeep & _).
    destruct (Board.TaskRepository.update now _ w) as [[u | e] w']; simpl in *;
      by apply Hkeep.
  - destruct (delete_task_files_returns s peer task_id w) as (w1 & Hfiles & Hdb & _).
    rewrite Hfiles. simpl. rewrite Hdb. by apply delete_well_formed.
Qed.

Lemma task_table_witness :
  Sql.well_formed
    (Board.db (Board.TaskService.create_task 5 6 (Board.mkTaskCreate "New" None Board.TODO)
                 three_tasks_world).2).
Proof.
  apply (task_table_stays_well_formed Board.default_settings (λ _, Board.Responds 200)
           5 6 1 (Board.mkTaskCreate "New" None Board.TODO)
           (Board.mkTaskUpdate None None None) Board.DONE three_tasks_world).
  split; apply (bool_decide_unpack _); vm_compute; exact I.
Defined.

(** ** Board Service: pages of the listing *)








(** Without that condition the pages need not fit: with three tasks
    created at the same time, an engine can list the first task on the
    first page and again on the second, and the third on neither. *)
Example pages_overlap_on_ties :
  (Board.TaskRepository.get_all None 0 2 same_time_world).1
  = Py.Return [Board.mkTask 1 "a" None Board.TODO 10 10;
               Board.mkTask 2 "b" None Board.TODO 10 10]
  ∧ (Board.TaskRepository.get_all None 2 2 same_time_world).1
    = Py.Return [Board.mkTask 1 "a" None Board.TODO 10 10]
  ∧ (Board.TaskRepository.get_all None 0 4 same_time_world).1
    = Py.Return [Board.mkTask 1 "a" None Board.TODO 10 10;
                 Board.mkTask 2 "b" None Board.TODO 10 10;
                 Board.mkTask 3 "c" None Board.TODO 10 10].
Proof. repeat split; vm_compute; reflexivity. Qed.



(** ** Board Service: deliveries of the WebSocket manager *)

Section DictShape.
Context {K V : Type} `{EqDecision K} `{EqDecision V}.

Lemma dict_get_Some_key (k : K) (v : V) (d : list (K * V)) :
  Py.dict_get k d = Some v → k ∈ d.*1.
Proof.
  unfold Py.dict_get. induction d as [|[k0 v0] d IH]; simpl; [done |].
  case_bool_decide; simpl in *.
  - intros _. subst. apply list_elem_of_here.
  - intros Hd. apply list_elem_of_further. by apply IH.
Qed.

Lemma dict_pop_wf (k : K) (d : list (K * V)) :
  Py.dict_wf d → Py.dict_wf (Py.dict_pop k d).
Proof.
  unfold Py.dict_wf, Py.dict_pop. induction d as [|[k0 v0] d IH]; simpl; [done |].
  intros [Hnotin Hnd]%NoDup_cons. destruct (negb _); simpl; [| by apply IH].
  apply NoDup_cons. split; [| by apply IH].
  intros (x & Hx & Hin)%list_elem_of_fmap. apply Hnotin.
  apply list_elem_of_fmap. exists x. split; [done |].
  apply list_elem_of_In. apply list_elem_of_In, List.filter_In in Hin. tauto.
Qed.

Lemma dict_pop_set_fresh (k : K) (v : V) (d : list (K * V)) :
  Py.dict_get k d = None → Py.dict_pop k (Py.dict_set k v d) = d.
Proof.
  unfold Py.dict_get, Py.dict_pop. induction d as [|[k0 v0] d IH]; simpl.
  - intros _. by rewrite bool_decide_eq_true_2.
  - case_bool_decide as Hk; simpl; [done |]. intros Hd.
    destruct (decide (k0 = k)); [done |]. simpl.
    rewrite bool_decide_eq_false_2 by done. simpl. by rewrite IH.
Qed.

(** In a dictionary, the first item that holds a value is the item of its
    key. *)
Lemma find_value_registered (conn : V) (d : list (K * V)) (cid : K) (v : V) :
  Py.dict_wf d →
  List.find (λ kv, bool_decide (kv.2 = conn)) d = Some (cid, v) →
  v = conn ∧ Py.dict_get cid d = Some conn.
Proof.
  unfold Py.dict_wf, Py.dict_get. induction d as [|[k0 v0] d IH]; simpl; [done |].
  intros [Hnotin Hnd]%NoDup_cons. case_bool_decide as Hv; simpl in *.
  - intros [= -> ->]. rewrite bool_decide_eq_true_2 by done. simpl. by subst.
  - intros Hfind. destruct (IH Hnd Hfind) as [-> Hget]. split; [done |].
    case_bool_decide as Hk; simpl; [| done]. subst k0. exfalso. apply Hnotin.
    by eapply dict_get_Some_key.
Qed.

Lemma find_value_none (conn : V) (d : list (K * V)) (cid : K) :
  List.find (λ kv, bool_decide (kv.2 = conn)) d = None →
  Py.dict_get cid d ≠ Some conn.
Proof.
  unfold Py.dict_get. induction d as [|[k0 v0] d IH]; simpl; [done |].
  case_bool_decide as Hv; simpl in *; [done |].
  intros Hfind. case_bool_decide; simpl; [congruence | by apply IH].
Qed.

End DictShape.

(** Dropping one connection, the way the cleanup of [broadcast] does,
    keeps the registry consistent. *)
Lemma forget_consistent conn m :
  registry_consistent m → Py.dict_wf (Board.WebSocketManager.connection_ids m) →
  let m' := Board.WebSocketManager.mkManager
              (Board.WebSocketManager.active_connections m ∖ {[conn]})
              (Board.WebSocketManager.forget_id conn
                 (Board.WebSocketManager.connection_ids m)) in
  registry_consistent m' ∧ Py.dict_wf (Board.WebSocketManager.connection_ids m').
Proof.
  intros Hcons Hwf m'. unfold m', Board.WebSocketManager.forget_id, Py.dict_items.
  destruct (List.find _ _) as [[cid v] |] eqn:Hfind.
  - destruct (find_value_registered conn _ cid v Hwf Hfind) as [-> Hreg]. split.
    + apply (disconnect_consistent willing_peers conn cid m Hcons). by left.
    + by apply dict_pop_wf.
  - split; [| done]. destruct Hcons as [Hone Hback].
    unfold registry_consistent, registered_under in *. simpl.
    assert (conn ∉ Board.WebSocketManager.active_connections m) as Hnot.
    { intros Hin. destruct (Hone conn Hin) as (cid & Hreg & _).
      by eapply find_value_none. }
    split.
    + intros ws [Hws _]%elem_of_difference. by apply Hone.
    + intros cid ws Hreg. apply elem_of_difference. split; [by eapply Hback |].
      rewrite elem_of_singleton. intros ->. apply Hnot. by eapply Hback.
Qed.

Lemma remove_disconnected_consistent disconnected m :
  registry_consistent m → Py.dict_wf (Board.WebSocketManager.connection_ids m) →
  let m' := Board.WebSocketManager.remove_disconnected disconnected m in
  registry_consistent m' ∧
  Py.dict_wf (Board.WebSocketManager.connection_ids m') ∧
  ∀ ws, ws ∈ Board.WebSocketManager.active_connections m'
        ↔ ws ∈ Board.WebSocketManager.active_connections m ∧ ws ∉ disconnected.
Proof.
  revert m. induction disconnected as [|conn rest IH]; intros m Hcons Hwf; simpl.
  - split; [done |]. split; [done |]. intros ws. split.
    + intros Hws. split; [done | apply not_elem_of_nil].
    + by intros [Hws _].
  - destruct (forget_consistent conn m Hcons Hwf) as [Hcons' Hwf'].
    destruct (IH _ Hcons' Hwf') as (Hc & Hw & Hmem).
    split; [exact Hc |]. split; [exact Hw |].
    intros ws. rewrite Hmem. simpl.
    rewrite elem_of_difference, elem_of_singleton, not_elem_of_cons. tauto.
Qed.

(** The delivery loop: it returns the connections whose delivery failed
    with one of the two expected exceptions, in the order of the snapshot,
    unless a delivery raises something else, which ends the loop. *)
Lemma deliver_outcome peers content snapshot acc :
  match Board.WebSocketManager.deliver peers content snapshot acc with
  | Py.Return disconnected =>
      disconnected
      = (acc ++ List.filter
                  (λ c, match Board.WebSocketManager.send_json peers c content with
                        | Py.Return _ => false
                        | Py.Raise _ => true
                        end)
                  snapshot)%list ∧
      ∀ c e, c ∈ snapshot →
             Board.WebSocketManager.send_json peers c content = Py.Raise e →
             Py.is_WebSocketDisconnect_or_RuntimeError e = true
  | Py.Raise e =>
      ∃ c, c ∈ snapshot ∧
           Board.WebSocketManager.send_json peers c content = Py.Raise e ∧
           Py.is_WebSocketDisconnect_or_RuntimeError e = false
  end.
Proof.
  revert acc. induction snapshot as [|c rest IH]; intros acc; simpl.
  - split; [by rewrite app_nil_r |]. intros c e Hin. by apply not_elem_of_nil in Hin.
  - destruct (Board.WebSocketManager.send_json peers c content) as [[] | e] eqn:Hsend.
    + specialize (IH acc).
      destruct (Board.WebSocketManager.deliver peers content rest acc) as [d | e'].
      * destruct IH as [-> Hall].
        split; [done |]. intros c' e' [-> | Hin]%elem_of_cons Hs'; [congruence |].
        by eapply Hall.
      * destruct IH as (c' & Hin & Hs' & He'). exists c'.
        split; [by apply list_elem_of_further | done].
    + destruct (Py.is_WebSocketDisconnect_or_RuntimeError e) eqn:Hclass.
      * specialize (IH (acc ++ [c])%list).
        destruct (Board.WebSocketManager.deliver peers content rest _) as [d | e'].
        -- destruct IH as [-> Hall].
           split; [by rewrite <- app_assoc |].
           intros c' e' [-> | Hin]%elem_of_cons Hs'; [congruence | by eapply Hall].
        -- destruct IH as (c' & Hin & Hs' & He'). exists c'.
           split; [by apply list_elem_of_further | done].
      * exists c. split; [apply list_elem_of_here | done].
Qed.

(** When [broadcast] returns, the registry is still consistent and holds
    exactly the connections that took the message: the message as it
    stands in the heap after the call, timestamp included. *)
Theorem broadcast_removes_failed_connections
    (peers : Board.WebSocketManager.Peers) (now : string)
    (message : Board.WebSocketManager.Loc) (m : Board.WebSocketManager.Manager)
    (heap : gmap Board.WebSocketManager.Loc (gmap string Board.WebSocketManager.Json)) :
  registry_consistent m →
  Py.dict_wf (Board.WebSocketManager.connection_ids m) →
  let result := Board.WebSocketManager.broadcast peers now message (m, heap) in
  let content := default ∅ (result.2.2 !! message) in
  result.1 = Py.Return tt →
  registry_consistent result.2.1 ∧
  Py.dict_wf (Board.WebSocketManager.connection_ids result.2.1) ∧
  ∀ ws, ws ∈ Board.WebSocketManager.active_connections result.2.1
        ↔ ws ∈ Board.WebSocketManager.active_connections m ∧
          Board.WebSocketManager.send_json peers ws content = Py.Return tt.
Proof.
  intros Hcons Hwf result content. subst content result.
  rewrite broadcast_heap. unfold Board.WebSocketManager.broadcast.
  set (sent := default ∅ (alter (Board.WebSocketManager.stamp now) message heap !! message)).
  pose proof (deliver_outcome peers sent
                (elements (Board.WebSocketManager.active_connections m)) []) as Hout.
  destruct (Board.WebSocketManager.deliver _ _ _ _) as [disconnected | e]; [| done].
  intros _. simpl. destruct Hout as [-> _].
  match goal with
  | |- context [Board.WebSocketManager.remove_disconnected ?l m] =>
      destruct (remove_disconnected_consistent l m Hcons Hwf) as (Hc & Hw & Hmem)
  end.
  split; [exact Hc |]. split; [exact Hw |].
  intros ws. rewrite Hmem. split.
  - intros [Hin Hnot]. split; [done |].
    destruct (Board.WebSocketManager.send_json peers ws sent) as [[] | e] eqn:Hs;
      [done |].
    exfalso. apply Hnot. apply list_elem_of_In, List.filter_In. split.
    + by apply list_elem_of_In, elem_of_elements.
    + by rewrite Hs.
  - intros [Hin Hs]. split; [done |].
    intros [_ Hf]%list_elem_of_In%List.filter_In. by rewrite Hs in Hf.
Qed.


Lemma init_consistent : registry_consistent Board.WebSocketManager.init.
Proof.
  split.
  - intros ws Hws. by apply not_elem_of_empty in Hws.
  - intros cid ws Hreg. discriminate Hreg.
Qed.

Lemma two_clients_consistent : registry_consistent two_clients.
Proof.
  unfold two_clients, ws_run. cbn [fold_left].
  apply connect_consistent; [apply connect_consistent; [apply init_consistent |] |].
  - split; [apply (bool_decide_unpack _); vm_compute; exact I | reflexivity].
  - split; [apply (bool_decide_unpack _); vm_compute; exact I | reflexivity].
Defined.

Lemma broadcast_removes_failed_witness :
  registry_consistent
    (Board.WebSocketManager.broadcast first_gone_peers "2024-01-01T12:00:00" 0%nat
       (two_clients, {[0%nat := test_message]})).2.1.
Proof.
  apply (broadcast_removes_failed_connections first_gone_peers "2024-01-01T12:00:00"
           0%nat two_clients {[0%nat := test_message]}).
  - exact two_clients_consistent.
  - apply (bool_decide_unpack _). vm_compute. exact I.
  - vm_compute. reflexivity.
Defined.

Example broadcast_drops_first_client :
  (Board.WebSocketManager.broadcast first_gone_peers "2024-01-01T12:00:00" 0%nat
     (two_clients, {[0%nat := test_message]})).2.1
  = Board.WebSocketManager.mkManager {[2%nat]} [("b", 2%nat)].
Proof. vm_compute. reflexivity. Qed.

(** [broadcast] returns exactly when every delivery that fails does so
    with [WebSocketDisconnect] or [RuntimeError].  An exception of another
    class raised by a delivery leaves [broadcast]; the registry is then as
    it was before the call, the connections that had failed so far
    included. *)
Theorem broadcast_raises_what_it_does_not_expect
    (peers : Board.WebSocketManager.Peers) (now : string)
    (message : Board.WebSocketManager.Loc) (m : Board.WebSocketManager.Manager)
    (heap : gmap Board.WebSocketManager.Loc (gmap string Board.WebSocketManager.Json)) :
  let result := Board.WebSocketManager.broadcast peers now message (m, heap) in
  let content := default ∅ (result.2.2 !! message) in
  (result.1 = Py.Return tt ↔
   ∀ ws e, ws ∈ Board.WebSocketManager.active_connections m →
           Board.WebSocketManager.send_json peers ws content = Py.Raise e →
           Py.is_WebSocketDisconnect_or_RuntimeError e = true) ∧
  (∀ e, result.1 = Py.Raise e →
        result.2.1 = m ∧
        ∃ ws, ws ∈ Board.WebSocketManager.active_connections m ∧
              Board.WebSocketManager.send_json peers ws content = Py.Raise e ∧
              Py.is_WebSocketDisconnect_or_RuntimeError e = false).
Proof.
  intros result content. subst content result.
  rewrite broadcast_heap. unfold Board.WebSocketManager.broadcast.
  set (sent := default ∅ (alter (Board.WebSocketManager.stamp now) message heap !! message)).
  pose proof (deliver_outcome peers sent
                (elements (Board.WebSocketManager.active_connections m)) []) as Hout.
  destruct (Board.WebSocketManager.deliver _ _ _ _) as [disconnected | e0]; simpl.
  - destruct Hout as [_ Hall]. split; [| done]. split; [| done].
    intros _ ws e Hin. apply Hall. by apply elem_of_elements.
  - destruct Hout as (c & Hin & Hs & Hclass). apply elem_of_elements in Hin. split.
    + split; [done |]. intros Hall. specialize (Hall c e0 Hin Hs). congruence.
    + intros e [= <-]. split; [done |]. by exists c.
Qed.

(** ** Board Service: messages to one client *)

(** [send_personal_message] returns [True] exactly when the identifier is
    registered and the delivery went through, and then changes nothing.
    An identifier that is not registered gives [False] and changes nothing.
    A delivery that fails with one of the two expected exceptions gives
    [False] and unregisters the pair.  In every case the registry stays
    consistent. *)
Theorem send_personal_message_outcomes
    (peers : Board.WebSocketManager.Peers)
    (content : gmap string Board.WebSocketManager.Json) (client_id : string)
    (m : Board.WebSocketManager.Manager) :
  registry_consistent m →
  let result := Board.WebSocketManager.send_personal_message peers content client_id m in
  registry_consistent result.2 ∧
  (result.1 = Py.Return true ↔
   ∃ ws, registered_under m client_id ws ∧
         Board.WebSocketManager.send_json peers ws content = Py.Return tt) ∧
  (result.1 = Py.Return true → result.2 = m) ∧
  (Py.dict_get client_id (Board.WebSocketManager.connection_ids m) = None →
   result = (Py.Return false, m)) ∧
  (∀ ws e, registered_under m client_id ws →
           Board.WebSocketManager.send_json peers ws content = Py.Raise e →
           Py.is_WebSocketDisconnect_or_RuntimeError e = true →
           result.1 = Py.Return false ∧
           (ws ∉ Board.WebSocketManager.active_connections result.2) ∧
           Py.dict_get client_id (Board.WebSocketManager.connection_ids result.2) = None).
Proof.
  intros Hcons result. subst result.
  unfold Board.WebSocketManager.send_personal_message, registered_under.
  destruct (Py.dict_get client_id (Board.WebSocketManager.connection_ids m))
    as [ws |] eqn:Hget.
  - destruct (Board.WebSocketManager.send_json peers ws content) as [[] | e] eqn:Hsend.
    + simpl. split; [done |]. split; [split; [by exists ws | done] |].
      split; [done |]. split; [done |]. intros ws' e' [= <-] Hs'. congruence.
    + destruct (Py.is_WebSocketDisconnect_or_RuntimeError e) eqn:Hclass.
      * unfold Py.mbind, Board.WebSocketManager.disconnect, Py.mret. simpl.
        split.
        { apply (disconnect_consistent peers ws client_id m Hcons). by left. }
        split.
        { split; [done |]. intros (ws' & [= <-] & Hs'). congruence. }
        split; [done |]. split; [done |].
        intros ws' e' [= <-] _ _. split; [done |]. split.
        -- rewrite elem_of_difference, elem_of_singleton. tauto.
        -- rewrite dict_get_pop. by case_decide.
      * simpl. split; [done |]. split.
        { split; [done |]. intros (ws' & [= <-] & Hs'). congruence. }
        split; [done |]. split; [done |].
        intros ws' e' [= <-] Hs' Hc'. congruence.
  - simpl. split; [done |]. split.
    { split; [done |]. by intros (ws' & Hreg & _). }
    split; [done |]. split; [done |]. intros ws' e' Hreg. done.
Qed.

Lemma send_personal_message_witness :
  (Board.WebSocketManager.send_personal_message first_gone_peers test_message "a"
     two_clients).1 = Py.Return false
  ∧ Py.dict_get "a"
      (Board.WebSocketManager.connection_ids
         (Board.WebSocketManager.send_personal_message first_gone_peers test_message "a"
            two_clients).2) = None.
Proof.
  destruct (send_personal_message_outcomes first_gone_peers test_message "a" two_clients
              two_clients_consistent) as (_ & _ & _ & _ & Hfail).
  destruct (Hfail 1%nat Py.WebSocketDisconnect) as (Hret & _ & Hgone).
  - reflexivity.
  - reflexivity.
  - reflexivity.
  - split; [exact Hret | exact Hgone].
Defined.

(** ** Board Service: timestamps and pairs *)

Lemma stamp_idempotent now1 now2 (d : gmap string Board.WebSocketManager.Json) :
  Board.WebSocketManager.stamp now2 (Board.WebSocketManager.stamp now1 d)
  = Board.WebSocketManager.stamp now1 d.
Proof.
  unfold Board.WebSocketManager.stamp.
  destruct (decide ("timestamp" ∈ dom d)) as [Hin | Hnot].
  - by rewrite decide_True.
  - rewrite decide_True; [done |]. rewrite dom_insert. set_solver.
Qed.

(** A message that is broadcast again keeps the timestamp of its first
    broadcast: the dictionary is stamped once, whoever the manager and the
    peers are the second time. *)
Theorem rebroadcast_keeps_first_timestamp
    (peers1 peers2 : Board.WebSocketManager.Peers) (now1 now2 : string)
    (message : Board.WebSocketManager.Loc) (m1 m2 : Board.WebSocketManager.Manager)
    (heap : gmap Board.WebSocketManager.Loc (gmap string Board.WebSocketManager.Json))
    (d : gmap string Board.WebSocketManager.Json) :
  heap !! message = Some d →
  d !! "timestamp" = None →
  let heap1 := (Board.WebSocketManager.broadcast peers1 now1 message (m1, heap)).2.2 in
  let heap2 := (Board.WebSocketManager.broadcast peers2 now2 message (m2, heap1)).2.2 in
  heap2 = heap1 ∧
  ∃ d', heap2 !! message = Some d' ∧
        d' !! "timestamp" = Some (Board.WebSocketManager.JStr now1).
Proof.
  intros Hd Hnone heap1 heap2. subst heap2 heap1. rewrite !broadcast_heap.
  assert (alter (Board.WebSocketManager.stamp now2) message
            (alter (Board.WebSocketManager.stamp now1) message heap)
          = alter (Board.WebSocketManager.stamp now1) message heap) as ->.
  { apply map_eq. intros l. destruct (decide (l = message)) as [-> | Hne].
    - rewrite !lookup_alter_eq, Hd. simpl. by rewrite stamp_idempotent.
    - by rewrite !lookup_alter_ne. }
  split; [done |]. rewrite lookup_alter_eq, Hd. simpl. eexists. split; [done |].
  unfold Board.WebSocketManager.stamp. rewrite decide_False.
  - apply lookup_insert_eq.
  - by apply not_elem_of_dom.
Qed.

Lemma rebroadcast_witness :
  ∃ d',
    (Board.WebSocketManager.broadcast willing_peers "2024-01-02T00:00:00" 0%nat
       (two_clients,
        (Board.WebSocketManager.broadcast first_gone_peers "2024-01-01T12:00:00" 0%nat
           (two_clients, {[0%nat := test_message]})).2.2)).2.2 !! 0%nat = Some d' ∧
    d' !! "timestamp" = Some (Board.WebSocketManager.JStr "2024-01-01T12:00:00").
Proof.
  apply (rebroadcast_keeps_first_timestamp first_gone_peers willing_peers
           "2024-01-01T12:00:00" "2024-01-02T00:00:00" 0%nat two_clients two_clients
           {[0%nat := test_message]} test_message).
  - vm_compute. reflexivity.
  - vm_compute. reflexivity.
Defined.

(** Connecting a new websocket under a free identifier and disconnecting
    the same pair gives back the manager as it was; a handshake that fails
    registers nothing. *)
Theorem connect_then_disconnect_restores
    (peers : Board.WebSocketManager.Peers) (ws : Board.WebSocketManager.WebSocket)
    (client_id : string) (m : Board.WebSocketManager.Manager) :
  (ws ∉ Board.WebSocketManager.active_connections m) →
  Py.dict_get client_id (Board.WebSocketManager.connection_ids m) = None →
  (Board.WebSocketManager.accept peers ws = Py.Return tt →
   (Board.WebSocketManager.disconnect ws client_id
      (Board.WebSocketManager.connect peers ws client_id m).2).2 = m ∧
   Board.WebSocketManager.connection_count
     (Board.WebSocketManager.connect peers ws client_id m).2
   = Board.WebSocketManager.connection_count m + 1) ∧
  (∀ e, Board.WebSocketManager.accept peers ws = Py.Raise e →
        Board.WebSocketManager.connect peers ws client_id m = (Py.Raise e, m)).
Proof.
  intros Hfresh Hfree. unfold Board.WebSocketManager.connect,
    Board.WebSocketManager.disconnect, Board.WebSocketManager.connection_count.
  split.
  - intros ->. simpl. split.
    + destruct m as [active ids]. simpl in *. f_equal.
      * apply leibniz_equiv. intros x.
        rewrite elem_of_difference, elem_of_union, !elem_of_singleton.
        split; [tauto |]. intros Hx. split; [by right |]. by intros ->.
      * by apply dict_pop_set_fresh.
    + rewrite size_union, size_singleton by (apply disjoint_singleton_l; done). lia.
  - by intros e ->.
Qed.

Lemma connect_then_disconnect_witness :
  (Board.WebSocketManager.disconnect 3%nat "c"
     (Board.WebSocketManager.connect willing_peers 3%nat "c" two_clients).2).2
  = two_clients.
Proof.
  apply (connect_then_disconnect_restores willing_peers 3%nat "c" two_clients).
  - apply (bool_decide_unpack _). vm_compute. exact I.
  - reflexivity.
  - reflexivity.
Defined.

(** ** File Service: what an upload leaves behind *)

Lemma file_pk_with_pk (k : Z) (f : Files.File) : Sql.pk (Sql.with_pk k f) = k.
Proof. reflexivity. Qed.

Lemma file_filter_absent (k : Z) (l : list Files.File) :
  Forall (λ f, Files.id f ≠ k) l → List.filter (λ f, Files.id f =? k) l = [].
Proof. exact (filter_pk_absent k l). Qed.

Lemma file_insert_lookup (fresh : Files.File) (t : Sql.Table Files.File) :
  Sql.sequence_covers t →
  List.filter (λ x, Files.id x =? Files.id (Sql.insert fresh t).1)
    (Sql.rows (Sql.insert fresh t).2)
  = [(Sql.insert fresh t).1].
Proof. exact (insert_lookup file_pk_with_pk fresh t). Qed.

Lemma existsb_key_absent (key : string) (l : list Files.File) :
  existsb (λ f, String.eqb (Files.file_key f) key) l = false →
  List.filter (λ f, String.eqb (Files.file_key f) key) l = [].
Proof.
  induction l as [|a l IH]; simpl; [done |].
  intros [Ha Hl]%orb_false_iff. rewrite Ha. by apply IH.
Qed.

(** An upload that passes validation, with a store that takes the object,
    a record that the columns of [files] take (the task identifier an
    INTEGER, the name, the key, the content type and the uploader within
    their widths), a sequence that has an INTEGER left and a key that no
    row holds yet: the record returned carries the next identifier, the
    measured size and the declared (or default) content type; it is found
    again under its identifier and under its key; and the download of that
    identifier returns the uploaded bytes with a [Content-Length] that is
    their number. *)
Theorem upload_then_download
    (s : Files.Settings) (client : Files.S3Client) (now : Z) (unique_id : string)
    (upload : Files.UploadFile) (tid : Z) (uploaded_by : option string)
    (w : Files.World) :
  let key := Files.S3Service._generate_file_key unique_id tid (Files.up_filename upload) in
  Sql.sequence_covers (Files.db w) →
  Sql.is_int32 (Sql.sequence (Files.db w) + 1) = true →
  Files.FileRepository.fits_columns
    (Files.mkFile 0 tid (Files.up_filename upload) key
       (Files.FileService.content_type_or_default upload)
       (Py.len (Files.up_content upload)) now uploaded_by) = true →
  Files.FileService._validate_file_extension s (Files.up_filename upload) = true →
  Files.FileService._validate_file_size s (Py.len (Files.up_content upload)) = true →
  Files.put_object_raises client key = None →
  Files.get_object_raises client key = None →
  existsb (λ f, String.eqb (Files.file_key f) key) (Sql.rows (Files.db w)) = false →
  ∃ f w1,
    Files.FileService.upload_file s client now unique_id upload tid uploaded_by w
    = (Py.Return (f, "File uploaded successfully"), w1) ∧
    f = Files.mkFile (Sql.sequence (Files.db w) + 1) tid (Files.up_filename upload) key
          (Files.FileService.content_type_or_default upload)
          (Py.len (Files.up_content upload)) now uploaded_by ∧
    Files.FileService.get_file (Files.id f) w1 = (Py.Return (Some f), w1) ∧
    Files.FileRepository.get_by_key key w1 = (Py.Return (Some f), w1) ∧
    ∃ d w2,
      Files.Api.download_file client (Files.id f) w1 = (Py.Return d, w2) ∧
      Files.Api.dl_body d = Files.up_content upload ∧
      Py.dict_get "Content-Length"
        (FastAPI.headers (Files.Api.download_response (Py.Return d)))
      = Some (pretty (Py.len (Files.Api.dl_body d))).
Proof.
  intros key Hseq Hleft Hfits Hext Hsize Hput Hget Hfree.
  set (record := Files.mkFile 0 tid (Files.up_filename upload) key
                   (Files.FileService.content_type_or_default upload)
                   (Py.len (Files.up_content upload)) now uploaded_by).
  set (w0 := Files.with_objects (insert key (Files.up_content upload))
               (Files.record_call (Files.PutObject key)
                  (Files.record_call Files.ReadUpload w))).
  set (f := (Sql.insert record (Files.db w)).1).
  set (w1 := Files.with_db (λ _, (Sql.insert record (Files.db w)).2) w0).
  assert (Files.FileService.upload_file s client now unique_id upload tid uploaded_by w
          = (Py.Return (f, "File uploaded successfully"), w1)) as Hup.
  { unfold Files.FileService.upload_file. rewrite Hext. simpl.
    unfold Py.mbind at 1. simpl. rewrite Hsize. simpl.
    unfold Py.mbind, Files.S3Service.upload_file, Files.put_object. simpl.
    fold key. rewrite Hput.
    cbv beta iota zeta delta [Py.mbind Py.mret Files.FileRepository.create].
    cbn [Files.id Files.task_id Files.filename Files.file_key Files.content_type
         Files.size_bytes Files.uploaded_by Files.db Files.with_objects
         Files.record_call].
    fold key. rewrite Hfits, Hleft, Hfree. done. }
  assert (List.filter (λ x, Files.id x =? Files.id f) (Sql.rows (Files.db w1)) = [f])
    as Hrow by exact (file_insert_lookup record (Files.db w) Hseq).
  exists f, w1. split; [exact Hup |]. split; [done |]. split.
  { unfold Files.FileService.get_file. rewrite file_get_by_id_eq by exact Hleft.
    by rewrite Hrow. }
  split.
  { unfold Files.FileRepository.get_by_key. cbv zeta. rewrite execute_where.
    cbn [Files.db Files.with_db w1 Sql.insert Sql.rows snd fst].
    rewrite List.filter_app, existsb_key_absent by exact Hfree.
    simpl. by rewrite String.eqb_refl. }
  eexists _, _. split.
  { unfold Files.Api.download_file, Files.FileService.download_file, Py.mbind.
    rewrite file_get_by_id_eq by exact Hleft. rewrite Hrow. simpl.
    unfold Files.S3Service.download_file, Files.get_object. simpl. fold key.
    rewrite Hget. rewrite lookup_insert_eq. reflexivity. }
  split; done.
Qed.

Lemma upload_then_download_witness :
  ∃ f w1,
    Files.FileService.upload_file Files.default_settings Files.healthy_client 7 "u1"
      (Files.mkUploadFile "my notes.txt" None test_content) 1 None empty_files_world
    = (Py.Return (f, "File uploaded successfully"), w1) ∧
    Files.file_key f = "tasks/1/u1_my_notes.txt" ∧
    Files.size_bytes f = 12.
Proof.
  destruct (upload_then_download Files.default_settings Files.healthy_client 7 "u1"
              (Files.mkUploadFile "my notes.txt" None test_content) 1 None
              empty_files_world) as (f & w1 & Hup & Hf & _).
  - apply (bool_decide_unpack _). vm_compute. exact I.
  - reflexivity.
  - vm_compute. reflexivity.
  - vm_compute. reflexivity.
  - vm_compute. reflexivity.
  - reflexivity.
  - reflexivity.
  - reflexivity.
  - exists f, w1. split; [exact Hup |]. rewrite Hf. split; vm_compute; reflexivity.
Defined.

(** A store that refuses the object: the endpoint answers 500, with the
    text of the error after a fixed prefix, and neither a metadata row nor
    an object is left behind. *)
Theorem upload_store_failure_is_500
    (s : Files.Settings) (client : Files.S3Client) (now : Z) (unique_id : string)
    (upload : Files.UploadFile) (tid : Z) (uploaded_by : option string)
    (w : Files.World) (e : Py.Exn) :
  let key := Files.S3Service._generate_file_key unique_id tid (Files.up_filename upload) in
  Files.FileService._validate_file_extension s (Files.up_filename upload) = true →
  Files.FileService._validate_file_size s (Py.len (Files.up_content upload)) = true →
  Files.put_object_raises client key = Some e →
  Py.is_ValueError e = false →
  let result := Files.Api.upload_file s client now unique_id upload tid uploaded_by w in
  result.1 = Py.Raise (Py.HTTPException 500 ("Failed to upload file: " +:+ Py.str_exn e)) ∧
  FastAPI.status_code (FastAPI.respond 201 FastAPI.no_headers result.1) = 500 ∧
  Files.db result.2 = Files.db w ∧
  Files.objects result.2 = Files.objects w.
Proof.
  intros key Hext Hsize Hput Hclass result. subst result.
  assert (Files.FileService.upload_file s client now unique_id upload tid uploaded_by w
          = (Py.Raise e, Files.record_call (Files.PutObject key)
                           (Files.record_call Files.ReadUpload w))) as Hservice.
  { unfold Files.FileService.upload_file. rewrite Hext. simpl.
    unfold Py.mbind at 1. simpl. rewrite Hsize. simpl.
    unfold Py.mbind, Files.S3Service.upload_file, Files.put_object. simpl.
    fold key. by rewrite Hput. }
  unfold Files.Api.upload_file, Py.mtry2, Py.mbind. rewrite Hservice, Hclass. done.
Qed.

Lemma upload_store_failure_witness :
  (Files.Api.upload_file Files.default_settings unreachable_store 7 "u1"
     (Files.mkUploadFile "notes.txt" None test_content) 1 None empty_files_world).1
  = Py.Raise (Py.HTTPException 500
                "Failed to upload file: Could not connect to the endpoint URL").
Proof.
  apply (upload_store_failure_is_500 Files.default_settings unreachable_store 7 "u1"
           (Files.mkUploadFile "notes.txt" None test_content) 1 None empty_files_world
           (Py.EndpointConnectionError "Could not connect to the endpoint URL")).
  - vm_compute. reflexivity.
  - vm_compute. reflexivity.
  - reflexivity.
  - reflexivity.
Defined.

(** ** File Service: identifiers without a row, and listings *)

Lemma file_absent_rows file_id w :
  Sql.is_int32 file_id = true →
  file_id ∉ Files.id <$> Sql.rows (Files.db w) →
  Files.FileRepository.get_by_id file_id w = (Py.Return None, w).
Proof.
  intros Hfits Habsent. rewrite file_get_by_id_eq by done.
  rewrite file_filter_absent; [done |].
  apply Forall_forall. intros f Hf Hid. apply Habsent.
  apply list_elem_of_fmap. by exists f.
Qed.

(** An identifier, within the INTEGERs, that no file carries: the
    metadata lookup and the download return nothing and the deletion
    returns [False], without a single call to the object store; the
    endpoints answer 404. *)
Theorem missing_file_changes_nothing
    (client : Files.S3Client) (file_id : Z) (w : Files.World) :
  Sql.is_int32 file_id = true →
  file_id ∉ Files.id <$> Sql.rows (Files.db w) →
  Files.FileService.get_file file_id w = (Py.Return None, w) ∧
  Files.FileService.download_file client file_id w = (Py.Return None, w) ∧
  Files.FileService.delete_file client file_id w = (Py.Return false, w) ∧
  Files.Api.delete_file client file_id w = (Py.Raise (Files.Api.not_found file_id), w) ∧
  Files.Api.download_file client file_id w = (Py.Raise (Files.Api.not_found file_id), w) ∧
  FastAPI.status_code
    (FastAPI.respond 204 FastAPI.no_headers (Files.Api.delete_file client file_id w).1)
  = 404.
Proof.
  intros Hfits Habsent. pose proof (file_absent_rows _ _ Hfits Habsent) as Hget.
  unfold Files.FileService.get_file, Files.Api.delete_file, Files.Api.download_file,
    Files.FileService.download_file, Files.FileService.delete_file, Py.mbind.
  by rewrite Hget.
Qed.

Lemma missing_file_witness :
  Files.FileService.delete_file unreachable_store 999 sample_file_world
  = (Py.Return false, sample_file_world).
Proof.
  apply (missing_file_changes_nothing unreachable_store 999 sample_file_world).
  - reflexivity.
  - apply (bool_decide_unpack _). vm_compute. exact I.
Defined.

Lemma files_count_eq tid w :
  match tid with Some k => Sql.is_int32 k = true | None => True end →
  Files.FileService.count_files tid w
  = (Py.Return
       (Py.len (List.filter
                  (λ f, match tid with
                        | Some k => Files.task_id f =? k
                        | None => true
                        end) (Sql.rows (Files.db w)))), w).
Proof.
  intros Hfits.
  unfold Files.FileService.count_files, Files.FileRepository.count, Sql.execute_count,
    Sql.refused. cbv zeta.
  destruct tid as [k |];
    cbn [Sql.integer_parameters Sql.where_integer Sql.select Sql.offset_clause
         Sql.limit_clause app forallb Sql.negative];
    rewrite ?Hfits; cbn [andb negb];
    (erewrite List.filter_ext; [reflexivity |]); intros f.
  - exact (matches_where_integer Files.task_id k f).
  - reflexivity.
Qed.

(** For a task identifier within the INTEGERs, the listing of the task
    holds the files of that task, each once and no others, the most
    recently uploaded first; [total] is their number and agrees with
    [count_files] for the task. *)
Theorem files_of_task_listed_newest_first (tid : Z) (w : Files.World) :
  Sql.is_int32 tid = true →
  ∃ listed : list Files.File,
    Files.Api.get_files_by_task tid w
    = (Py.Return (Files.Api.mkFileListResponse listed (Py.len listed)), w) ∧
    listed ≡ₚ List.filter (λ f, Files.task_id f =? tid) (Sql.rows (Files.db w)) ∧
    StronglySorted (λ a b, Files.uploaded_at b ≤ Files.uploaded_at a) listed ∧
    Files.FileService.count_files (Some tid) w = (Py.Return (Py.len listed), w).
Proof.
  intros Hfits.
  destruct (files_get_by_task_id_eq tid w Hfits) as (listed & Hperm & Hsorted & Hget).
  exists listed. split.
  { unfold Files.Api.get_files_by_task, Files.FileService.get_files_by_task, Py.mbind.
    by rewrite (Hget w eq_refl). }
  split; [exact Hperm |]. split; [exact Hsorted |].
  rewrite (files_count_eq (Some tid) w Hfits). unfold Py.len. by rewrite Hperm.
Qed.

Lemma files_of_task_witness :
  ∃ listed : list Files.File,
    Files.Api.get_files_by_task 2 multiple_files_world
    = (Py.Return (Files.Api.mkFileListResponse listed (Py.len listed)),
       multiple_files_world) ∧
    Files.FileService.count_files (Some 2) multiple_files_world
    = (Py.Return (Py.len listed), multiple_files_world).
Proof.
  destruct (files_of_task_listed_newest_first 2 multiple_files_world)
    as (listed & Hlist & _ & _ & Hcount).
  - reflexivity.
  - exists listed. split; [exact Hlist | exact Hcount].
Defined.


(** ** File Service: the constraints of the table *)

Lemma files_filter_ok (p : Files.File → bool) (t : Sql.Table Files.File) :
  files_table_ok t →
  files_table_ok (Sql.mkTable (List.filter p (Sql.rows t)) (Sql.sequence t)
                    (Sql.engine t)).
Proof.
  intros [[Hpk Hseq] Hkeys]. split; [split |]; simpl.
  - by apply pk_filter_NoDup.
  - by apply filter_Forall.
  - clear Hpk Hseq. induction (Sql.rows t) as [|a l IH]; simpl; [done |].
    apply NoDup_cons in Hkeys as [Hnotin Hnd]. destruct (p a); simpl; [| by apply IH].
    apply NoDup_cons. split; [| by apply IH].
    intros (x & Hx & Hin)%list_elem_of_fmap. apply Hnotin.
    apply list_elem_of_fmap. exists x. split; [done |].
    apply list_elem_of_In. apply list_elem_of_In, List.filter_In in Hin. tauto.
Qed.

Lemma existsb_key_not_in (key : string) (l : list Files.File) :
  existsb (λ f, String.eqb (Files.file_key f) key) l = false →
  key ∉ Files.file_key <$> l.
Proof.
  induction l as [|a l IH]; simpl; [intros _; apply not_elem_of_nil |].
  intros [Ha Hl]%orb_false_iff. apply not_elem_of_cons. split; [| by apply IH].
  apply String.eqb_neq in Ha. congruence.
Qed.

(** Whatever it returns or raises, [S3Service.delete_file] leaves the
    metadata alone; so does the loop over the objects of a task. *)
Lemma s3_delete_file_db client key w :
  Files.db (Files.S3Service.delete_file client key w).2 = Files.db w.
Proof.
  unfold Files.S3Service.delete_file, Py.mtry, Py.mbind, Files.delete_object.
  destruct (Files.delete_object_raises client key) as [e |]; simpl; [| done].
  by destruct (Py.is_ClientError e).
Qed.

Lemma s3_delete_loop_db client (fs : list Files.File) w :
  Files.db
    (Py.mfor fs (λ file_record,
       Files.S3Service.delete_file client (Files.file_key file_record) >> Py.mret tt) w).2
  = Files.db w.
Proof.
  revert w. induction fs as [|f fs IH]; intros w; [done |].
  rewrite mfor_cons. unfold Py.mbind at 1.
  pose proof (s3_delete_file_db client (Files.file_key f) w) as Hdb.
  destruct (Files.S3Service.delete_file client (Files.file_key f) w) as [[b | e] w1];
    simpl in *; [| done].
  by rewrite IH.
Qed.

(** The loop of [session.delete] returns and leaves a selection of the
    rows, under the same sequence. *)
Lemma db_delete_loop_table (fs : list Files.File) w :
  ∃ w' keep,
    Py.mfor fs (λ file, Py.mmodify (Files.with_db (Sql.delete file))) w
    = (Py.Return tt, w') ∧
    Files.db w' = Sql.mkTable (List.filter keep (Sql.rows (Files.db w)))
                    (Sql.sequence (Files.db w)) (Sql.engine (Files.db w)).
Proof.
  revert w. induction fs as [|f fs IH]; intros w.
  - exists w, (λ _, true). split; [done |]. simpl.
    destruct (Files.db w) as [rows seq eng]. simpl. f_equal.
    induction rows; simpl; congruence.
  - destruct (IH (Files.with_db (Sql.delete f) w)) as (w' & keep & Hloop & Hdb).
    exists w', (λ x, negb (Files.id x =? Files.id f) && keep x).
    rewrite mfor_cons. unfold Py.mmodify at 1. cbv beta iota.
    split; [exact Hloop |]. rewrite Hdb. simpl. f_equal.
    induction (Sql.rows (Files.db w)) as [|x l IHl]; simpl; [done |].
    destruct (Files.id x =? Files.id f); simpl; [exact IHl |].
    destruct (keep x); by rewrite IHl.
Qed.

(** Upload, deletion and deletion by task keep the table within its
    constraints, whatever the store does and whatever they return or
    raise. *)
Theorem files_table_stays_ok
    (s : Files.Settings) (client : Files.S3Client) (now : Z) (unique_id : string)
    (upload : Files.UploadFile) (tid file_id : Z) (uploaded_by : option string)
    (w : Files.World) :
  files_table_ok (Files.db w) →
  files_table_ok
    (Files.db (Files.FileService.upload_file s client now unique_id upload tid
                 uploaded_by w).2) ∧
  files_table_ok (Files.db (Files.FileService.delete_file client file_id w).2) ∧
  files_table_ok (Files.db (Files.FileService.delete_files_by_task client tid w).2).
Proof.
  intros Hok. split; [| split].
  - unfold Files.FileService.upload_file.
    destruct (negb (Files.FileService._validate_file_extension _ _)); [done |].
    unfold Py.mbind at 1. simpl.
    destruct (negb (Files.FileService._validate_file_size _ _)); [done |].
    unfold Py.mbind, Files.S3Service.upload_file, Files.put_object. simpl.
    destruct (Files.put_object_raises client _); [done |]. simpl.
    unfold Files.FileRepository.create. cbv zeta.
    destruct (negb (Files.FileRepository.fits_columns _)); [done |].
    destruct (negb (Sql.is_int32 _)); [done |].
    destruct (existsb _ _) eqn:Hkey; simpl.
    + destruct Hok as [[Hpk Hseq] Hkeys]. split; [split |]; try done.
      unfold Sql.sequence_covers in *. simpl.
      eapply Forall_impl; [exact Hseq |]. simpl. intros; lia.
    + destruct Hok as [Hwf Hkeys]. split.
      * exact (insert_well_formed file_pk_with_pk
                 (Files.mkFile 0 tid (Files.up_filename upload)
                    (Files.S3Service._generate_file_key unique_id tid
                       (Files.up_filename upload))
                    (Files.FileService.content_type_or_default upload)
                    (Py.len (Files.up_content upload)) now uploaded_by)
                 (Files.db w) Hwf).
      * simpl. rewrite fmap_app. apply NoDup_app. split; [done |]. split.
        -- intros k Hk. simpl. rewrite list_elem_of_singleton. intros ->.
           by apply (existsb_key_not_in _ _ Hkey).
        -- simpl. apply NoDup_singleton.
  - unfold Files.FileService.delete_file, Py.mbind at 1.
    rewrite file_get_by_id_cases.
    destruct (Sql.is_int32 file_id); [| done].
    destruct (Sql.scalar_one_or_none _) as [[f |] | e]; try done.
    unfold Py.mbind at 1.
    pose proof (s3_delete_file_db client (Files.file_key f) w) as Hdb.
    destruct (Files.S3Service.delete_file client (Files.file_key f) w) as [[b | e] w1];
      simpl in *; rewrite Hdb; [| done].
    by apply files_filter_ok.
  - destruct (Sql.is_int32 tid) eqn:Hfits.
    2: { unfold Files.FileService.delete_files_by_task, Py.mbind at 1.
         by rewrite files_get_by_task_id_refused. }
    destruct (files_get_by_task_id_eq tid w Hfits) as (fs & _ & _ & Hget).
    unfold Files.FileService.delete_files_by_task, Py.mbind at 1.
    rewrite (Hget w eq_refl). unfold Py.mbind at 1.
    match goal with
    | |- context [Py.mfor fs ?body w] =>
        pose proof (s3_delete_loop_db client fs w) as Hdb;
        destruct (Py.mfor fs body w) as [[u | e] w1]
    end; simpl in *; [| by rewrite Hdb].
    unfold Py.mbind at 1, Files.FileRepository.delete_by_task_id, Py.mbind at 1.
    rewrite (Hget w1 Hdb). unfold Py.mbind at 1.
    destruct (db_delete_loop_table fs w1) as (w2 & keep & Hloop & Hrows).
    rewrite Hloop. simpl. rewrite Hrows, Hdb. by apply files_filter_ok.
Qed.

Lemma files_table_witness :
  files_table_ok
    (Files.db (Files.FileService.delete_files_by_task unreachable_store 1
                 multiple_files_world).2).
Proof.
  apply (files_table_stays_ok Files.default_settings unreachable_store 0 "u1"
           (Files.mkUploadFile "a.txt" None []) 1 1 None multiple_files_world).
  split; [split |]; apply (bool_decide_unpack _); vm_compute; exact I.
Defined.

(** ** Identifiers beyond the INTEGERs *)

(** An identifier that is no INTEGER (2147483648, say) is refused by the
    lookup itself, whatever the rows: the operations by identifier of both
    services raise, and change nothing; the endpoints that do not catch
    the exception answer 500, not 404. *)
Theorem identifier_beyond_integer_is_refused
    (s : Board.Settings) (peer : string → Board.HttpOutcome) (now : Z)
    (data : Board.TaskUpdate) (new_status : Board.TaskStatus)
    (client : Files.S3Client) (k : Z) (bw : Board.World) (fw : Files.World) :
  Sql.is_int32 k = false →
  ∃ msg,
    let e := Py.DBAPIError msg in
    Board.TaskService.get_task k bw = (Py.Raise e, bw) ∧
    Board.TaskService.update_task now k data bw = (Py.Raise e, bw) ∧
    Board.TaskService.update_task_status now k new_status bw = (Py.Raise e, bw) ∧
    Board.TaskService.delete_task s peer k bw = (Py.Raise e, bw) ∧
    Files.FileService.get_file k fw = (Py.Raise e, fw) ∧
    Files.Api.download_file client k fw = (Py.Raise e, fw) ∧
    Files.Api.delete_file client k fw = (Py.Raise e, fw) ∧
    Files.Api.get_files_by_task k fw = (Py.Raise e, fw) ∧
    Files.FileService.count_files (Some k) fw = (Py.Raise e, fw) ∧
    Files.Api.delete_files_by_task client k fw = (Py.Raise e, fw) ∧
    FastAPI.status_code
      (FastAPI.respond 204 FastAPI.no_headers (Files.Api.delete_file client k fw).1)
    = 500.
Proof.
  intros Hfits. exists "value out of int32 range". cbv zeta.
  assert (Board.TaskRepository.get_by_id k bw
          = (Py.Raise (Py.DBAPIError "value out of int32 range"), bw)) as Htask
    by (by rewrite task_get_by_id_cases, Hfits).
  assert (Files.FileRepository.get_by_id k fw
          = (Py.Raise (Py.DBAPIError "value out of int32 range"), fw)) as Hfile
    by (by rewrite file_get_by_id_cases, Hfits).
  pose proof (files_get_by_task_id_refused k fw Hfits) as Hlist.
  assert (Files.Api.delete_file client k fw
          = (Py.Raise (Py.DBAPIError "value out of int32 range"), fw)) as Hdel.
  { unfold Files.Api.delete_file, Files.FileService.delete_file, Py.mbind.
    by rewrite Hfile. }
  unfold Board.TaskService.get_task, Board.TaskService.update_task,
    Board.TaskService.update_task_status, Board.TaskService.delete_task,
    Files.FileService.get_file, Files.Api.download_file,
    Files.FileService.download_file, Files.Api.get_files_by_task,
    Files.FileService.get_files_by_task, Files.Api.delete_files_by_task,
    Files.FileService.delete_files_by_task, Py.mbind.
  rewrite Htask, Hfile, Hlist, Hdel.
  repeat split.
  unfold Files.FileService.count_files, Files.FileRepository.count, Sql.execute_count,
    Sql.refused.
  cbn [Sql.integer_parameters Sql.where_integer Sql.select app forallb].
  by rewrite Hfits.
Qed.

Lemma identifier_beyond_integer_witness :
  Board.TaskService.get_task 2147483648 one_task_world
  = (Py.Raise (Py.DBAPIError "value out of int32 range"), one_task_world)
  ∧ Files.Api.delete_file Files.healthy_client 2147483648 sample_file_world
    = (Py.Raise (Py.DBAPIError "value out of int32 range"), sample_file_world).
Proof.
  destruct (identifier_beyond_integer_is_refused Board.default_settings
              (λ _, Board.Responds 200) 0 (Board.mkTaskUpdate None None None)
              Board.TODO Files.healthy_client 2147483648 one_task_world
              sample_file_world eq_refl)
    as (msg & Hget & _ & _ & _ & _ & _ & Hdel & _).
  assert (msg = "value out of int32 range") as ->.
  { vm_compute in Hget. by injection Hget as <-. }
  split; [exact Hget | exact Hdel].
Defined.

(** ** File Service: counting *)

Lemma filter_all {A} (l : list A) : List.filter (λ _, true) l = l.
Proof. induction l; simpl; congruence. Qed.

(** The books balance after a deletion by task, for a task identifier
    within the INTEGERs: the number returned is what [count_files] gave
    for the task before, [count_files] gives 0 for the task afterwards,
    and the count of all files has dropped by exactly the number
    returned. *)
Theorem delete_files_by_task_accounting
    (client : Files.S3Client) (tid : Z) (w : Files.World) :
  Sql.pk_unique (Files.db w) →
  Sql.is_int32 tid = true →
  (∀ f e, In f (Sql.rows (Files.db w)) → Files.task_id f = tid →
          Files.delete_object_raises client (Files.file_key f) = Some e →
          Py.is_ClientError e = true) →
  ∃ (n total : Z) (w' : Files.World),
    Files.FileService.delete_files_by_task client tid w = (Py.Return n, w') ∧
    Files.FileService.count_files (Some tid) w = (Py.Return n, w) ∧
    Files.FileService.count_files (Some tid) w' = (Py.Return 0, w') ∧
    Files.FileService.count_files None w = (Py.Return total, w) ∧
    Files.FileService.count_files None w' = (Py.Return (total - n), w').
Proof.
  intros Hpk Hfits Hclient.
  destruct (delete_files_by_task_rows client tid w Hpk Hfits Hclient)
    as (w' & Hdel & Hrows & _).
  eexists _, _, w'. split; [exact Hdel |].
  split; [by apply (files_count_eq (Some tid)) |].
  rewrite (files_count_eq (Some tid) w' Hfits), !(files_count_eq None) by done.
  rewrite Hrows.
  split; [| split; [reflexivity |]].
  - rewrite filter_task_off_task, Z.eqb_refl. reflexivity.
  - rewrite !filter_all. unfold Py.len.
    pose proof (List.filter_length (λ f, Files.task_id f =? tid) (Sql.rows (Files.db w)))
      as Hlen.
    cbv beta in Hlen.
    rewrite <- Hlen, Nat2Z.inj_add.
    do 2 f_equal. ring.
Qed.

Lemma delete_files_by_task_accounting_witness :
  ∃ (n total : Z) (w' : Files.World),
    Files.FileService.delete_files_by_task refusing_store 1 multiple_files_world
    = (Py.Return n, w') ∧
    Files.FileService.count_files None multiple_files_world
    = (Py.Return total, multiple_files_world) ∧
    Files.FileService.count_files None w' = (Py.Return (total - n), w').
Proof.
  destruct (delete_files_by_task_accounting refusing_store 1 multiple_files_world)
    as (n & total & w' & Hdel & _ & _ & Hbefore & Hafter).
  - apply (bool_decide_unpack _). vm_compute. exact I.
  - reflexivity.
  - intros f e _ _ [= <-]. reflexivity.
  - exists n, total, w'. split; [exact Hdel |]. split; [exact Hbefore | exact Hafter].
Defined.

(** ** File Service: object keys *)

Lemma string_length_append (a b : string) :
  String.length (a +:+ b) = (String.length a + String.length b)%nat.
Proof. induction a as [|c a IH]; simpl; [done | by rewrite IH]. Qed.

Lemma string_append_inv_head (s a b : string) : s +:+ a = s +:+ b → a = b.
Proof. induction s as [|c s IH]; simpl; [done |]. intros [= Heq]. by apply IH. Qed.

Lemma string_append_inv_tail (a b s : string) : a +:+ s = b +:+ s → a = b.
Proof.
  revert b. induction a as [|c a IH]; intros [|c' b]; simpl; try done.
  - intros Heq. apply (f_equal String.length) in Heq.
    rewrite ?string_length_append in Heq. simpl in Heq.
    rewrite ?string_length_append in Heq. lia.
  - intros Heq. apply (f_equal String.length) in Heq.
    rewrite ?string_length_append in Heq. simpl in Heq.
    rewrite ?string_length_append in Heq. lia.
  - intros [= -> Heq]. f_equal. by apply IH.
Qed.

Lemma replace_spaces_no_space (s : string) :
  Py.contains " " (Files.S3Service.replace_spaces s) = false.
Proof.
  induction s as [|c s IH]; simpl; [done |]. rewrite IH, orb_false_r.
  destruct (Ascii.eqb c " ") eqn:Hc; [done | exact Hc].
Qed.

(** The key of an object begins with the directory of its task, and for
    one task and one filename it is a different key for every different
    unique identifier; the part taken from the filename has the length of
    the filename and no space in it. *)
Theorem file_key_follows_unique_id
    (unique_id other_id : string) (tid : Z) (filename : string) :
  (Files.S3Service._generate_file_key unique_id tid filename
   = Files.S3Service._generate_file_key other_id tid filename →
   unique_id = other_id) ∧
  (∃ safe,
     Files.S3Service._generate_file_key unique_id tid filename
     = "tasks/" +:+ pretty tid +:+ "/" +:+ unique_id +:+ "_" +:+ safe ∧
     String.length safe = String.length filename ∧
     Py.contains " " safe = false).
Proof.
  unfold Files.S3Service._generate_file_key. split.
  - intros Heq. do 3 apply string_append_inv_head in Heq.
    by apply string_append_inv_tail in Heq.
  - eexists. split; [reflexivity |]. split; [| apply replace_spaces_no_space].
    induction filename as [|c s IH]; simpl; [done | by rewrite IH].
Qed.

(** ** File Service: which names the extension check accepts *)

Lemma lower_ascii_eqb_dot a : Ascii.eqb (Py.lower_ascii a) "." = Ascii.eqb a ".".
Proof. destruct a as [[] [] [] [] [] [] [] []]; vm_compute; reflexivity. Qed.

Lemma lower_ascii_eqb_sep a : Ascii.eqb (Py.lower_ascii a) "/" = Ascii.eqb a "/".
Proof. destruct a as [[] [] [] [] [] [] [] []]; vm_compute; reflexivity. Qed.

Lemma lower_ascii_not_upper a : is_upper_ascii (Py.lower_ascii a) = false.
Proof. destruct a as [[] [] [] [] [] [] [] []]; vm_compute; reflexivity. Qed.

Lemma lower_ascii_idem a : Py.lower_ascii (Py.lower_ascii a) = Py.lower_ascii a.
Proof. destruct a as [[] [] [] [] [] [] [] []]; vm_compute; reflexivity. Qed.

Lemma lower_idem s : Py.lower (Py.lower s) = Py.lower s.
Proof. induction s as [|a s IH]; simpl; [done |]. by rewrite lower_ascii_idem, IH. Qed.

Lemma has_upper_lower s : has_upper (Py.lower s) = false.
Proof.
  induction s as [|a s IH]; [done |].
  cbn [Py.lower has_upper]. by rewrite lower_ascii_not_upper, IH.
Qed.

Section LowerKeeps.
Variable c : ascii.
Hypothesis lower_keeps : ∀ a, Ascii.eqb (Py.lower_ascii a) c = Ascii.eqb a c.

Lemma contains_lower s : Py.contains c (Py.lower s) = Py.contains c s.
Proof.
  induction s as [|a s IH]; [done |].
  cbn [Py.lower Py.contains]. by rewrite lower_keeps, IH.
Qed.

Lemma rfind_from_lower s i last :
  Py.rfind_from c (Py.lower s) i last = Py.rfind_from c s i last.
Proof.
  revert i last. induction s as [|a s IH]; intros i last; [done |].
  cbn [Py.lower Py.rfind_from]. by rewrite lower_keeps, IH.
Qed.

End LowerKeeps.

(** The last occurrence of a character: either there is none, or the
    index found is where the rest of the string starts with the character
    and holds it nowhere else. *)
Lemma rfind_from_last c s i last :
  (Py.contains c s = false ∧ Py.rfind_from c s i last = last) ∨
  (∃ (k : nat) rest,
     Py.rfind_from c s i last = i + Z.of_nat k ∧
     Py.drop_string k s = String c rest ∧ Py.contains c rest = false).
Proof.
  revert i last. induction s as [|a s IH]; intros i last; simpl.
  - by left.
  - destruct (IH (i + 1) (if Ascii.eqb a c then i else last))
      as [[Hc Heq] | (k & rest & Heq & Hdrop & Hrest)].
    + destruct (Ascii.eqb a c) eqn:Ha.
      * right. exists 0%nat, s. apply Ascii.eqb_eq in Ha as ->.
        rewrite Heq. split; [lia | done].
      * left. by rewrite Hc.
    + right. exists (S k), rest. rewrite Heq. split; [lia | done].
Qed.

Lemma drop_string_empty k : Py.drop_string k EmptyString = EmptyString.
Proof. by destruct k. Qed.

Lemma drop_string_add a b s :
  Py.drop_string (a + b) s = Py.drop_string b (Py.drop_string a s).
Proof.
  revert s. induction a as [|a IH]; intros s; [done |].
  destruct s as [|x s]; simpl; [by rewrite drop_string_empty | apply IH].
Qed.

Lemma contains_drop c s k :
  Py.contains c s = false → Py.contains c (Py.drop_string k s) = false.
Proof.
  revert s. induction k as [|k IH]; intros s Hc; [done |].
  destruct s as [|x s]; [done |]. simpl in *.
  apply orb_false_iff in Hc as [_ Hc]. by apply IH.
Qed.

Lemma splitext_loop_some p dotIndex n filenameIndex r :
  Py.splitext_loop p dotIndex n filenameIndex = Some r →
  r = (Py.slice_to p dotIndex, Py.slice_from p dotIndex).
Proof.
  revert filenameIndex. induction n as [|n IH]; intros i; simpl; [done |].
  destruct (i <? dotIndex); [| done].
  destruct (negb _); [by intros [= <-] | apply IH].
Qed.

(** The extension [os.path.splitext] cuts off is empty, or it is the last
    dot of the path with what follows it, in which there is no dot and no
    separator. *)
Lemma splitext_extension p :
  (Py.splitext p).2 = EmptyString ∨
  ∃ rest, (Py.splitext p).2 = String "." rest ∧
          Py.contains "." rest = false ∧ Py.contains "/" rest = false.
Proof.
  unfold Py.splitext. cbv zeta.
  destruct (Py.rfind p "." >? Py.rfind p "/") eqn:Hgt; [| left; apply slice_to_0].
  destruct (Py.splitext_loop _ _ _ _) as [r|] eqn:Hloop; [| left; apply slice_to_0].
  apply splitext_loop_some in Hloop as ->. right.
  unfold Py.rfind in *. cbn [snd]. unfold Py.slice_from.
  destruct (rfind_from_last "." p 0 (-1))
    as [[_ Hdot] | (k & rest & Hdot & Hdrop & Hrest)].
  - destruct (rfind_from_range "/" p 0 (-1)); lia.
  - exists rest. rewrite Hdot.
    replace (Z.to_nat (0 + Z.of_nat k)) with k by lia.
    split; [done |]. split; [done |].
    destruct (rfind_from_last "/" p 0 (-1))
      as [[Hno _] | (k' & rest' & Hsep & Hdrop' & Hrest')].
    + pose proof (contains_drop "/" p k Hno) as Hk. by rewrite Hdrop in Hk.
    + rewrite Hdot, Hsep in Hgt.
      assert (k = k' + (1 + (k - k' - 1)))%nat as Hsum by lia.
      rewrite Hsum, drop_string_add, Hdrop' in Hdrop. simpl in Hdrop.
      pose proof (contains_drop "/" rest' (k - k' - 1) Hrest') as Hk.
      by rewrite Hdrop in Hk.
Qed.

(** An accepted name is accepted through an entry of the allow-list that
    is the lower-cased extension of the name, and such an entry is empty
    or a dot followed by no further dot, no separator and no upper-case
    letter: entries of any other form (written without the dot, in upper
    case, as a pattern, with two dots) are never the reason a file is
    accepted. *)
Theorem extension_check_matches_reachable_entry (s : Files.Settings) (name : string) :
  Files.FileService._validate_file_extension s name = true →
  ∃ e, e ∈ Files.allowed_extensions s ∧
       e = Py.lower (Py.splitext name).2 ∧
       reachable_extension e = true.
Proof.
  unfold Files.FileService._validate_file_extension. cbv zeta.
  intros Hin%bool_decide_eq_true. eexists. split; [exact Hin |].
  split; [reflexivity |].
  destruct (splitext_extension name) as [-> | (rest & -> & Hdot & Hsep)]; [done |].
  cbn [Py.lower reachable_extension].
  rewrite lower_ascii_eqb_dot, (contains_lower _ lower_ascii_eqb_dot),
    (contains_lower _ lower_ascii_eqb_sep), Hdot, Hsep, has_upper_lower.
  reflexivity.
Qed.

Lemma extension_check_witness :
  ∃ e, e ∈ Files.allowed_extensions Files.default_settings ∧
       e = Py.lower (Py.splitext "report.final.PDF").2 ∧
       reachable_extension e = true.
Proof.
  apply (extension_check_matches_reachable_entry Files.default_settings "report.final.PDF").
  vm_compute. reflexivity.
Defined.

(** With an allow-list none of whose entries has that form, every upload
    is refused: the service raises the extension error before it reads
    the stream, and the endpoint answers 400, whatever the file. *)
Theorem unreachable_allow_list_refuses_every_upload
    (s : Files.Settings) (client : Files.S3Client) (now : Z) (unique_id : string)
    (upload : Files.UploadFile) (tid : Z) (uploaded_by : option string)
    (w : Files.World) :
  Forall (λ e, reachable_extension e = false) (Files.allowed_extensions s) →
  Files.Api.upload_file s client now unique_id upload tid uploaded_by w
  = (Py.Raise (Py.HTTPException 400 (Files.FileService.extension_error s)), w).
Proof.
  intros Hall. apply api_upload_value_error, upload_bad_extension.
  destruct (Files.FileService._validate_file_extension s (Files.up_filename upload))
    eqn:Hext; [| done].
  unfold Files.FileService._validate_file_extension in Hext. cbv zeta in Hext.
  apply bool_decide_eq_true in Hext.
  rewrite Forall_forall in Hall. apply Hall in Hext.
  destruct (splitext_extension (Files.up_filename upload))
    as [Heq | (rest & Heq & Hdot & Hsep)]; rewrite Heq in Hext; [done |].
  cbn [Py.lower reachable_extension] in Hext.
  rewrite lower_ascii_eqb_dot, (contains_lower _ lower_ascii_eqb_dot),
    (contains_lower _ lower_ascii_eqb_sep), Hdot, Hsep, has_upper_lower in Hext.
  done.
Qed.

Lemma unreachable_allow_list_witness :
  Files.Api.upload_file dotless_settings unreachable_store 0 "uuid"
    (Files.mkUploadFile "notes.pdf" (Some "application/pdf") test_content) 1 None
    empty_files_world
  = (Py.Raise (Py.HTTPException 400 (Files.FileService.extension_error dotless_settings)),
     empty_files_world).
Proof.
  apply unreachable_allow_list_refuses_every_upload.
  repeat constructor.
Defined.

Lemma get_lower n s : String.get n (Py.lower s) = Py.lower_ascii <$> String.get n s.
Proof.
  revert n. induction s as [|a s IH]; intros n; [done |].
  destruct n as [|n]; [done | apply IH].
Qed.

Lemma slice_one_lower p i :
  String.eqb (Py.slice_one (Py.lower p) i) "." = String.eqb (Py.slice_one p i) ".".
Proof.
  unfold Py.slice_one. rewrite get_lower.
  destruct (String.get _ p) as [a|]; [| done]. simpl.
  by rewrite lower_ascii_eqb_dot.
Qed.

Lemma slice_to_lower p k : Py.slice_to (Py.lower p) k = Py.lower (Py.slice_to p k).
Proof.
  unfold Py.slice_to. generalize (Z.to_nat k) as n. intros n. revert p.
  induction n as [|n IH]; intros p; [by destruct p |].
  destruct p as [|a p]; [done |]. simpl. by rewrite IH.
Qed.

Lemma slice_from_lower p k : Py.slice_from (Py.lower p) k = Py.lower (Py.slice_from p k).
Proof.
  unfold Py.slice_from. generalize (Z.to_nat k) as n. intros n. revert p.
  induction n as [|n IH]; intros p; [done |].
  destruct p as [|a p]; [done | apply IH].
Qed.

Lemma splitext_loop_lower p dotIndex n filenameIndex :
  Py.splitext_loop (Py.lower p) dotIndex n filenameIndex
  = (λ r, (Py.lower r.1, Py.lower r.2)) <$> Py.splitext_loop p dotIndex n filenameIndex.
Proof.
  revert filenameIndex. induction n as [|n IH]; intros i; simpl; [done |].
  destruct (i <? dotIndex); [| done]. rewrite slice_one_lower.
  destruct (negb _); [| apply IH].
  simpl. by rewrite slice_to_lower, slice_from_lower.
Qed.

Lemma splitext_lower p :
  Py.splitext (Py.lower p) = (Py.lower (Py.splitext p).1, Py.lower (Py.splitext p).2).
Proof.
  unfold Py.splitext, Py.rfind. cbv zeta.
  rewrite !(rfind_from_lower _ lower_ascii_eqb_dot),
    !(rfind_from_lower _ lower_ascii_eqb_sep).
  destruct (_ >? _).
  - rewrite splitext_loop_lower. destruct (Py.splitext_loop p _ _ _) as [r|]; simpl.
    + done.
    + by rewrite !slice_to_0.
  - by rewrite !slice_to_0.
Qed.

(** The extension check does not look at the case of the name, on the
    ASCII range: a name and the same name in lower case are accepted or
    refused alike, whatever the allow-list. *)
Theorem extension_check_ignores_case (s : Files.Settings) (name : string) :
  Files.FileService._validate_file_extension s (Py.lower name)
  = Files.FileService._validate_file_extension s name.
Proof.
  unfold Files.FileService._validate_file_extension. cbv zeta.
  rewrite splitext_lower. cbn [snd]. by rewrite lower_idem.
Qed.

(** ** File Service: the allow-list given as text *)

Lemma split_on_length c s : length (Py.split_on c s) = S (Py.count_char c s).
Proof.
  induction s as [|a s IH]; [done |]. simpl.
  destruct (Ascii.eqb a c); simpl; [by rewrite IH |].
  destruct (Py.split_on c s); [done | exact IH].
Qed.

Lemma split_on_pieces c s : Forall (λ e, Py.contains c e = false) (Py.split_on c s).
Proof.
  induction s as [|a s IH]; simpl; [by constructor |].
  destruct (Ascii.eqb a c) eqn:Ha; [by constructor |].
  destruct (Py.split_on c s) as [|first rest].
  - constructor; [| done]. simpl. by rewrite Ha.
  - inversion_clear IH as [|? ? Hfirst Hrest]. constructor; [| done].
    simpl. by rewrite Ha.
Qed.

Lemma contains_lstrip c s : Py.contains c s = false → Py.contains c (Py.lstrip s) = false.
Proof.
  induction s as [|a s IH]; [done |]. intros Hc. simpl.
  destruct (Py.is_space a); [| done].
  simpl in Hc. apply orb_false_iff in Hc as [_ Hc]. by apply IH.
Qed.

Lemma contains_rstrip c s : Py.contains c s = false → Py.contains c (Py.rstrip s) = false.
Proof.
  induction s as [|a s IH]; [done |]. intros Hc. simpl in Hc.
  apply orb_false_iff in Hc as [Ha Hc]. specialize (IH Hc). simpl.
  destruct (Py.rstrip s) as [|b r].
  - destruct (Py.is_space a); [done |]. simpl. by rewrite Ha.
  - change (Py.contains c (String a (String b r)))
      with (Ascii.eqb a c || Py.contains c (String b r)).
    by rewrite Ha, IH.
Qed.

Lemma lstrip_head s :
  Py.lstrip s = EmptyString ∨ ∃ a r, Py.lstrip s = String a r ∧ Py.is_space a = false.
Proof.
  induction s as [|a s IH]; simpl; [by left |].
  destruct (Py.is_space a) eqn:Ha; [done | right; eauto].
Qed.

Lemma rstrip_head a s :
  Py.rstrip (String a s) = EmptyString ∨ ∃ r, Py.rstrip (String a s) = String a r.
Proof.
  simpl. destruct (Py.rstrip s); [destruct (Py.is_space a) |]; eauto.
Qed.

Lemma rstrip_idem s : Py.rstrip (Py.rstrip s) = Py.rstrip s.
Proof.
  induction s as [|a s IH]; [done |]. simpl.
  destruct (Py.rstrip s) as [|b r] eqn:Hr.
  - destruct (Py.is_space a) eqn:Ha; [done |]. simpl. by rewrite Ha.
  - change (Py.rstrip (String a (String b r)))
      with (match Py.rstrip (String b r) with
            | EmptyString =>
                if Py.is_space a then EmptyString else String a EmptyString
            | r0 => String a r0
            end).
    by rewrite IH.
Qed.

Lemma strip_idem s : Py.strip (Py.strip s) = Py.strip s.
Proof.
  unfold Py.strip.
  assert (Py.lstrip (Py.rstrip (Py.lstrip s)) = Py.rstrip (Py.lstrip s)) as ->.
  { destruct (lstrip_head s) as [-> | (a & r & -> & Ha)]; [done |].
    destruct (rstrip_head a r) as [-> | [r' ->]]; [done |].
    simpl. by rewrite Ha. }
  apply rstrip_idem.
Qed.

(** The validator [parse_allowed_extensions], called on a [str] that does
    not open a bracket, hands nothing to the JSON parser and raises
    nothing: it returns one entry more than the text has commas, so never
    an empty list, and every entry is free of commas and of surrounding
    white space.  This is the validator as a function, as it runs on a
    value given to [Settings(allowed_extensions=...)]; what the settings
    loader does with a text of the environment before the validator runs
    is not part of it. *)
Theorem comma_separated_allow_list
    (json_loads : string → Py.Result (list string)) (text : string) :
  Py.startswith text "[" = false →
  ∃ exts,
    Files.parse_allowed_extensions json_loads (inl text) = Py.Return exts ∧
    length exts = S (Py.count_char "," text) ∧
    Forall (λ e, Py.contains "," e = false ∧ Py.strip e = e) exts.
Proof.
  intros Hstart. unfold Files.parse_allowed_extensions. rewrite Hstart.
  eexists. split; [reflexivity |]. split.
  - by rewrite length_fmap, split_on_length.
  - apply Forall_fmap. eapply Forall_impl; [apply split_on_pieces |].
    intros e He. simpl. split; [| apply strip_idem].
    unfold Py.strip. by apply contains_rstrip, contains_lstrip.
Qed.

Lemma comma_separated_allow_list_witness :
  ∃ exts,
    Files.parse_allowed_extensions (λ _, Py.Raise (Py.ValueError "not JSON"))
      (inl ".pdf, .txt,")
    = Py.Return exts ∧
    length exts = S (Py.count_char "," ".pdf, .txt,") ∧
    Forall (λ e, Py.contains "," e = false ∧ Py.strip e = e) exts.
Proof.
  apply (comma_separated_allow_list _ ".pdf, .txt,"). reflexivity.
Defined.
